(** * Order Buddy: the order / customer consistency and analytics engine

    A shallow embedding of the database trigger functions of the
    migrations (PL/pgSQL) and of the client-side aggregation, export
    and order-creation code (TypeScript), with the properties of the
    specification stated and settled against them.

    Conventions.
    - SQL [NULL] is [None]; SQL conditions are three-valued, and an [IF]
      or a [WHERE] takes its branch only when the condition is true.
    - [NUMERIC] / [DECIMAL] values are rationals ([Q], compared with
      [==]); sums and products are exact, a quotient is rounded to the
      scale that PostgreSQL selects for it, and storing into a
      [DECIMAL(15,2)] column rounds to two decimals, half away from
      zero, and fails when more than 13 integral digits are needed.
    - [integer] is PostgreSQL's 32-bit integer: arithmetic that leaves
      the range raises an error, it does not wrap.
    - [now()] is the start time of the transaction of the write; it is
      an explicit argument. *)

From Stdlib Require Import ZArith QArith Qround Qabs Lqa Lia.
From Stdlib Require Import List String Ascii Bool Arith DecimalString Sorted.
Import ListNotations.

Local Open Scope Z_scope.

(** ** Errors and the error monad of a statement *)

Inductive error : Type :=
| numeric_field_overflow
| integer_out_of_range
| stack_depth_limit_exceeded
| division_by_zero
| type_error.

Inductive outcome (A : Type) : Type :=
| Ok (a : A)
| Err (e : error).
Arguments Ok {A} a.
Arguments Err {A} e.

Definition bind {A B : Type} (m : outcome A) (k : A -> outcome B) : outcome B :=
  match m with
  | Ok a => k a
  | Err e => Err e
  end.

Notation "x <- m ;; k" := (bind m (fun x => k))
  (at level 61, m at next level, right associativity).

(** ** SQL values and three-valued logic *)

Module Sql.

Definition uuid := N.
Definition timestamp := Z.
Definition text := string.
Definition numeric := Q.

(** [a AND b] *)
Definition sql_and (a b : option bool) : option bool :=
  match a, b with
  | Some false, _ => Some false
  | _, Some false => Some false
  | Some true, Some true => Some true
  | _, _ => None
  end.

(** [a OR b] *)
Definition sql_or (a b : option bool) : option bool :=
  match a, b with
  | Some true, _ => Some true
  | _, Some true => Some true
  | Some false, Some false => Some false
  | _, _ => None
  end.

(** [a = b] and [a != b]: unknown as soon as one side is NULL. *)
Definition sql_eq {A : Type} (eqb : A -> A -> bool) (a b : option A) : option bool :=
  match a, b with
  | Some x, Some y => Some (eqb x y)
  | _, _ => None
  end.

Definition sql_neq {A : Type} (eqb : A -> A -> bool) (a b : option A) : option bool :=
  match a, b with
  | Some x, Some y => Some (negb (eqb x y))
  | _, _ => None
  end.

(** The test of [IF c THEN] and of [WHERE c]. *)
Definition is_true (c : option bool) : bool :=
  match c with
  | Some true => true
  | _ => false
  end.

Definition COALESCE {A : Type} (a : option A) (d : A) : A :=
  match a with
  | Some x => x
  | None => d
  end.

(** *** Storing into [DECIMAL(15,2)] *)

(** The number of hundredths nearest to [q], ties away from zero. *)
Definition round_hundredths (q : Q) : Z :=
  if Qle_bool 0 q
  then Qfloor (q * 100 + (1 # 2))
  else - Qfloor (- q * 100 + (1 # 2)).

Definition decimal_15_2 (q : Q) : outcome Q :=
  let z := round_hundredths q in
  if Z.abs z <? 10 ^ 15 then Ok (z # 100)%Q else Err numeric_field_overflow.

(** *** [numeric] arithmetic

    A [numeric] value is held with its display scale, the number of
    decimals it is shown with: a value of a [DECIMAL(p,s)] column has
    scale [s], an integer constant has scale 0.  A sum has the larger
    scale of its operands and a product the sum of their scales; both
    are exact.  A quotient is rounded, ties away from zero, to the
    scale of [select_div_scale]: enough decimals for 16 significant
    digits, counted in digits of base 10000, and at least the scale of
    each operand. *)

Record numeric_var : Type := {
  num_value : Q;
  dscale : nat
}.

Definition NUMERIC_MIN_SIG_DIGITS : Z := 16.
Definition DEC_DIGITS : Z := 4.
Definition NBASE : Z := 10000.
Definition NUMERIC_MAX_DISPLAY_SCALE : Z := 1000.

(** A value of a [DECIMAL(p,s)] column, and an [integer] constant read
    as a [numeric]. *)
Definition decimal (s : nat) (q : Q) : numeric_var :=
  {| num_value := q; dscale := s |}.

Definition int4_numeric (z : Z) : numeric_var :=
  {| num_value := inject_Z z; dscale := 0 |}.

Definition pow10 (s : nat) : Z := 10 ^ Z.of_nat s.

(** [q] rounded to [rscale] decimals, ties away from zero. *)
Definition round_var (q : Q) (rscale : nat) : Q :=
  let scaled := (q * inject_Z (pow10 rscale))%Q in
  let z := if Qle_bool 0 q
           then Qfloor (scaled + (1 # 2))
           else - Qfloor (- scaled + (1 # 2)) in
  (inject_Z z / inject_Z (pow10 rscale))%Q.

(** The weight and the value of the first non-zero digit of base 10000
    of a whole number [z >= 1], counting up from weight [w]. *)
Fixpoint first_digit_int (fuel : nat) (z w : Z) : Z * Z :=
  match fuel with
  | O => (w, z)
  | S fuel' =>
      if z <? NBASE then (w, z) else first_digit_int fuel' (z / NBASE) (w + 1)
  end.

(** The same for a fraction [0 < q < 1], counting down from weight
    [w]. *)
Fixpoint first_digit_frac (fuel : nat) (q : Q) (w : Z) : Z * Z :=
  match fuel with
  | O => (0, 0)
  | S fuel' =>
      let q' := (q * inject_Z NBASE)%Q in
      if Qle_bool 1 q' then (w - 1, Qfloor q') else first_digit_frac fuel' q' (w - 1)
  end.

(** [(weight, firstdigit)] of a value; [(0, 0)] for zero. *)
Definition first_digit (q : Q) : Z * Z :=
  let a := Qabs q in
  if Qeq_bool a 0 then (0, 0)
  else if Qle_bool 1 a
       then first_digit_int (S (Z.to_nat (Z.log2 (Qfloor a)))) (Qfloor a) 0
       else first_digit_frac (S (Z.to_nat (Z.log2 (Zpos (Qden a))))) a 0.

Definition select_div_scale (var1 var2 : numeric_var) : nat :=
  let (weight1, firstdigit1) := first_digit (num_value var1) in
  let (weight2, firstdigit2) := first_digit (num_value var2) in
  let qweight := weight1 - weight2 - (if firstdigit1 <=? firstdigit2 then 1 else 0) in
  let rscale := NUMERIC_MIN_SIG_DIGITS - qweight * DEC_DIGITS in
  let rscale := Z.max rscale (Z.of_nat (dscale var1)) in
  let rscale := Z.max rscale (Z.of_nat (dscale var2)) in
  let rscale := Z.max rscale 0 in
  let rscale := Z.min rscale NUMERIC_MAX_DISPLAY_SCALE in
  Z.to_nat rscale.

Definition add_var (var1 var2 : numeric_var) : numeric_var :=
  {| num_value := (num_value var1 + num_value var2)%Q;
     dscale := Nat.max (dscale var1) (dscale var2) |}.

Definition sub_var (var1 var2 : numeric_var) : numeric_var :=
  {| num_value := (num_value var1 - num_value var2)%Q;
     dscale := Nat.max (dscale var1) (dscale var2) |}.

Definition mul_var (var1 var2 : numeric_var) : numeric_var :=
  {| num_value := (num_value var1 * num_value var2)%Q;
     dscale := (dscale var1 + dscale var2)%nat |}.

Definition div_var (var1 var2 : numeric_var) : outcome numeric_var :=
  if Qeq_bool (num_value var2) 0 then Err division_by_zero
  else
    let rscale := select_div_scale var1 var2 in
    Ok {| num_value := round_var (num_value var1 / num_value var2)%Q rscale;
          dscale := rscale |}.

(** Whether [q] is a value of [DECIMAL(p,s)]: at most [s] decimals and
    at most [p - s] integral digits. *)
Definition fits_decimal (p s : nat) (q : Q) : bool :=
  Qeq_bool (round_var q s) q && negb (Qle_bool (inject_Z (pow10 (p - s))) (Qabs q)).

(** *** 32-bit integers *)

Definition int4_min : Z := - 2 ^ 31.
Definition int4_max : Z := 2 ^ 31 - 1.

Definition int4 (z : Z) : outcome Z :=
  if (int4_min <=? z) && (z <=? int4_max) then Ok z else Err integer_out_of_range.

End Sql.
Import Sql.

(** ** The rows of the ledger *)

(** The columns of [public.orders] that the trigger functions read or
    write.  [to_jsonb] of a row is modelled by the row itself.
    [user_id] and [order_amount] are supplied by every insert of the
    client and are taken as not null. *)
Record order_row : Type := {
  id : uuid;
  order_id : text;
  user_id : uuid;
  customer_name : option text;
  customer_email : option text;
  order_amount : numeric;
  tax_rate : option numeric;
  discount_amount : option numeric;
  total_amount : option numeric;
  status : option text;
  completed_at : option timestamp;
  last_activity_at : option timestamp
}.

Definition set_total_amount (r : order_row) (v : option numeric) : order_row :=
  {| id := id r; order_id := order_id r; user_id := user_id r;
     customer_name := customer_name r; customer_email := customer_email r;
     order_amount := order_amount r; tax_rate := tax_rate r;
     discount_amount := discount_amount r; total_amount := v;
     status := status r; completed_at := completed_at r;
     last_activity_at := last_activity_at r |}.

Definition set_completed_at (r : order_row) (v : option timestamp) : order_row :=
  {| id := id r; order_id := order_id r; user_id := user_id r;
     customer_name := customer_name r; customer_email := customer_email r;
     order_amount := order_amount r; tax_rate := tax_rate r;
     discount_amount := discount_amount r; total_amount := total_amount r;
     status := status r; completed_at := v;
     last_activity_at := last_activity_at r |}.

Definition set_last_activity_at (r : order_row) (v : option timestamp) : order_row :=
  {| id := id r; order_id := order_id r; user_id := user_id r;
     customer_name := customer_name r; customer_email := customer_email r;
     order_amount := order_amount r; tax_rate := tax_rate r;
     discount_amount := discount_amount r; total_amount := total_amount r;
     status := status r; completed_at := completed_at r;
     last_activity_at := v |}.

Definition set_status (r : order_row) (v : option text) : order_row :=
  {| id := id r; order_id := order_id r; user_id := user_id r;
     customer_name := customer_name r; customer_email := customer_email r;
     order_amount := order_amount r; tax_rate := tax_rate r;
     discount_amount := discount_amount r; total_amount := total_amount r;
     status := v; completed_at := completed_at r;
     last_activity_at := last_activity_at r |}.

Inductive tg_op : Type := INSERT | UPDATE | DELETE.

(** ** Derivation Engine: the BEFORE triggers of [public.orders] *)

Module Derivation.

Local Open Scope Q_scope.

(** [public.calculate_order_total].  The [DECIMAL(15,2)] of a
    parameter or of a result type is not enforced by PostgreSQL on
    functions: the arguments keep their values and scales, and the
    result is rounded to two decimals only when it is stored in the
    row.  The quotient by 100 is rounded to the scale selected for
    it. *)
Definition calculate_order_total (order_amount tax_rate discount_amount : numeric_var)
  : outcome numeric_var :=
  tax <- div_var (mul_var order_amount tax_rate) (int4_numeric 100) ;;
  Ok (sub_var (add_var order_amount tax) discount_amount).

(** The scales of the columns that the function is called with:
    [tax_rate DECIMAL(5,2)] and [discount_amount DECIMAL(15,2)] by the
    migration that adds them.  The declaration of [order_amount] is in
    the base table, which is not among the migrations at hand; its
    scale is taken from the parameter it is passed to,
    [order_amount DECIMAL(15,2)]. *)
Definition order_amount_scale : nat := 2.
Definition tax_rate_scale : nat := 2.
Definition discount_amount_scale : nat := 2.

(** [OLD.status]: in an INSERT trigger [OLD] is the null record
    (PostgreSQL 11 and later), so that [OLD.status] is NULL. *)
Definition OLD_status (OLD : option order_row) : option text :=
  match OLD with
  | Some o => status o
  | None => None
  end.

Definition becomes_completed (OLD : option order_row) (NEW : order_row) : bool :=
  is_true (sql_and (sql_eq String.eqb (status NEW) (Some "completed"%string))
                   (sql_neq String.eqb (OLD_status OLD) (Some "completed"%string))).

(** [public.update_order_total], trigger [trigger_update_order_total]
    BEFORE INSERT OR UPDATE. *)
Definition update_order_total (now : timestamp) (OLD : option order_row) (NEW : order_row)
  : outcome order_row :=
  total <- calculate_order_total
             (decimal order_amount_scale (order_amount NEW))
             (COALESCE (option_map (decimal tax_rate_scale) (tax_rate NEW))
                       (int4_numeric 0))
             (COALESCE (option_map (decimal discount_amount_scale) (discount_amount NEW))
                       (int4_numeric 0)) ;;
  t <- decimal_15_2 (num_value total) ;;
  let NEW1 := set_total_amount NEW (Some t) in
  Ok (if becomes_completed OLD NEW1 then set_completed_at NEW1 (Some now) else NEW1).

(** [public.set_order_last_activity], trigger
    [set_order_last_activity_trigger] BEFORE INSERT OR UPDATE. *)
Definition set_order_last_activity (op : tg_op) (now : timestamp) (NEW : order_row) : order_row :=
  match op with
  | INSERT => set_last_activity_at NEW (Some (COALESCE (last_activity_at NEW) now))
  | _ => set_last_activity_at NEW (Some now)
  end.

(** The BEFORE row triggers fire in the order of their names:
    [set_order_last_activity_trigger], then
    [trigger_update_order_total].  ([update_orders_updated_at] only
    touches [updated_at].) *)
Definition before_row (op : tg_op) (now : timestamp) (OLD : option order_row) (NEW : order_row)
  : outcome order_row :=
  update_order_total now OLD (set_order_last_activity op now NEW).

(** The formula of the specification, with absent tax and discount
    read as zero. *)
Definition spec_total (o : order_row) : Q :=
  let tax := match tax_rate o with Some t => t | None => 0 end in
  let discount := match discount_amount o with Some d => d | None => 0 end in
  order_amount o + order_amount o * tax / 100 - discount.

(** The row has the types of its columns, as every row that reaches
    the triggers has: [order_amount] and [discount_amount] are values
    of [DECIMAL(15,2)], [tax_rate] is a value of [DECIMAL(5,2)]. *)
Definition column_typed (o : order_row) : bool :=
  fits_decimal 15 order_amount_scale (order_amount o)
  && match tax_rate o with
     | Some t => fits_decimal 5 tax_rate_scale t
     | None => true
     end
  && match discount_amount o with
     | Some d => fits_decimal 15 discount_amount_scale d
     | None => true
     end.

(** The product that [calculate_order_total] divides by 100. *)
Definition taxed_product (o : order_row) : Q :=
  order_amount o * match tax_rate o with Some t => t | None => 0 end.

(** The call of [calculate_order_total] that [update_order_total]
    makes for a row. *)
Definition order_total (o : order_row) : outcome numeric_var :=
  calculate_order_total
    (decimal order_amount_scale (order_amount o))
    (COALESCE (option_map (decimal tax_rate_scale) (tax_rate o)) (int4_numeric 0))
    (COALESCE (option_map (decimal discount_amount_scale) (discount_amount o))
              (int4_numeric 0)).

(** *** The writes of one order row *)

(** An update statement is given by its [SET] clause. *)
Definition write_insert (now : timestamp) (cand : order_row) : outcome order_row :=
  before_row INSERT now None cand.

Definition write_update (now : timestamp) (set : order_row -> order_row) (OLD : order_row)
  : outcome order_row :=
  before_row UPDATE now (Some OLD) (set OLD).

(** The successive stored versions of a row under a list of updates,
    most recent last. *)
Fixpoint versions (cur : order_row) (ws : list (timestamp * (order_row -> order_row)))
  : outcome (list order_row) :=
  match ws with
  | [] => Ok [cur]
  | (now, set) :: ws' =>
      nxt <- write_update now set cur ;;
      rest <- versions nxt ws' ;;
      Ok (cur :: rest)
  end.

Definition history (now0 : timestamp) (cand : order_row)
           (ws : list (timestamp * (order_row -> order_row))) : outcome (list order_row) :=
  first <- write_insert now0 cand ;;
  versions first ws.

End Derivation.

(** ** Customer Rollup: [public.update_customer_stats]

    The migrations at hand define the function and attach it to no
    trigger; it is modelled as a function of the operation, of the old
    and new order rows and of the [customers] table. *)

Module Rollup.

(** The columns of [public.customers] that the rollup reads or
    writes.  [total_orders integer DEFAULT 0] and
    [total_spent numeric DEFAULT 0.00] are nullable. *)
Record customer_row : Type := {
  c_id : uuid;
  c_user_id : uuid;
  name : text;
  email : option text;
  total_orders : option Z;
  total_spent : option numeric
}.

(** [WHERE user_id = o.user_id
      AND (name = o.customer_name OR email = o.customer_email)] *)
Definition matches (o : order_row) (c : customer_row) : bool :=
  is_true (sql_and (sql_eq N.eqb (Some (c_user_id c)) (Some (user_id o)))
                   (sql_or (sql_eq String.eqb (Some (name c)) (customer_name o))
                           (sql_eq String.eqb (email c) (customer_email o)))).

Definition set_stats (c : customer_row) (n : option Z) (s : option numeric) : customer_row :=
  {| c_id := c_id c; c_user_id := c_user_id c; name := name c; email := email c;
     total_orders := n; total_spent := s |}.

(** An [integer] expression over a nullable column. *)
Definition int4_expr (f : Z -> Z) (n : option Z) : outcome (option Z) :=
  match n with
  | Some n => (m <- int4 (f n) ;; Ok (Some m))
  | None => Ok None
  end.

(** [SET total_orders = total_orders + 1,
        total_spent = total_spent + o.order_amount] *)
Definition add_order (o : order_row) (c : customer_row) : outcome customer_row :=
  n <- int4_expr (fun n => n + 1) (total_orders c) ;;
  Ok (set_stats c n (option_map (fun s => s + order_amount o)%Q (total_spent c))).

(** [SET total_orders = total_orders - 1,
        total_spent = total_spent - o.order_amount] *)
Definition remove_order (o : order_row) (c : customer_row) : outcome customer_row :=
  n <- int4_expr (fun n => n - 1) (total_orders c) ;;
  Ok (set_stats c n (option_map (fun s => s - order_amount o)%Q (total_spent c))).

(** [UPDATE public.customers SET ... WHERE ...]: every row that
    satisfies the condition is rewritten; an error on one row aborts
    the statement. *)
Fixpoint UPDATE_customers (where_ : customer_row -> bool)
         (set : customer_row -> outcome customer_row) (cs : list customer_row)
  : outcome (list customer_row) :=
  match cs with
  | [] => Ok []
  | c :: cs' =>
      c' <- (if where_ c then set c else Ok c) ;;
      rest <- UPDATE_customers where_ set cs' ;;
      Ok (c' :: rest)
  end.

Definition increase (o : order_row) (cs : list customer_row) : outcome (list customer_row) :=
  UPDATE_customers (matches o) (add_order o) cs.

Definition decrease (o : order_row) (cs : list customer_row) : outcome (list customer_row) :=
  UPDATE_customers (matches o) (remove_order o) cs.

(** The trigger function.  [OLD] is absent on INSERT and [NEW] on
    DELETE; a branch whose record is absent cannot be reached from a
    trigger and is a no-op here. *)
Definition update_customer_stats (op : tg_op) (OLD NEW : option order_row)
           (cs : list customer_row) : outcome (list customer_row) :=
  match op, OLD, NEW with
  | INSERT, _, Some new => increase new cs
  | UPDATE, Some old, Some new =>
      cs1 <- decrease old cs ;;
      increase new cs1
  | DELETE, Some old, _ => decrease old cs
  | _, _, _ => Ok cs
  end.

(** Two customer rows that agree up to the value of [total_spent]. *)
Definition opt_Qeq (a b : option Q) : Prop :=
  match a, b with
  | Some x, Some y => (x == y)%Q
  | None, None => True
  | _, _ => False
  end.

Definition same_customer (c c' : customer_row) : Prop :=
  c_id c' = c_id c /\ c_user_id c' = c_user_id c /\ name c' = name c /\
  email c' = email c /\ total_orders c' = total_orders c /\
  opt_Qeq (total_spent c') (total_spent c).

(** The row [c'] is [c] with one more order of the given amount. *)
Definition one_more (amount : Q) (c c' : customer_row) : Prop :=
  c_id c' = c_id c /\ c_user_id c' = c_user_id c /\ name c' = name c /\
  email c' = email c /\
  total_orders c' = option_map (fun n => n + 1) (total_orders c) /\
  total_spent c' = option_map (fun s => s + amount)%Q (total_spent c).


(** The values an [integer] column can hold. *)
Definition wf_customer (c : customer_row) : Prop :=
  forall n, total_orders c = Some n -> int4_min <= n <= int4_max.

End Rollup.

(** ** Activity Logger and the firing of the triggers of [public.orders] *)

Module Ledger.

(** A row of [public.order_activities] ([id] is generated). *)
Record activity_row : Type := {
  act_order_id : uuid;
  act_user_id : uuid;
  activity_type : text;
  description : text;
  old_values : option order_row;
  new_values : option order_row;
  created_at : timestamp
}.

Inductive trigger_fn : Type :=
| fn_set_order_last_activity
| fn_update_order_total
| fn_log_order_activity.

(** The tables, and the log of the trigger functions that have run
    (kept only to state which triggers a statement fires). *)
Record db : Type := {
  orders : list order_row;
  order_activities : list activity_row;
  fired : list trigger_fn
}.

Definition fire (f : trigger_fn) (d : db) : db :=
  {| orders := orders d; order_activities := order_activities d;
     fired := fired d ++ [f] |}.

Definition INSERT_order_activities (a : activity_row) (d : db) : db :=
  {| orders := orders d; order_activities := order_activities d ++ [a];
     fired := fired d |}.

Definition set_orders (rs : list order_row) (d : db) : db :=
  {| orders := rs; order_activities := order_activities d; fired := fired d |}.

Definition created_activity (now : timestamp) (NEW : order_row) : activity_row :=
  {| act_order_id := id NEW; act_user_id := user_id NEW;
     activity_type := "created"%string; description := "Order created"%string;
     old_values := None; new_values := Some NEW; created_at := now |}.

Definition updated_activity (now : timestamp) (OLD NEW : order_row) : activity_row :=
  {| act_order_id := id NEW; act_user_id := user_id NEW;
     activity_type := "updated"%string; description := "Order updated"%string;
     old_values := Some OLD; new_values := Some NEW; created_at := now |}.

(** [public.log_order_activity] as the last migration leaves it: an
    AFTER INSERT OR UPDATE row trigger that only inserts into
    [order_activities]. *)
Definition log_order_activity (op : tg_op) (now : timestamp)
           (OLD : option order_row) (NEW : order_row) (d : db) : outcome db :=
  match op, OLD with
  | INSERT, _ => Ok (INSERT_order_activities (created_activity now NEW) d)
  | UPDATE, Some old => Ok (INSERT_order_activities (updated_activity now old NEW) d)
  | _, _ => Ok d
  end.

(** [public.log_order_activity] of migration 20250921065616: the AFTER
    trigger first runs [UPDATE public.orders SET last_activity_at =
    now() WHERE id = NEW.id], a statement on [orders] given here as
    [UPDATE_orders_stmt]. *)
Definition log_order_activity_20250921065616
           (UPDATE_orders_stmt : uuid -> (order_row -> order_row) -> db -> outcome db)
           (op : tg_op) (now : timestamp)
           (OLD : option order_row) (NEW : order_row) (d : db) : outcome db :=
  match op, OLD with
  | INSERT, _ =>
      d1 <- UPDATE_orders_stmt (id NEW) (fun r => set_last_activity_at r (Some now)) d ;;
      Ok (INSERT_order_activities (created_activity now NEW) d1)
  | UPDATE, Some old =>
      d1 <- UPDATE_orders_stmt (id NEW) (fun r => set_last_activity_at r (Some now)) d ;;
      Ok (INSERT_order_activities (updated_activity now old NEW) d1)
  | _, _ => Ok d
  end.

(** The two states of the schema: after migration 20250921065616, and
    after the migration that fixes the recursion. *)
Inductive schema : Type := logger_updates_orders | logger_inserts_only.

(** The BEFORE row triggers.  [set_order_last_activity_trigger] is
    created by the last migration. *)
Definition before_triggers (sch : schema) (op : tg_op) (now : timestamp)
           (OLD : option order_row) (NEW : order_row) (d : db) : outcome (order_row * db) :=
  match sch with
  | logger_updates_orders =>
      NEW1 <- Derivation.update_order_total now OLD NEW ;;
      Ok (NEW1, fire fn_update_order_total d)
  | logger_inserts_only =>
      NEW1 <- Derivation.before_row op now OLD NEW ;;
      Ok (NEW1, fire fn_update_order_total (fire fn_set_order_last_activity d))
  end.

Definition find_row (target : uuid) (rs : list order_row) : option order_row :=
  find (fun r => N.eqb (id r) target) rs.

(** Replaces the row whose primary key is [target]. *)
Fixpoint replace_row (target : uuid) (r' : order_row) (rs : list order_row) : list order_row :=
  match rs with
  | [] => []
  | r :: rs' =>
      if N.eqb (id r) target then r' :: rs' else r :: replace_row target r' rs'
  end.

(** [UPDATE public.orders SET ... WHERE id = target].  [depth] bounds
    the nesting of statements run from triggers (the stack depth
    limit). *)
Fixpoint UPDATE_orders (sch : schema) (depth : nat) (now : timestamp)
         (target : uuid) (set : order_row -> order_row) (d : db) : outcome db :=
  match depth with
  | O => Err stack_depth_limit_exceeded
  | S depth' =>
      match find_row target (orders d) with
      | None => Ok d
      | Some OLD =>
          r <- before_triggers sch UPDATE now (Some OLD) (set OLD) d ;;
          let (NEW, d1) := r in
          let d2 := fire fn_log_order_activity
                         (set_orders (replace_row target NEW (orders d1)) d1) in
          match sch with
          | logger_updates_orders =>
              log_order_activity_20250921065616
                (UPDATE_orders sch depth' now) UPDATE now (Some OLD) NEW d2
          | logger_inserts_only =>
              log_order_activity UPDATE now (Some OLD) NEW d2
          end
      end
  end.

(** [INSERT INTO public.orders VALUES (cand)].  The key [id] of
    [orders], which [order_activities.order_id] references, is declared
    with the base table, and that is not among the migrations at hand:
    the statement is given for a row under a key that is not yet in
    the table. *)
Definition INSERT_orders (sch : schema) (depth : nat) (now : timestamp)
           (cand : order_row) (d : db) : outcome db :=
  match depth with
  | O => Err stack_depth_limit_exceeded
  | S depth' =>
      r <- before_triggers sch INSERT now None cand d ;;
      let (NEW, d1) := r in
      let d2 := fire fn_log_order_activity (set_orders (orders d1 ++ [NEW]) d1) in
      match sch with
      | logger_updates_orders =>
          log_order_activity_20250921065616
            (UPDATE_orders sch depth' now) INSERT now None NEW d2
      | logger_inserts_only =>
          log_order_activity INSERT now None NEW d2
      end
  end.

End Ledger.

(** ** Local calendar dates (JavaScript [Date] read through its local
       fields, date-fns [subDays] and [format]) *)

Module Calendar.

(** A valid [Date], by its local fields: [getFullYear], [getMonth]
    (0 to 11), [getDate] (1 to 31) and the milliseconds elapsed in the
    day. *)
Record Date : Type := {
  year : Z;
  month : nat;
  day : nat;
  time_of_day : Z
}.

Definition is_leap (y : Z) : bool :=
  (y mod 4 =? 0) && (negb (y mod 100 =? 0) || (y mod 400 =? 0)).

Definition leap_day (y : Z) : Z := if is_leap y then 1 else 0.

Definition days_in_month (y : Z) (m : nat) : nat :=
  match m with
  | 1 => if is_leap y then 29 else 28
  | 3 | 5 | 8 | 10 => 30
  | _ => 31
  end%nat.

Definition valid (d : Date) : bool :=
  (month d <? 12)%nat && (1 <=? day d)%nat && (day d <=? days_in_month (year d) (month d))%nat.

(** The day before, at the same time of day. *)
Definition prev_day (d : Date) : Date :=
  if (1 <? day d)%nat
  then {| year := year d; month := month d; day := (day d - 1)%nat;
          time_of_day := time_of_day d |}
  else match month d with
       | O => {| year := year d - 1; month := 11; day := 31;
                 time_of_day := time_of_day d |}
       | S m => {| year := year d; month := m; day := days_in_month (year d) m;
                   time_of_day := time_of_day d |}
       end.

(** [subDays(date, amount)]: [setDate(getDate() - amount)]. *)
Fixpoint subDays (d : Date) (amount : nat) : Date :=
  match amount with
  | O => d
  | S n => subDays (prev_day d) n
  end.

(** Days elapsed since the first of January of year 1. *)
Definition days_before_year (y : Z) : Z :=
  365 * (y - 1) + (y - 1) / 4 - (y - 1) / 100 + (y - 1) / 400.

Fixpoint days_before_month (y : Z) (m : nat) : Z :=
  match m with
  | O => 0
  | S k => days_before_month y k + Z.of_nat (days_in_month y k)
  end.

Definition day_number (d : Date) : Z :=
  days_before_year (year d) + days_before_month (year d) (month d) + Z.of_nat (day d) - 1.

(** The time of day lies within the day. *)
Definition valid_time (d : Date) : bool :=
  (0 <=? time_of_day d) && (time_of_day d <? 86400000).

(** The same local calendar day. *)
Definition same_day (a b : Date) : bool :=
  (year a =? year b) && (month a =? month b)%nat && (day a =? day b)%nat.

(** [getTime()], up to the constant offset of the time zone. *)
Definition getTime (d : Date) : Z :=
  day_number d * 86400000 + time_of_day d.

(** [a >= b] on dates *)
Definition Date_geb (a b : Date) : bool := getTime b <=? getTime a.

Definition month_abbr (m : nat) : string :=
  nth m ["Jan"; "Feb"; "Mar"; "Apr"; "May"; "Jun";
         "Jul"; "Aug"; "Sep"; "Oct"; "Nov"; "Dec"]%string EmptyString.

Definition digit (n : nat) : ascii := ascii_of_nat (48 + n).

Definition two_digits (n : nat) : string :=
  String (digit (n / 10)) (String (digit (n mod 10)) EmptyString).

Definition label_of (m d : nat) : string :=
  (month_abbr m ++ " " ++ two_digits d)%string.

(** [format(date, "MMM dd")] *)
Definition format_MMM_dd (d : Date) : string :=
  label_of (month d) (day d).

(** Whether the labels of the days of a year are pairwise distinct,
    by enumeration. *)
Definition labels_distinct : bool :=
  forallb (fun m1 =>
  forallb (fun d1 =>
  forallb (fun m2 =>
  forallb (fun d2 =>
    implb (String.eqb (label_of m1 d1) (label_of m2 d2))
          ((m1 =? m2)%nat && (d1 =? d2)%nat))
    (seq 0 32)) (seq 0 12)) (seq 0 32)) (seq 0 12).

End Calendar.

(** ** The client: analytics, export and order creation *)

Module Client.
Import Calendar.

Section WithNumber.

(** JavaScript numbers are kept abstract: [num_add] is [+], [truthy n]
    tells whether [n] is neither [0] nor [NaN], and [num_to_string] is
    the conversion to a string done by [join]. *)
Variable number : Type.
Variable num_zero : number.
Variable num_add : number -> number -> number.
Variable truthy : number -> bool.
Variable num_to_string : number -> string.

(** [new Date(s)] for the timestamps the store returns. *)
Variable new_Date : string -> Date.

(** The [Order] of [types/order.ts] (the fields used below); an
    optional field that is [undefined] is [None].  The field [status]
    is named [orderStatus] here. *)
Record Order : Type := {
  orderId : string;
  customerName : string;
  customerEmail : option string;
  orderAmount : number;
  totalAmount : option number;
  orderDate : string;
  dueDate : option string;
  orderStatus : string;
  priority : option string;
  notes : option string
}.

(** [order.totalAmount || order.orderAmount] *)
Definition revenue_of (order : Order) : number :=
  match totalAmount order with
  | Some t => if truthy t then t else orderAmount order
  | None => orderAmount order
  end.

(** [s || d] on an optional string: the empty string is falsy too. *)
Definition or_string (s : option string) (d : string) : string :=
  match s with
  | Some EmptyString => d
  | Some x => x
  | None => d
  end.

(** *** Objects used as maps

    The own string keys of an object that are not array indices are
    enumerated in the order of their creation; assigning to an existing
    key keeps its place.  The keys below ("MMM dd" labels) are never
    array indices. *)

Fixpoint obj_get {V : Type} (k : string) (o : list (string * V)) : option V :=
  match o with
  | [] => None
  | (k', v) :: o' => if String.eqb k k' then Some v else obj_get k o'
  end.

Fixpoint obj_set {V : Type} (k : string) (v : V) (o : list (string * V)) : list (string * V) :=
  match o with
  | [] => [(k, v)]
  | (k', v') :: o' =>
      if String.eqb k k' then (k, v) :: o' else (k', v') :: obj_set k v o'
  end.

(** *** [calculateAnalytics]: the daily series *)

Record bucket : Type := { revenue : number; orders : nat }.

Record daily_entry : Type := { date : string; day_revenue : number; day_orders : nat }.

(** [dateRange === "7d" ? 7 : dateRange === "30d" ? 30 : 90] *)
Definition daysBack_of (dateRange : string) : nat :=
  if String.eqb dateRange "7d" then 7%nat
  else if String.eqb dateRange "30d" then 30%nat
  else 90%nat.

(** [orders.filter(order => new Date(order.orderDate) >= startDate)]
    with [startDate = subDays(now, daysBack)] *)
Definition filteredOrders (all : list Order) (now : Date) (daysBack : nat) : list Order :=
  filter (fun order => Date_geb (new_Date (orderDate order)) (subDays now daysBack)) all.

(** [for (let i = 0; i < daysBack; i++)
       dailyData[format(subDays(now, i), "MMM dd")] = { revenue: 0, orders: 0 }] *)
Definition init_dailyData (now : Date) (daysBack : nat) : list (string * bucket) :=
  fold_left (fun dailyData i =>
               obj_set (format_MMM_dd (subDays now i))
                       {| revenue := num_zero; orders := 0 |} dailyData)
            (seq 0 daysBack) [].

(** The body of [filteredOrders.forEach]. *)
Definition add_to_dailyData (dailyData : list (string * bucket)) (order : Order)
  : list (string * bucket) :=
  let dateStr := format_MMM_dd (new_Date (orderDate order)) in
  match obj_get dateStr dailyData with
  | Some b =>
      obj_set dateStr
              {| revenue := num_add (revenue b) (revenue_of order);
                 orders := orders b + 1 |} dailyData
  | None => dailyData
  end.

(** [Object.entries(dailyData).map(([date, data]) => ({ date, ...data })).reverse()] *)
Definition dailyRevenue (all : list Order) (now : Date) (daysBack : nat) : list daily_entry :=
  rev (map (fun e => {| date := fst e; day_revenue := revenue (snd e);
                        day_orders := orders (snd e) |})
           (fold_left add_to_dailyData (filteredOrders all now daysBack)
                      (init_dailyData now daysBack))).

(** The orders of the selection that carry the label of a bucket. *)
Definition labelled (label : string) (os : list Order) : list Order :=
  filter (fun order => String.eqb (format_MMM_dd (new_Date (orderDate order))) label) os.

Definition sum_revenue (os : list Order) : number :=
  fold_left (fun sum order => num_add sum (revenue_of order)) os num_zero.

(** The bucket of a label once the orders [os] have been added to [b]. *)
Definition filled (k : string) (os : list Order) (b : bucket) : bucket :=
  {| revenue := fold_left (fun sum order => num_add sum (revenue_of order))
                          (labelled k os) (revenue b);
     orders := orders b + List.length (labelled k os) |}.

(** *** [ExportMenu.handleExport] and [BulkOrderActions.exportOrders] *)

Record ExportOptions : Type := {
  format : string;
  columns : list string
}.

(** The call of [onExport] made by [handleExport], if any: with no
    column selected the handler shows a toast and returns. *)
Definition handleExport (selectedFormat : string) (selectedColumns : list string)
  : option ExportOptions :=
  if (List.length selectedColumns =? 0)%nat then None
  else Some {| format := selectedFormat; columns := selectedColumns |}.

(** One element of [csvData]: an object literal, hence its keys in the
    order written. *)
Definition csv_object (order : Order) : list (string * string) :=
  [ ("Order ID", orderId order);
    ("Customer", customerName order);
    ("Email", or_string (customerEmail order) EmptyString);
    ("Amount", num_to_string (orderAmount order));
    ("Total", num_to_string (revenue_of order));
    ("Status", orderStatus order);
    ("Priority", or_string (priority order) "medium");
    ("Date", orderDate order);
    ("Due Date", or_string (dueDate order) EmptyString);
    ("Notes", or_string (notes order) EmptyString) ]%string.

Definition newline : string := String (ascii_of_nat 10) EmptyString.

(** The header and the rows before they are joined.  With no element
    in [csvData], [Object.keys(csvData[0])] throws. *)
Definition export_table (selectedOrdersData : list Order) : outcome (list (list string)) :=
  let csvData := map csv_object selectedOrdersData in
  match csvData with
  | [] => Err type_error
  | first :: _ => Ok (map fst first :: map (fun row => map snd row) csvData)
  end.

(** [csvContent] of [exportOrders]; the selection is
    [orders.filter(order => selectedOrders.includes(order.orderId))]. *)
Definition exportOrders (all : list Order) (selectedOrders : list string) : outcome string :=
  let selectedOrdersData :=
    filter (fun order => existsb (String.eqb (orderId order)) selectedOrders) all in
  table <- export_table selectedOrdersData ;;
  Ok (String.concat newline (map (String.concat ",") table)).

(** *** [useOrders]: [createOrder] and [deleteOrder] *)

(** [String(n)] for a natural number. *)
Definition String_of_nat (n : nat) : string :=
  NilEmpty.string_of_uint (Nat.to_uint n).

Fixpoint repeat_char (c : ascii) (n : nat) : string :=
  match n with
  | O => EmptyString
  | S k => String c (repeat_char c k)
  end.

(** [s.padStart(targetLength, c)] for a one-character pad. *)
Definition padStart (s : string) (targetLength : nat) (c : ascii) : string :=
  (repeat_char c (targetLength - String.length s) ++ s)%string.

(** [`ORD-${String(orderCount + 1).padStart(3, '0')}`] with
    [orderCount = orders.length] *)
Definition new_orderId (orders : list Order) : string :=
  ("ORD-" ++ padStart (String_of_nat (List.length orders + 1)) 3 "0"%char)%string.

Record CreateOrderRequest : Type := {
  req_customerName : string;
  req_orderAmount : number
}.

(** [createOrder] when the user is signed in and the insert succeeds:
    the new order and the new state [[newOrder, ...prev]].  The store
    supplies [order_date] and [status]. *)
Definition createOrder (orders : list Order) (orderRequest : CreateOrderRequest)
           (order_date status : string) : Order * list Order :=
  let newOrder :=
    {| orderId := new_orderId orders;
       customerName := req_customerName orderRequest;
       customerEmail := None;
       orderAmount := req_orderAmount orderRequest;
       totalAmount := None;
       orderDate := order_date;
       dueDate := None;
       orderStatus := status;
       priority := None;
       notes := None |} in
  (newOrder, newOrder :: orders).

(** [deleteOrder] when the delete succeeds:
    [prev.filter(order => order.orderId !== orderId)] *)
Definition deleteOrder (orders : list Order) (target : string) : list Order :=
  filter (fun order => negb (String.eqb (orderId order) target)) orders.

End WithNumber.

Arguments revenue_of {number}.
Arguments filteredOrders {number}.
Arguments init_dailyData {number}.
Arguments add_to_dailyData {number}.
Arguments dailyRevenue {number}.
Arguments labelled {number}.
Arguments sum_revenue {number}.
Arguments filled {number}.
Arguments csv_object {number}.
Arguments export_table {number}.
Arguments exportOrders {number}.
Arguments new_orderId {number}.
Arguments createOrder {number}.
Arguments deleteOrder {number}.
Arguments orderId {number}.
Arguments customerName {number}.
Arguments orderAmount {number}.
Arguments totalAmount {number}.
Arguments orderDate {number}.
Arguments orderStatus {number}.
Arguments revenue {number}.
Arguments orders {number}.
Arguments date {number}.
Arguments day_revenue {number}.
Arguments day_orders {number}.
Arguments req_customerName {number}.
Arguments req_orderAmount {number}.

End Client.

(** ** Sample rows *)

Module Samples.
Local Open Scope Q_scope.

Definition sample_order : order_row :=
  {| id := 1%N; order_id := "ORD-001"%string; user_id := 7%N;
     customer_name := Some "Asha"%string; customer_email := None;
     order_amount := 1000; tax_rate := Some 10; discount_amount := Some 50;
     total_amount := None; status := Some "pending"%string;
     completed_at := None; last_activity_at := None |}.

(** One hundredth at 10 percent: the exact total is 0.011, the stored
    one 0.01. *)
Definition fractional_order : order_row :=
  {| id := 2%N; order_id := "ORD-002"%string; user_id := 7%N;
     customer_name := Some "Asha"%string; customer_email := None;
     order_amount := 1 # 100; tax_rate := Some 10; discount_amount := None;
     total_amount := None; status := Some "pending"%string;
     completed_at := None; last_activity_at := None |}.

(** An amount of 13 integral digits at 149.95 percent: the product
    exceeds 1.01e14, the quotient by 100 is rounded to four decimals,
    1499500000000.0150, and the total 2499500000000.0250 is stored as
    2499500000000.03; the exact total is 2499500000000.024995. *)
Definition rounded_twice_order : order_row :=
  {| id := 4%N; order_id := "ORD-004"%string; user_id := 7%N;
     customer_name := Some "Asha"%string; customer_email := None;
     order_amount := 100000000000001 # 100; tax_rate := Some (14995 # 100);
     discount_amount := None;
     total_amount := None; status := Some "pending"%string;
     completed_at := None; last_activity_at := None |}.

(** An order that is completed, reopened and completed again: the
    updates only set [status]. *)
Definition to_status (s : string) (r : order_row) : order_row :=
  set_status r (Some s).

Definition reopened_writes : list (timestamp * (order_row -> order_row)) :=
  [ (2%Z, to_status "completed"); (3%Z, to_status "pending");
    (4%Z, to_status "completed") ].

(** An insert that carries its own [last_activity_at]. *)
Definition postdated_order : order_row :=
  set_last_activity_at sample_order (Some 100%Z).

(** Two customers of the same owner under the same name, and one of
    another owner. *)
Definition asha_1 : Rollup.customer_row :=
  {| Rollup.c_id := 11%N; Rollup.c_user_id := 7%N; Rollup.name := "Asha"%string;
     Rollup.email := None; Rollup.total_orders := Some 0%Z;
     Rollup.total_spent := Some 0 |}.

Definition asha_2 : Rollup.customer_row :=
  {| Rollup.c_id := 12%N; Rollup.c_user_id := 7%N; Rollup.name := "Asha"%string;
     Rollup.email := Some "asha@example.org"%string; Rollup.total_orders := Some 0%Z;
     Rollup.total_spent := Some 0 |}.

Definition asha_other_owner : Rollup.customer_row :=
  {| Rollup.c_id := 13%N; Rollup.c_user_id := 8%N; Rollup.name := "Asha"%string;
     Rollup.email := None; Rollup.total_orders := Some 3%Z;
     Rollup.total_spent := Some 250 |}.

(** The sample order with its amount changed from 1000 to 1200. *)
Definition sample_order_1200 : order_row :=
  {| id := id sample_order; order_id := order_id sample_order;
     user_id := user_id sample_order;
     customer_name := customer_name sample_order;
     customer_email := customer_email sample_order;
     order_amount := 1200; tax_rate := tax_rate sample_order;
     discount_amount := discount_amount sample_order;
     total_amount := total_amount sample_order; status := status sample_order;
     completed_at := completed_at sample_order;
     last_activity_at := last_activity_at sample_order |}.

(** A ledger that holds the sample order, as persisted at time 1. *)
Definition sample_stored : order_row :=
  set_total_amount (set_last_activity_at sample_order (Some 1%Z)) (Some (105000 # 100)).

Definition sample_db : Ledger.db :=
  {| Ledger.orders := [sample_stored]; Ledger.order_activities := [];
     Ledger.fired := [] |}.

(** A fifth of March in a leap year, at noon. *)
Definition sample_now : Calendar.Date :=
  {| Calendar.year := 2024; Calendar.month := 2; Calendar.day := 5;
     Calendar.time_of_day := 43200000 |}.

(** [new Date] on the three dates of the client-side samples. *)
Definition sample_new_Date (s : string) : Calendar.Date :=
  if String.eqb s "2024-03-01" then
    {| Calendar.year := 2024; Calendar.month := 2; Calendar.day := 1;
       Calendar.time_of_day := 0 |}
  else if String.eqb s "2024-03-02" then
    {| Calendar.year := 2024; Calendar.month := 2; Calendar.day := 2;
       Calendar.time_of_day := 0 |}
  else
    {| Calendar.year := 2024; Calendar.month := 2; Calendar.day := 3;
       Calendar.time_of_day := 0 |}.

(** Client-side samples, with integers for the numbers. *)
Definition truthy_Z (n : Z) : bool := negb (n =? 0)%Z.

Definition Z_to_string (n : Z) : string :=
  match n with
  | Z0 => "0"
  | Zpos p => NilEmpty.string_of_uint (Pos.to_uint p)
  | Zneg p => String "-" (NilEmpty.string_of_uint (Pos.to_uint p))
  end%string.

Definition client_order (oid customer : string) (amount : Z) (order_date : string)
  : Client.Order Z :=
  {| Client.orderId := oid; Client.customerName := customer;
     Client.customerEmail := None; Client.orderAmount := amount;
     Client.totalAmount := None; Client.orderDate := order_date;
     Client.dueDate := None; Client.orderStatus := "pending"%string;
     Client.priority := None; Client.notes := None |}.

Definition march_orders : list (Client.Order Z) :=
  [ client_order "ORD-001" "Asha" 1000%Z "2024-03-01";
    client_order "ORD-002" "Bela" 250%Z "2024-03-02";
    client_order "ORD-003" "Asha" 75%Z "2024-03-02" ].

(** An order dated the third of March of the year after, and
    [new Date] on its date. *)
Definition later_new_Date (s : string) : Calendar.Date :=
  if String.eqb s "2025-03-03" then
    {| Calendar.year := 2025; Calendar.month := 2; Calendar.day := 3;
       Calendar.time_of_day := 0 |}
  else sample_new_Date s.

Definition later_orders : list (Client.Order Z) :=
  [ client_order "ORD-009" "Dara" 777%Z "2025-03-03" ].

Definition request (customer : string) (amount : Z) : Client.CreateOrderRequest Z :=
  {| Client.req_customerName := customer; Client.req_orderAmount := amount |}.

(** Two orders are created, the first one is deleted, a third one is
    created. *)
Definition after_first : Client.Order Z * list (Client.Order Z) :=
  Client.createOrder [] (request "Asha" 1000%Z) "2024-03-01" "pending".

Definition after_second : Client.Order Z * list (Client.Order Z) :=
  Client.createOrder (snd after_first) (request "Bela" 250%Z) "2024-03-02" "pending".

Definition after_delete : list (Client.Order Z) :=
  Client.deleteOrder (snd after_second) (Client.orderId (fst after_first)).

Definition after_third : Client.Order Z * list (Client.Order Z) :=
  Client.createOrder after_delete (request "Chitra" 75%Z) "2024-03-03" "pending".

End Samples.

From Stdlib Require Import Permutation DecimalNat.

(** ** Customer Rollup along a history of orders *)

Module RollupHistory.
Import Rollup.

(** One firing of the trigger function: the operation with its old
    and new order rows. *)
Inductive event : Type :=
| Inserted (o : order_row)
| Updated (old new : order_row)
| Deleted (old : order_row).

Definition fire_event (e : event) (cs : list customer_row) : outcome (list customer_row) :=
  match e with
  | Inserted o => update_customer_stats INSERT None (Some o) cs
  | Updated old new => update_customer_stats UPDATE (Some old) (Some new) cs
  | Deleted old => update_customer_stats DELETE (Some old) None cs
  end.

Fixpoint fire_events (es : list event) (cs : list customer_row)
  : outcome (list customer_row) :=
  match es with
  | [] => Ok cs
  | e :: es' => cs1 <- fire_event e cs ;; fire_events es' cs1
  end.

(** The order rows an event carries, and their owners. *)
Definition rows_of (e : event) : list order_row :=
  match e with
  | Inserted o => [o]
  | Updated old new => [old; new]
  | Deleted old => [old]
  end.

Definition owners_of (e : event) : list uuid := map user_id (rows_of e).

(** What an order contributes to a customer: one order and its amount
    when it matches, nothing otherwise. *)
Definition orders_of (o : order_row) (c : customer_row) : Z :=
  if matches o c then 1 else 0.

Definition spent_of (o : order_row) (c : customer_row) : Q :=
  if matches o c then order_amount o else 0%Q.

Definition net_orders (c : customer_row) (e : event) : Z :=
  match e with
  | Inserted o => orders_of o c
  | Updated old new => orders_of new c - orders_of old c
  | Deleted old => - orders_of old c
  end.

Definition net_spent (c : customer_row) (e : event) : Q :=
  match e with
  | Inserted o => spent_of o c
  | Updated old new => spent_of new c - spent_of old c
  | Deleted old => - spent_of old c
  end%Q.

Definition total_net_orders (c : customer_row) (es : list event) : Z :=
  fold_right (fun e acc => net_orders c e + acc) 0 es.

Definition total_net_spent (c : customer_row) (es : list event) : Q :=
  fold_right (fun e acc => net_spent c e + acc)%Q 0%Q es.

(** The row [c'] is [c] with [k] more orders and [a] more spent. *)
Definition shifted (k : Z) (a : Q) (c c' : customer_row) : Prop :=
  c_id c' = c_id c /\ c_user_id c' = c_user_id c /\ name c' = name c /\
  email c' = email c /\
  total_orders c' = option_map (fun n => n + k) (total_orders c) /\
  opt_Qeq (total_spent c') (option_map (fun s => s + a)%Q (total_spent c)).

End RollupHistory.

(** ** Bulk actions on the ledger

    [BulkOrderActions] sends one statement for the whole selection:
    [UPDATE public.orders SET ... WHERE order_id IN (selectedOrders)
    AND user_id = uid].  The row triggers of the last migration run
    for each row: the BEFORE triggers as the row is updated, the AFTER
    trigger (the logger) once all rows are. *)

Module Bulk.
Import Ledger.

(** The errors of a statement on [orders] whose triggers recurse. *)
Definition recursion_error (e : error) : Prop :=
  e = stack_depth_limit_exceeded \/ e = numeric_field_overflow.

(** [.in('order_id', selectedOrders).eq('user_id', uid)] *)
Definition selected (selectedOrders : list text) (uid : uuid) (r : order_row) : bool :=
  existsb (String.eqb (order_id r)) selectedOrders && N.eqb (user_id r) uid.

(** The rows after the statement, and the old and new versions of the
    rows it updated. *)
Fixpoint UPDATE_rows (now : timestamp) (where_ : order_row -> bool)
         (set : order_row -> order_row) (rs : list order_row)
  : outcome (list order_row * list (order_row * order_row)) :=
  match rs with
  | [] => Ok ([], [])
  | r :: rs' =>
      if where_ r then
        NEW <- Derivation.before_row UPDATE now (Some r) (set r) ;;
        rest <- UPDATE_rows now where_ set rs' ;;
        Ok (NEW :: fst rest, (r, NEW) :: snd rest)
      else
        rest <- UPDATE_rows now where_ set rs' ;;
        Ok (r :: fst rest, snd rest)
  end.

Definition UPDATE_orders_where (now : timestamp) (where_ : order_row -> bool)
           (set : order_row -> order_row) (d : db) : outcome db :=
  res <- UPDATE_rows now where_ set (orders d) ;;
  Ok {| orders := fst res;
        order_activities :=
          order_activities d
          ++ map (fun p => updated_activity now (fst p) (snd p)) (snd res);
        fired :=
          fired d
          ++ flat_map (fun _ => [fn_set_order_last_activity; fn_update_order_total])
                      (snd res)
          ++ map (fun _ => fn_log_order_activity) (snd res) |}.

(** [updateOrdersStatus]: [.update({ status: newStatus })] *)
Definition updateOrdersStatus (now : timestamp) (selectedOrders : list text) (uid : uuid)
           (newStatus : text) (d : db) : outcome db :=
  UPDATE_orders_where now (selected selectedOrders uid)
                      (fun r => set_status r (Some newStatus)) d.

(** [archiveOrders]: [.update({ status: 'completed' })] *)
Definition archiveOrders (now : timestamp) (selectedOrders : list text) (uid : uuid)
           (d : db) : outcome db :=
  updateOrdersStatus now selectedOrders uid "completed"%string d.

End Bulk.

(** ** [calculateAnalytics]: totals, growth, breakdown and rankings *)

Module Dashboard.
Import Calendar Client.

(** [a < b] on dates *)
Definition Date_ltb (a b : Date) : bool := getTime a <? getTime b.

(** [new Set(names).size] *)
Definition Set_size (names : list string) : nat :=
  List.length (nodup string_dec names).

(** [Set.prototype.add] on the members in order of insertion. *)
Definition Set_add (x : string) (s : list string) : list string :=
  if existsb (String.eqb x) s then s else s ++ [x].

(** [c.toUpperCase()] for a character of a status (ASCII). *)
Definition toUpperCase (c : ascii) : ascii :=
  let n := nat_of_ascii c in
  if (97 <=? n)%nat && (n <=? 122)%nat then ascii_of_nat (n - 32) else c.

(** [status.charAt(0).toUpperCase() + status.slice(1)] *)
Definition capitalize (s : string) : string :=
  match s with
  | EmptyString => EmptyString
  | String c rest => String (toUpperCase c) rest
  end.

(** [format(date, "yyyy")]: the year, or [1 - year] when it is not
    positive, padded to four digits. *)
Definition format_yyyy (y : Z) : string :=
  padStart (String_of_nat (Z.to_nat (if 0 <? y then y else 1 - y))) 4 "0"%char.

(** [format(date, "MMM yyyy")] *)
Definition format_MMM_yyyy (d : Date) : string :=
  (month_abbr (month d) ++ " " ++ format_yyyy (year d))%string.

Section WithNumber.

(** JavaScript numbers stay abstract, as in [Client]; [num_of_nat] is
    the number of a count, [num_leb] is [<=]. *)
Variable number : Type.
Variable num_zero : number.
Variable num_add : number -> number -> number.
Variable num_sub : number -> number -> number.
Variable num_mul : number -> number -> number.
Variable num_div : number -> number -> number.
Variable num_of_nat : nat -> number.
Variable num_leb : number -> number -> bool.
Variable truthy : number -> bool.
Variable new_Date : string -> Date.

(** [prevOrders], with [prevStartDate = subDays(startDate, daysBack)] *)
Definition prevOrders (all : list (Order number)) (now : Date) (daysBack : nat)
  : list (Order number) :=
  filter (fun order =>
            Date_geb (new_Date (orderDate order)) (subDays (subDays now daysBack) daysBack)
            && Date_ltb (new_Date (orderDate order)) (subDays now daysBack))
         all.

Definition totalRevenue (all : list (Order number)) (now : Date) (daysBack : nat) : number :=
  sum_revenue num_zero num_add truthy (filteredOrders new_Date all now daysBack).

Definition totalOrders (all : list (Order number)) (now : Date) (daysBack : nat) : nat :=
  List.length (filteredOrders new_Date all now daysBack).

Definition totalCustomers (all : list (Order number)) (now : Date) (daysBack : nat) : nat :=
  Set_size (map customerName (filteredOrders new_Date all now daysBack)).

Definition prevRevenue (all : list (Order number)) (now : Date) (daysBack : nat) : number :=
  sum_revenue num_zero num_add truthy (prevOrders all now daysBack).

Definition prevOrderCount (all : list (Order number)) (now : Date) (daysBack : nat) : nat :=
  List.length (prevOrders all now daysBack).

Definition prevCustomerCount (all : list (Order number)) (now : Date) (daysBack : nat) : nat :=
  Set_size (map customerName (prevOrders all now daysBack)).

(** [((current - previous) / previous) * 100] *)
Definition percent_change (current previous : number) : number :=
  num_mul (num_div (num_sub current previous) previous) (num_of_nat 100).

(** [prevRevenue ? ... : 0] *)
Definition revenueGrowth (all : list (Order number)) (now : Date) (daysBack : nat) : number :=
  if truthy (prevRevenue all now daysBack)
  then percent_change (totalRevenue all now daysBack) (prevRevenue all now daysBack)
  else num_zero.

(** [prevOrderCount ? ... : 0]: a count is truthy when it is not zero. *)
Definition orderGrowth (all : list (Order number)) (now : Date) (daysBack : nat) : number :=
  if (prevOrderCount all now daysBack =? 0)%nat then num_zero
  else percent_change (num_of_nat (totalOrders all now daysBack))
                      (num_of_nat (prevOrderCount all now daysBack)).

Definition customerGrowth (all : list (Order number)) (now : Date) (daysBack : nat) : number :=
  if (prevCustomerCount all now daysBack =? 0)%nat then num_zero
  else percent_change (num_of_nat (totalCustomers all now daysBack))
                      (num_of_nat (prevCustomerCount all now daysBack)).

(** [totalOrders ? totalRevenue / totalOrders : 0] *)
Definition averageOrderValue (all : list (Order number)) (now : Date) (daysBack : nat)
  : number :=
  if (totalOrders all now daysBack =? 0)%nat then num_zero
  else num_div (totalRevenue all now daysBack) (num_of_nat (totalOrders all now daysBack)).

(** *** Revenue by status

    The keys of [statusRevenue] are statuses of the ledger (lower-case
    words), never array indices nor names of [Object.prototype]. *)

(** [acc[status] || 0] *)
Definition or_zero (v : option number) : number :=
  match v with
  | Some x => if truthy x then x else num_zero
  | None => num_zero
  end.

(** The body of the [reduce]. *)
Definition add_status_revenue (acc : list (string * number)) (order : Order number)
  : list (string * number) :=
  obj_set (orderStatus order)
          (num_add (or_zero (obj_get (orderStatus order) acc)) (revenue_of truthy order))
          acc.

Definition statusRevenue (os : list (Order number)) : list (string * number) :=
  fold_left add_status_revenue os [].

Record status_entry : Type := {
  se_status : string;
  se_value : number;
  se_count : nat
}.

(** [Object.entries(statusRevenue).map(...)] over [filteredOrders] *)
Definition revenueByStatus (os : list (Order number)) : list status_entry :=
  map (fun e => {| se_status := capitalize (fst e);
                   se_value := snd e;
                   se_count :=
                     List.length (filter (fun o => String.eqb (orderStatus o) (fst e)) os) |})
      (statusRevenue os).

(** *** Top customers *)

(** The [Customer] of the customers hook (the fields used here). *)
Record Customer : Type := {
  cust_name : string;
  cust_totalSpent : number;
  cust_totalOrders : number
}.

Record customer_revenue : Type := {
  cr_name : string;
  cr_revenue : number;
  cr_orders : number
}.

(** [Array.prototype.sort] with [(a, b) => b.revenue - a.revenue]: the
    sort is stable, so for a comparator that is a total preorder the
    result is the one of the stable insertion below. *)
Fixpoint insert_desc (x : customer_revenue) (l : list customer_revenue)
  : list customer_revenue :=
  match l with
  | [] => [x]
  | y :: l' =>
      if num_leb (cr_revenue y) (cr_revenue x) then x :: y :: l'
      else y :: insert_desc x l'
  end.

Definition sort_desc (l : list customer_revenue) : list customer_revenue :=
  fold_right insert_desc [] l.

(** [customers.map(...).sort(...).slice(0, 5)] *)
Definition topCustomers (customers : list Customer) : list customer_revenue :=
  firstn 5 (sort_desc (map (fun customer =>
                              {| cr_name := cust_name customer;
                                 cr_revenue := cust_totalSpent customer;
                                 cr_orders := cust_totalOrders customer |})
                           customers)).

(** *** Monthly trends *)

Record month_bucket : Type := {
  mb_revenue : number;
  mb_orders : nat;
  mb_customers : list string
}.

Record monthly_entry : Type := {
  me_month : string;
  me_revenue : number;
  me_orders : nat;
  me_customers : nat
}.

(** [for (let i = 0; i < 6; i++)
       monthlyData[format(subDays(now, i * 30), "MMM yyyy")] = {...}] *)
Definition init_monthlyData (now : Date) : list (string * month_bucket) :=
  fold_left (fun monthlyData i =>
               obj_set (format_MMM_yyyy (subDays now (i * 30)))
                       {| mb_revenue := num_zero; mb_orders := 0; mb_customers := [] |}
                       monthlyData)
            (seq 0 6) [].

(** The body of [orders.forEach]. *)
Definition add_to_monthlyData (monthlyData : list (string * month_bucket))
           (order : Order number) : list (string * month_bucket) :=
  let monthStr := format_MMM_yyyy (new_Date (orderDate order)) in
  match obj_get monthStr monthlyData with
  | Some b =>
      obj_set monthStr
              {| mb_revenue := num_add (mb_revenue b) (revenue_of truthy order);
                 mb_orders := mb_orders b + 1;
                 mb_customers := Set_add (customerName order) (mb_customers b) |}
              monthlyData
  | None => monthlyData
  end.

Definition monthlyTrends (all : list (Order number)) (now : Date) : list monthly_entry :=
  rev (map (fun e => {| me_month := fst e;
                        me_revenue := mb_revenue (snd e);
                        me_orders := mb_orders (snd e);
                        me_customers := List.length (mb_customers (snd e)) |})
           (fold_left add_to_monthlyData all (init_monthlyData now))).

End WithNumber.

Arguments prevOrders {number}.
Arguments totalRevenue {number}.
Arguments totalOrders {number}.
Arguments totalCustomers {number}.
Arguments prevRevenue {number}.
Arguments prevOrderCount {number}.
Arguments prevCustomerCount {number}.
Arguments percent_change {number}.
Arguments revenueGrowth {number}.
Arguments orderGrowth {number}.
Arguments customerGrowth {number}.
Arguments averageOrderValue {number}.
Arguments or_zero {number}.
Arguments add_status_revenue {number}.
Arguments statusRevenue {number}.
Arguments se_status {number}.
Arguments se_value {number}.
Arguments se_count {number}.
Arguments revenueByStatus {number}.
Arguments cust_name {number}.
Arguments cust_totalSpent {number}.
Arguments cust_totalOrders {number}.
Arguments cr_name {number}.
Arguments cr_revenue {number}.
Arguments cr_orders {number}.
Arguments insert_desc {number}.
Arguments sort_desc {number}.
Arguments topCustomers {number}.
Arguments mb_revenue {number}.
Arguments mb_orders {number}.
Arguments mb_customers {number}.
Arguments me_month {number}.
Arguments me_revenue {number}.
Arguments me_orders {number}.
Arguments me_customers {number}.
Arguments init_monthlyData {number}.
Arguments add_to_monthlyData {number}.
Arguments monthlyTrends {number}.

End Dashboard.

(** ** The export dialog and the orders hook *)

Module Hooks.
Import Client.

(** [l.includes(x)] on strings *)
Definition includes (l : list string) (x : string) : bool :=
  existsb (String.eqb x) l.

(** [handleColumnToggle]:
    [prev.includes(columnKey) ? prev.filter(col => col !== columnKey)
                              : [...prev, columnKey]] *)
Definition handleColumnToggle (columnKey : string) (prev : list string) : list string :=
  if includes prev columnKey
  then filter (fun col => negb (String.eqb col columnKey)) prev
  else prev ++ [columnKey].

(** The number of occurrences of a character in a string. *)
Fixpoint count_char (c : ascii) (s : string) : nat :=
  match s with
  | EmptyString => 0
  | String a s' => (if Ascii.eqb a c then 1 else 0) + count_char c s'
  end.

(** The number that a string of decimal digits denotes. *)
Definition decode (s : string) : option nat :=
  option_map Nat.of_uint (NilEmpty.uint_of_string s).

Section WithNumber.
Variable number : Type.
Variable json_number : Type.

(** [parseFloat(x.toString())] on the amount the store returns. *)
Variable parseFloat_toString : json_number -> number.

(** [getOrderById]: [orders.find(order => order.orderId === orderId)] *)
Definition getOrderById (orders : list (Order number)) (target : string)
  : option (Order number) :=
  find (fun order => String.eqb (orderId order) target) orders.

(** The columns of a fetched row that [fetchOrders] reads. *)
Record fetched_row : Type := {
  f_order_id : string;
  f_customer_name : string;
  f_order_amount : json_number;
  f_order_date : string;
  f_status : string
}.

(** [formattedOrders] of [fetchOrders]: the other fields of [Order]
    are not set. *)
Definition formattedOrders (data : list fetched_row) : list (Order number) :=
  map (fun order =>
         {| orderId := f_order_id order;
            customerName := f_customer_name order;
            customerEmail := None;
            orderAmount := parseFloat_toString (f_order_amount order);
            totalAmount := None;
            orderDate := f_order_date order;
            dueDate := None;
            orderStatus := f_status order;
            priority := None;
            notes := None |})
      data.

(** The states of [orders] in the hook: empty at first, then replaced
    by a fetch or changed by a successful create or delete. *)
Inductive hook_state : list (Order number) -> Prop :=
| hs_initial : hook_state []
| hs_fetch (data : list fetched_row) : hook_state (formattedOrders data)
| hs_create (orders : list (Order number)) (req : CreateOrderRequest number)
            (order_date status : string) :
    hook_state orders -> hook_state (snd (createOrder orders req order_date status))
| hs_delete (orders : list (Order number)) (target : string) :
    hook_state orders -> hook_state (deleteOrder orders target).

(** Orders created one after the other, with no delete in between. *)
Definition create_all (reqs : list (CreateOrderRequest number * string * string))
           (orders : list (Order number)) : list (Order number) :=
  fold_left (fun state r => snd (createOrder state (fst (fst r)) (snd (fst r)) (snd r)))
            reqs orders.

End WithNumber.

Arguments getOrderById {number}.
Arguments f_order_id {json_number}.
Arguments f_customer_name {json_number}.
Arguments f_order_amount {json_number}.
Arguments f_order_date {json_number}.
Arguments f_status {json_number}.
Arguments formattedOrders {number json_number}.
Arguments hook_state {number json_number}.
Arguments create_all {number}.

End Hooks.

(** ** Further sample rows *)

Module MoreSamples.
Import Samples.
Local Open Scope Q_scope.

(** An order in the exact regime whose exact total,
    2499500000000.024997, exceeds that of [rounded_twice_order]; it is
    stored as 2499500000000.02. *)
Definition credited_order : order_row :=
  {| id := 5%N; order_id := "ORD-005"%string; user_id := 7%N;
     customer_name := Some "Asha"%string; customer_email := None;
     order_amount := 1 # 100; tax_rate := Some (4997 # 100);
     discount_amount := Some (- (249950000000001 # 100));
     total_amount := None; status := Some "pending"%string;
     completed_at := None; last_activity_at := None |}.

(** The sample order with an amount of five million millions, taxed at
    100 percent. *)
Definition huge_order : order_row :=
  {| id := id sample_order; order_id := order_id sample_order;
     user_id := user_id sample_order;
     customer_name := customer_name sample_order;
     customer_email := customer_email sample_order;
     order_amount := 5000000000000; tax_rate := Some 100;
     discount_amount := None;
     total_amount := None; status := status sample_order;
     completed_at := None; last_activity_at := None |}.

(** A customer whose order count is the largest 32-bit integer. *)
Definition asha_full : Rollup.customer_row :=
  {| Rollup.c_id := 14%N; Rollup.c_user_id := 7%N; Rollup.name := "Asha"%string;
     Rollup.email := None; Rollup.total_orders := Some 2147483647%Z;
     Rollup.total_spent := Some 0 |}.

(** The sample order given to another customer, Bela. *)
Definition sample_order_bela : order_row :=
  {| id := id sample_order; order_id := order_id sample_order;
     user_id := user_id sample_order;
     customer_name := Some "Bela"%string;
     customer_email := customer_email sample_order;
     order_amount := 1200; tax_rate := tax_rate sample_order;
     discount_amount := discount_amount sample_order;
     total_amount := total_amount sample_order; status := status sample_order;
     completed_at := completed_at sample_order;
     last_activity_at := last_activity_at sample_order |}.

Definition bela : Rollup.customer_row :=
  {| Rollup.c_id := 15%N; Rollup.c_user_id := 7%N; Rollup.name := "Bela"%string;
     Rollup.email := None; Rollup.total_orders := Some 2%Z;
     Rollup.total_spent := Some 500 |}.

Definition sample_events : list RollupHistory.event :=
  [ RollupHistory.Inserted sample_order;
    RollupHistory.Updated sample_order sample_order_bela;
    RollupHistory.Inserted sample_order;
    RollupHistory.Deleted sample_order_bela ].

(** A ledger of three stored orders: two of owner 7, one of owner 8
    that bears the identifier of the first. *)
Definition stored (oid : string) (owner : uuid) (st : string) (done : option timestamp)
  : order_row :=
  {| id := 0%N; order_id := oid; user_id := owner;
     customer_name := Some "Asha"%string; customer_email := None;
     order_amount := 100; tax_rate := None; discount_amount := None;
     total_amount := Some (10000 # 100); status := Some st;
     completed_at := done; last_activity_at := Some 1%Z |}.

Definition bulk_db : Ledger.db :=
  {| Ledger.orders := [ stored "ORD-001" 7%N "pending" None;
                        stored "ORD-002" 7%N "completed" (Some 3%Z);
                        stored "ORD-001" 8%N "pending" None;
                        stored "ORD-003" 7%N "shipped" None ];
     Ledger.order_activities := []; Ledger.fired := [] |}.

(** An order placed seven days before [sample_now], in the evening:
    inside the window of seven days, on a day that has no bucket. *)
Definition evening_new_Date (s : string) : Calendar.Date :=
  if String.eqb s "2024-02-27" then
    {| Calendar.year := 2024; Calendar.month := 1; Calendar.day := 27;
       Calendar.time_of_day := 64800000 |}
  else sample_new_Date s.

Definition orders_with_evening : list (Client.Order Z) :=
  client_order "ORD-004" "Dev" 40%Z "2024-02-27" :: march_orders.

(** Three customers for the ranking. *)
Definition ranking_customers : list (Dashboard.Customer Z) :=
  [ {| Dashboard.cust_name := "Asha"; Dashboard.cust_totalSpent := 500%Z;
       Dashboard.cust_totalOrders := 2%Z |};
    {| Dashboard.cust_name := "Bela"; Dashboard.cust_totalSpent := 900%Z;
       Dashboard.cust_totalOrders := 1%Z |};
    {| Dashboard.cust_name := "Chitra"; Dashboard.cust_totalSpent := 500%Z;
       Dashboard.cust_totalOrders := 4%Z |} ]%string.

(** The last day of January 2024, at noon. *)
Definition end_of_january : Calendar.Date :=
  {| Calendar.year := 2024; Calendar.month := 0; Calendar.day := 31;
     Calendar.time_of_day := 43200000 |}.

(** An order whose customer name holds a comma. *)
Definition comma_order : Client.Order Z :=
  client_order "ORD-005" "Doe, John" 10%Z "2024-03-01".

End MoreSamples.

(** * Properties *)

Lemma bind_Ok_inv {A B : Type} (m : outcome A) (k : A -> outcome B) (b : B) :
  bind m k = Ok b -> exists a, m = Ok a /\ k a = Ok b.
Proof.
  destruct m as [a|e]; simpl; intro H.
  - exists a; split; [reflexivity | exact H].
  - discriminate H.
Qed.

Ltac inv_bind H :=
  let a := fresh "a" in
  let Ha := fresh "Ha" in
  apply bind_Ok_inv in H; destruct H as [a [Ha H]].

(** ** Rounding to hundredths *)

Module RoundingFacts.
Local Open Scope Q_scope.

Lemma hundredths_as_product (z : Z) : z # 100 == inject_Z z * (1 # 100).
Proof. rewrite (Qmake_Qdiv z 100). reflexivity. Qed.

Lemma round_hundredths_bounds (q : Q) :
  q * 100 - (1 # 2) <= inject_Z (round_hundredths q) <= q * 100 + (1 # 2).
Proof.
  unfold round_hundredths. destruct (Qle_bool 0 q).
  - pose proof (Qfloor_le (q * 100 + (1 # 2))) as Hlo.
    pose proof (Qlt_floor (q * 100 + (1 # 2))) as Hhi.
    rewrite inject_Z_plus in Hhi. change (inject_Z 1) with 1 in Hhi.
    split; lra.
  - pose proof (Qfloor_le (- q * 100 + (1 # 2))) as Hlo.
    pose proof (Qlt_floor (- q * 100 + (1 # 2))) as Hhi.
    rewrite inject_Z_plus in Hhi. change (inject_Z 1) with 1 in Hhi.
    rewrite inject_Z_opp. split; lra.
Qed.




Lemma round_hundredths_comp (p q : Q) : p == q -> round_hundredths p = round_hundredths q.
Proof.
  intro H. unfold round_hundredths.
  rewrite (Qleb_comp 0 0 (Qeq_refl 0) p q H).
  destruct (Qle_bool 0 q).
  - apply Qfloor_comp. rewrite H. reflexivity.
  - f_equal. apply Qfloor_comp. rewrite H. reflexivity.
Qed.

(** *** Rounding to a scale *)

Lemma pow10_pos (s : nat) : (0 < pow10 s)%Z.
Proof. unfold pow10. apply Z.pow_pos_nonneg; lia. Qed.

Lemma inject_pow10_pos (s : nat) : 0 < inject_Z (pow10 s).
Proof. change 0 with (inject_Z 0). rewrite <- Zlt_Qlt. apply pow10_pos. Qed.

Lemma pow10_le (k s : nat) : (k <= s)%nat -> (pow10 k <= pow10 s)%Z.
Proof. intro H. unfold pow10. apply Z.pow_le_mono_r; lia. Qed.

Lemma pow10_split (k s : nat) : (k <= s)%nat -> pow10 s = (pow10 k * pow10 (s - k))%Z.
Proof.
  intro H. unfold pow10. rewrite <- Z.pow_add_r by lia. f_equal. lia.
Qed.

(** A whole number and a half has that whole number as its floor. *)
Lemma Qfloor_half (m : Z) : Qfloor (inject_Z m + (1 # 2)) = m.
Proof.
  pose proof (Qfloor_le (inject_Z m + (1 # 2))) as Hlo.
  pose proof (Qlt_floor (inject_Z m + (1 # 2))) as Hhi.
  set (f := Qfloor (inject_Z m + (1 # 2))) in *.
  rewrite inject_Z_plus in Hhi. change (inject_Z 1) with 1 in Hhi.
  assert (H1 : (f <= m)%Z).
  { destruct (Z_le_gt_dec f m) as [H|H]; [exact H|].
    exfalso. assert (H' : (m + 1 <= f)%Z) by lia.
    rewrite Zle_Qle, inject_Z_plus in H'. change (inject_Z 1) with 1 in H'. lra. }
  assert (H2 : (m <= f)%Z).
  { destruct (Z_le_gt_dec m f) as [H|H]; [exact H|].
    exfalso. assert (H' : (f + 1 <= m)%Z) by lia.
    rewrite Zle_Qle, inject_Z_plus in H'. change (inject_Z 1) with 1 in H'. lra. }
  lia.
Qed.

Lemma round_var_bounds (q : Q) (s : nat) :
  exists z : Z,
    round_var q s = inject_Z z / inject_Z (pow10 s) /\
    q * inject_Z (pow10 s) - (1 # 2) <= inject_Z z <= q * inject_Z (pow10 s) + (1 # 2).
Proof.
  unfold round_var. destruct (Qle_bool 0 q).
  - eexists. split; [reflexivity|].
    pose proof (Qfloor_le (q * inject_Z (pow10 s) + (1 # 2))) as Hlo.
    pose proof (Qlt_floor (q * inject_Z (pow10 s) + (1 # 2))) as Hhi.
    rewrite inject_Z_plus in Hhi. change (inject_Z 1) with 1 in Hhi.
    split; lra.
  - eexists. split; [reflexivity|].
    pose proof (Qfloor_le (- (q * inject_Z (pow10 s)) + (1 # 2))) as Hlo.
    pose proof (Qlt_floor (- (q * inject_Z (pow10 s)) + (1 # 2))) as Hhi.
    rewrite inject_Z_plus in Hhi. change (inject_Z 1) with 1 in Hhi.
    rewrite inject_Z_opp. split; lra.
Qed.

Lemma round_var_close (q : Q) (s : nat) :
  (4 <= s)%nat -> Qabs (round_var q s - q) <= 1 # 20000.
Proof.
  intro Hs. destruct (round_var_bounds q s) as (z & -> & Hlo & Hhi).
  pose proof (inject_pow10_pos s) as Hpos.
  assert (HP : 10000 <= inject_Z (pow10 s)).
  { change 10000 with (inject_Z (pow10 4)). rewrite <- Zle_Qle. apply pow10_le. exact Hs. }
  set (P := inject_Z (pow10 s)) in *.
  set (r := inject_Z z / P).
  assert (Hr : r * P == inject_Z z).
  { unfold r. field. lra. }
  apply Qabs_Qle_condition. split; nra.
Qed.

Lemma round_var_comp (q q' : Q) (s : nat) : q == q' -> round_var q s = round_var q' s.
Proof.
  intro H. unfold round_var.
  rewrite (Qleb_comp 0 0 (Qeq_refl 0) q q' H).
  destruct (Qle_bool 0 q').
  - do 2 f_equal. apply Qfloor_comp. rewrite H. reflexivity.
  - do 3 f_equal. apply Qfloor_comp. rewrite H. reflexivity.
Qed.

Lemma round_var_exact (q : Q) (z : Z) (k s : nat) :
  (k <= s)%nat -> q == inject_Z z / inject_Z (pow10 k) -> round_var q s == q.
Proof.
  intros Hks Hq.
  pose proof (inject_pow10_pos k) as Hk. pose proof (inject_pow10_pos s) as Hs.
  pose proof (inject_pow10_pos (s - k)) as Hd.
  assert (Hsplit : inject_Z (pow10 s) == inject_Z (pow10 k) * inject_Z (pow10 (s - k))).
  { rewrite (pow10_split k s Hks), inject_Z_mult. reflexivity. }
  set (m := (z * pow10 (s - k))%Z).
  assert (Hm : q * inject_Z (pow10 s) == inject_Z m).
  { unfold m. rewrite inject_Z_mult, Hsplit, Hq. field. lra. }
  assert (Hback : inject_Z m / inject_Z (pow10 s) == q).
  { rewrite <- Hm. field. lra. }
  unfold round_var. destruct (Qle_bool 0 q).
  - assert (E : Qfloor (q * inject_Z (pow10 s) + (1 # 2)) = m).
    { rewrite <- (Qfloor_half m). apply Qfloor_comp. rewrite Hm. reflexivity. }
    rewrite E. exact Hback.
  - assert (E : Qfloor (- (q * inject_Z (pow10 s)) + (1 # 2)) = (- m)%Z).
    { rewrite <- (Qfloor_half (- m)). apply Qfloor_comp.
      rewrite Hm, inject_Z_opp. reflexivity. }
    rewrite E, Z.opp_involutive. exact Hback.
Qed.

Lemma round_var_zero (q : Q) (s : nat) : q == 0 -> round_var q s == 0.
Proof.
  intro H. transitivity q; [|exact H].
  apply (round_var_exact q 0 0 s); [lia|]. rewrite H. reflexivity.
Qed.

Lemma fits_decimal_inv (p s : nat) (q : Q) :
  fits_decimal p s q = true ->
  (exists z : Z, q == inject_Z z / inject_Z (pow10 s)) /\
  Qabs q < inject_Z (pow10 (p - s)).
Proof.
  unfold fits_decimal. intro H. apply andb_true_iff in H. destruct H as [H1 H2].
  split.
  - apply Qeq_bool_iff in H1. destruct (round_var_bounds q s) as (z & E & _).
    exists z. rewrite <- E. symmetry. exact H1.
  - apply negb_true_iff in H2. apply Qnot_le_lt. intro Hle.
    apply Qle_bool_iff in Hle. congruence.
Qed.

(** *** The scale of a quotient *)

Lemma first_digit_int_bound (fuel : nat) :
  forall (z w : Z) (n : nat),
    (0 <= z < 101 * NBASE ^ Z.of_nat n)%Z -> (Z.log2 z < Z.of_nat fuel)%Z ->
    (fst (first_digit_int fuel z w) < w + Z.of_nat n)%Z \/
    (fst (first_digit_int fuel z w) = w + Z.of_nat n
     /\ snd (first_digit_int fuel z w) <= 100)%Z.
Proof.
  unfold NBASE.
  induction fuel as [|fuel IH]; intros z w n Hz Hfuel.
  - pose proof (Z.log2_nonneg z). lia.
  - cbn [first_digit_int]. unfold NBASE. destruct (Z.ltb_spec z 10000) as [Hlt|Hge].
    + cbn [fst snd]. destruct n as [|n].
      * right. change (10000 ^ Z.of_nat 0)%Z with 1%Z in Hz. lia.
      * left. lia.
    + destruct n as [|n].
      * change (10000 ^ Z.of_nat 0)%Z with 1%Z in Hz. lia.
      * assert (Hpow : (10000 ^ Z.of_nat (S n) = 10000 ^ Z.of_nat n * 10000)%Z).
        { rewrite Nat2Z.inj_succ, Z.pow_succ_r by lia. lia. }
        assert (Hq : (0 <= z / 10000 < 101 * 10000 ^ Z.of_nat n)%Z).
        { split; [apply Z.div_pos; lia|].
          apply Z.div_lt_upper_bound; [lia|]. rewrite Hpow in Hz. lia. }
        assert (Hlog : (Z.log2 (z / 10000) < Z.of_nat fuel)%Z).
        { assert (Hh : (0 < z / 10000)%Z) by (apply Z.div_str_pos; lia).
          assert (Hle : (2 * (z / 10000) <= z)%Z).
          { pose proof (Z.mul_div_le z 10000 ltac:(lia)). lia. }
          apply Z.log2_le_mono in Hle.
          rewrite Z.log2_double in Hle by exact Hh. lia. }
        destruct (IH (z / 10000)%Z (w + 1)%Z n Hq Hlog) as [H|[H1 H2]].
        -- left. lia.
        -- right. split; [lia|exact H2].
Qed.

Lemma first_digit_frac_weight (fuel : nat) :
  forall (q : Q) (w : Z), (w <= 0)%Z -> (fst (first_digit_frac fuel q w) <= 0)%Z.
Proof.
  induction fuel as [|fuel IH]; intros q w Hw; cbn [first_digit_frac]; [simpl; lia|].
  destruct (Qle_bool 1 (q * inject_Z NBASE)); [simpl; lia|].
  apply IH. lia.
Qed.

(** Below 1.01e14 a dividend of 100 gets at least eight decimals. *)
Lemma select_div_scale_small (var1 : numeric_var) :
  Qabs (num_value var1) < 101000000000000 ->
  (8 <= select_div_scale var1 (int4_numeric 100))%nat.
Proof.
  intro Hsmall. unfold select_div_scale.
  change (first_digit (num_value (int4_numeric 100))) with (0%Z, 100%Z).
  assert (Hq : let (weight1, firstdigit1) := first_digit (num_value var1) in
               (weight1 - 0 - (if (firstdigit1 <=? 100)%Z then 1 else 0) <= 2)%Z).
  { unfold first_digit.
    destruct (Qeq_bool (Qabs (num_value var1)) 0); [simpl; lia|].
    destruct (Qle_bool 1 (Qabs (num_value var1))) eqn:E1.
    - set (z := Qfloor (Qabs (num_value var1))).
      assert (Hz : (0 <= z < 101 * NBASE ^ Z.of_nat 3)%Z).
      { unfold z. split.
        - change 0%Z with (Qfloor 0). apply Qfloor_resp_le. apply Qabs_nonneg.
        - change (101 * NBASE ^ Z.of_nat 3)%Z with 101000000000000%Z.
          rewrite Zlt_Qlt. eapply Qle_lt_trans; [apply Qfloor_le|exact Hsmall]. }
      assert (Hfuel : (Z.log2 z < Z.of_nat (S (Z.to_nat (Z.log2 z))))%Z).
      { pose proof (Z.log2_nonneg z). lia. }
      pose proof (first_digit_int_bound _ z 0%Z 3%nat Hz Hfuel) as Hb.
      destruct (first_digit_int (S (Z.to_nat (Z.log2 z))) z 0) as [w d].
      cbn [fst snd] in Hb. destruct Hb as [Hb|[Hb1 Hb2]].
      + destruct (d <=? 100)%Z; lia.
      + apply Z.leb_le in Hb2. rewrite Hb2. lia.
    - pose proof (first_digit_frac_weight
                    (S (Z.to_nat (Z.log2 (Z.pos (Qden (Qabs (num_value var1)))))))
                    (Qabs (num_value var1)) 0%Z ltac:(lia)) as Hb.
      destruct (first_digit_frac _ _ _) as [w d]. cbn [fst] in Hb.
      destruct (d <=? 100)%Z; lia. }
  destruct (first_digit (num_value var1)) as [weight1 firstdigit1].
  unfold NUMERIC_MIN_SIG_DIGITS, DEC_DIGITS, NUMERIC_MAX_DISPLAY_SCALE.
  cbn [dscale int4_numeric]. lia.
Qed.

Lemma select_div_scale_dscale (var1 var2 : numeric_var) :
  (dscale var1 <= 1000)%nat -> (dscale var1 <= select_div_scale var1 var2)%nat.
Proof.
  intro H. unfold select_div_scale.
  destruct (first_digit (num_value var1)) as [weight1 firstdigit1].
  destruct (first_digit (num_value var2)) as [weight2 firstdigit2].
  unfold NUMERIC_MAX_DISPLAY_SCALE. lia.
Qed.

End RoundingFacts.

(** ** Derivation Engine *)

Module DerivationFacts.
Import Derivation RoundingFacts Samples.
Local Open Scope Q_scope.

(** *** The total that the trigger computes *)

Lemma spec_total_taxed (o : order_row) :
  spec_total o = order_amount o + taxed_product o / 100 - COALESCE (discount_amount o) 0.
Proof. reflexivity. Qed.

Lemma order_total_value (o : order_row) :
  exists (rscale ds : nat),
    order_total o =
    Ok {| num_value := order_amount o + round_var (taxed_product o / 100) rscale
                       - COALESCE (discount_amount o) 0;
          dscale := ds |} /\
    (tax_rate o <> None -> (4 <= rscale)%nat) /\
    (Qabs (taxed_product o) < 101000000000000 -> (8 <= rscale)%nat).
Proof.
  unfold order_total, taxed_product.
  destruct (tax_rate o) as [t|]; destruct (discount_amount o) as [d|];
    (eexists; eexists; split; [reflexivity|]; split;
     [|intro Hsmall; apply select_div_scale_small; exact Hsmall]).
  - intros _.
    apply (select_div_scale_dscale
             (mul_var (decimal order_amount_scale (order_amount o))
                      (decimal tax_rate_scale t))
             (int4_numeric 100)).
    change (4 <= 1000)%nat. lia.
  - intros _.
    apply (select_div_scale_dscale
             (mul_var (decimal order_amount_scale (order_amount o))
                      (decimal tax_rate_scale t))
             (int4_numeric 100)).
    change (4 <= 1000)%nat. lia.
  - intro H. exfalso. apply H. reflexivity.
  - intro H. exfalso. apply H. reflexivity.
Qed.

Lemma order_total_last_activity (op : tg_op) (now : timestamp) (o : order_row) :
  order_total (set_order_last_activity op now o) = order_total o.
Proof. destruct op; reflexivity. Qed.

Lemma spec_total_last_activity (op : tg_op) (now : timestamp) (o : order_row) :
  spec_total (set_order_last_activity op now o) = spec_total o.
Proof. destruct op; reflexivity. Qed.

(** The quotient is rounded at the fourth decimal or beyond. *)
Lemma tax_rounding_close (o : order_row) (rscale : nat) :
  (tax_rate o <> None -> (4 <= rscale)%nat) ->
  Qabs (round_var (taxed_product o / 100) rscale - taxed_product o / 100) <= 1 # 20000.
Proof.
  intro H4. destruct (tax_rate o) as [t|] eqn:E.
  - apply round_var_close. apply H4. discriminate.
  - assert (Hz : taxed_product o / 100 == 0).
    { unfold taxed_product. rewrite E. field. }
    rewrite (round_var_zero _ rscale Hz), Hz. vm_compute. discriminate.
Qed.

Lemma order_total_close (o : order_row) (total : numeric_var) :
  order_total o = Ok total -> Qabs (num_value total - spec_total o) <= 1 # 20000.
Proof.
  intro H. destruct (order_total_value o) as (rscale & ds & E & H4 & _).
  rewrite E in H. injection H as <-. cbn [num_value].
  pose proof (tax_rounding_close o rscale H4) as Hc.
  rewrite spec_total_taxed.
  apply Qabs_Qle_condition in Hc. apply Qabs_Qle_condition.
  set (R := round_var (taxed_product o / 100) rscale) in *.
  set (x := taxed_product o / 100) in *.
  split; lra.
Qed.

Lemma order_total_succeeds (o : order_row) : exists total, order_total o = Ok total.
Proof.
  destruct (order_total_value o) as (rscale & ds & E & _). eexists. exact E.
Qed.

(** A row of the declared types whose product stays below 1.01e14 has
    its quotient computed exactly. *)
Lemma order_total_exact (o : order_row) (total : numeric_var) :
  column_typed o = true -> Qabs (taxed_product o) < 101000000000000 ->
  order_total o = Ok total -> num_value total == spec_total o.
Proof.
  intros Hcol Hsmall H.
  destruct (order_total_value o) as (rscale & ds & E & _ & H8).
  rewrite E in H. injection H as <-. cbn [num_value].
  rewrite spec_total_taxed.
  assert (Hx : round_var (taxed_product o / 100) rscale == taxed_product o / 100).
  { unfold column_typed in Hcol.
    apply andb_true_iff in Hcol. destruct Hcol as [Hcol _].
    apply andb_true_iff in Hcol. destruct Hcol as [Ha Ht].
    apply fits_decimal_inv in Ha. destruct Ha as [[za Ea] _].
    specialize (H8 Hsmall).
    unfold taxed_product. destruct (tax_rate o) as [t|].
    - apply fits_decimal_inv in Ht. destruct Ht as [[zt Et] _].
      apply (round_var_exact _ (za * zt) 6 rscale); [lia|].
      rewrite Ea, Et, inject_Z_mult.
      change (inject_Z (pow10 order_amount_scale)) with 100.
      change (inject_Z (pow10 tax_rate_scale)) with 100.
      change (inject_Z (pow10 6)) with 1000000. field.
    - apply (round_var_exact _ 0 6 rscale); [lia|].
      change (inject_Z (pow10 6)) with 1000000. field. }
  rewrite Hx. reflexivity.
Qed.


Lemma update_order_total_inv (now : timestamp) (OLD : option order_row) (NEW NEW' : order_row) :
  update_order_total now OLD NEW = Ok NEW' ->
  exists t,
    (exists total, order_total NEW = Ok total /\ decimal_15_2 (num_value total) = Ok t) /\
    NEW' = (if becomes_completed OLD (set_total_amount NEW (Some t))
            then set_completed_at (set_total_amount NEW (Some t)) (Some now)
            else set_total_amount NEW (Some t)).
Proof.
  unfold update_order_total. intro H.
  inv_bind H. inv_bind H. exists a0. split.
  - exists a. split; [exact Ha|exact Ha0].
  - congruence.
Qed.

Lemma update_order_total_total_amount (now : timestamp) (OLD : option order_row)
      (NEW NEW' : order_row) :
  update_order_total now OLD NEW = Ok NEW' ->
  exists total t,
    order_total NEW = Ok total /\ decimal_15_2 (num_value total) = Ok t /\
    total_amount NEW' = Some t.
Proof.
  intro H. apply update_order_total_inv in H.
  destruct H as (t & (total & Htot & Ht) & ->).
  exists total, t. split; [exact Htot|]. split; [exact Ht|].
  destruct (becomes_completed _ _); reflexivity.
Qed.

Lemma decimal_15_2_inv (q t : Q) :
  decimal_15_2 q = Ok t -> t = round_hundredths q # 100.
Proof.
  unfold decimal_15_2. destruct (Z.abs _ <? _)%Z; congruence.
Qed.

(** What a successful write stores, whatever the size of the amounts:
    the computed total rounded to hundredths. *)
Lemma total_amount_of_stored_row
      (op : tg_op) (now : timestamp) (OLD : option order_row) (NEW NEW' : order_row) :
  before_row op now OLD NEW = Ok NEW' ->
  exists total,
    order_total NEW = Ok total /\
    total_amount NEW' = Some (round_hundredths (num_value total) # 100).
Proof.
  unfold before_row. intro H.
  apply update_order_total_total_amount in H. destruct H as (total & t & Htot & Ht & ->).
  rewrite order_total_last_activity in Htot.
  exists total. split; [exact Htot|].
  f_equal. apply decimal_15_2_inv. exact Ht.
Qed.



(** The scenario of the specification: 1000 at 10 percent less 50. *)
Example total_amount_scenario :
  exists NEW' t, before_row INSERT 5%Z None sample_order = Ok NEW' /\
                 total_amount NEW' = Some t /\ t == 1050.
Proof.
  eexists; eexists. split; [vm_compute; reflexivity|]. split; [reflexivity|].
  vm_compute. reflexivity.
Qed.


(** Beyond 1.01e14 the stored total need not be the exact total rounded
    to hundredths: the quotient is rounded to four decimals first, and
    a total of 2499500000000.024995 is stored as 2499500000000.03. *)
Example total_amount_rounded_twice :
  column_typed rounded_twice_order = true /\
  spec_total rounded_twice_order == 2499500000000024995 # 1000000 /\
  exists NEW' t,
    before_row INSERT 5%Z None rounded_twice_order = Ok NEW' /\
    total_amount NEW' = Some t /\
    t == 249950000000003 # 100 /\
    ~ t == round_hundredths (spec_total rounded_twice_order) # 100 /\
    ~ Qabs (t - spec_total rounded_twice_order) <= 1 # 200.
Proof.
  split; [vm_compute; reflexivity|]. split; [vm_compute; reflexivity|].
  eexists; eexists. split; [vm_compute; reflexivity|]. split; [reflexivity|].
  split; [vm_compute; reflexivity|]. split.
  - vm_compute. discriminate.
  - intro H. vm_compute in H. apply H. reflexivity.
Qed.

(** A discount that exceeds the subtotal by less than half a hundredth
    is stored as a total of zero, not as a negative one. *)
Example small_excess_not_negative :
  let o := {| id := 3%N; order_id := "ORD-003"%string; user_id := 7%N;
              customer_name := None; customer_email := None;
              order_amount := 1 # 100; tax_rate := Some 60;
              discount_amount := Some (2 # 100);
              total_amount := None; status := None;
              completed_at := None; last_activity_at := None |} in
  spec_total o < 0 /\
  exists NEW', before_row INSERT 5%Z None o = Ok NEW' /\
               total_amount NEW' = Some (0 # 100).
Proof.
  split; [vm_compute; reflexivity|].
  eexists. split; vm_compute; reflexivity.
Qed.

(** *** [completed_at] *)

Lemma sql_and_false_r (a : option bool) : is_true (sql_and a (Some false)) = false.
Proof. destruct a as [[|]|]; reflexivity. Qed.

Lemma becomes_completed_true (OLD NEW : order_row) (s : string) :
  status NEW = Some "completed"%string -> status OLD = Some s -> s <> "completed"%string ->
  becomes_completed (Some OLD) NEW = true.
Proof.
  intros HN HO Hs. unfold becomes_completed, OLD_status. rewrite HN, HO. simpl.
  apply String.eqb_neq in Hs. rewrite Hs. reflexivity.
Qed.

Lemma becomes_completed_stays (OLD NEW : order_row) :
  status OLD = Some "completed"%string -> becomes_completed (Some OLD) NEW = false.
Proof.
  intro HO. unfold becomes_completed, OLD_status. rewrite HO.
  apply sql_and_false_r.
Qed.

Lemma becomes_completed_other (OLD : option order_row) (NEW : order_row) :
  status NEW <> Some "completed"%string -> becomes_completed OLD NEW = false.
Proof.
  intro HN. unfold becomes_completed.
  destruct (status NEW) as [s|]; simpl.
  - destruct (String.eqb_spec s "completed") as [->|_].
    + exfalso. apply HN. reflexivity.
    + reflexivity.
  - destruct (sql_neq _ _ _) as [[|]|]; reflexivity.
Qed.

(** On INSERT [OLD] is the null record and the comparison with
    [OLD.status] is unknown: nothing is stamped. *)
Lemma becomes_completed_insert (NEW : order_row) : becomes_completed None NEW = false.
Proof.
  unfold becomes_completed. simpl.
  destruct (sql_eq _ _ _) as [[|]|]; reflexivity.
Qed.

Lemma write_update_inv (now : timestamp) (set : order_row -> order_row) (OLD NEW' : order_row) :
  write_update now set OLD = Ok NEW' ->
  exists t,
    let NEW1 := set_total_amount (set_last_activity_at (set OLD) (Some now)) (Some t) in
    NEW' = (if becomes_completed (Some OLD) NEW1
            then set_completed_at NEW1 (Some now) else NEW1).
Proof.
  unfold write_update, before_row. intro H.
  apply update_order_total_inv in H. destruct H as [t [_ H]].
  exists t. exact H.
Qed.

(** C2 (as amended).  On an update that brings [status] to
    ['completed'] from another value, [completed_at] is set to the time
    of that write, each time this happens; on an update of an order
    that already is ['completed'], and on an update to another status,
    the trigger leaves [completed_at] as the update carries it; the
    trigger never clears it. *)
Theorem completed_at_on_update
        (now : timestamp) (set : order_row -> order_row) (OLD NEW' : order_row) :
  write_update now set OLD = Ok NEW' ->
  (status (set OLD) = Some "completed"%string ->
   (exists s, status OLD = Some s /\ s <> "completed"%string) ->
   completed_at NEW' = Some now) /\
  (status OLD = Some "completed"%string -> completed_at NEW' = completed_at (set OLD)) /\
  (status (set OLD) <> Some "completed"%string -> completed_at NEW' = completed_at (set OLD)) /\
  (completed_at (set OLD) <> None -> completed_at NEW' <> None).
Proof.
  intro H. apply write_update_inv in H. destruct H as [t H]. cbv zeta in H.
  set (NEW1 := set_total_amount (set_last_activity_at (set OLD) (Some now)) (Some t)) in H.
  assert (Hst : status NEW1 = status (set OLD)) by reflexivity.
  assert (Hca : completed_at NEW1 = completed_at (set OLD)) by reflexivity.
  repeat split.
  - intros HN [s [HO Hs]].
    rewrite (becomes_completed_true OLD NEW1 s (eq_trans Hst HN) HO Hs) in H.
    subst NEW'. reflexivity.
  - intro HO. rewrite (becomes_completed_stays OLD NEW1 HO) in H.
    subst NEW'. exact Hca.
  - intro HN. rewrite (becomes_completed_other (Some OLD) NEW1) in H
      by (rewrite Hst; exact HN).
    subst NEW'. exact Hca.
  - intro Hsome. subst NEW'.
    destruct (becomes_completed (Some OLD) NEW1); simpl; [discriminate|exact Hsome].
Qed.

Lemma completed_at_on_update_witness :
  exists NEW',
    write_update 2%Z (to_status "completed") sample_order = Ok NEW' /\
    (status (to_status "completed" sample_order) = Some "completed"%string ->
     (exists s, status sample_order = Some s /\ s <> "completed"%string) ->
     completed_at NEW' = Some 2%Z) /\
    (status sample_order = Some "completed"%string ->
     completed_at NEW' = completed_at (to_status "completed" sample_order)) /\
    (status (to_status "completed" sample_order) <> Some "completed"%string ->
     completed_at NEW' = completed_at (to_status "completed" sample_order)) /\
    (completed_at (to_status "completed" sample_order) <> None ->
     completed_at NEW' <> None).
Proof.
  eexists. split.
  - vm_compute. reflexivity.
  - apply (completed_at_on_update 2%Z (to_status "completed") sample_order).
    vm_compute. reflexivity.
Defined.

(** C2 as stated fails: [completed_at] is set more than once.  The
    order is completed at time 2, reopened at time 3 and completed
    again at time 4; the stamp of time 2 is replaced by that of time 4. *)
Lemma completed_at_set_twice :
  exists r1 r2 r3 r4,
    history 1%Z sample_order reopened_writes = Ok [r1; r2; r3; r4] /\
    map status [r1; r2; r3; r4]
    = [Some "pending"; Some "completed"; Some "pending"; Some "completed"]%string /\
    completed_at r1 = None /\
    completed_at r2 = Some 2%Z /\
    completed_at r3 = Some 2%Z /\
    completed_at r4 = Some 4%Z /\
    completed_at r4 <> completed_at r2.
Proof.
  do 4 eexists. split; [vm_compute; reflexivity|].
  repeat (split; [reflexivity|]). discriminate.
Qed.

(** An order inserted as ['completed'] gets no [completed_at]. *)
Lemma completed_at_not_set_by_insert (now : timestamp) (cand NEW' : order_row) :
  write_insert now cand = Ok NEW' -> completed_at NEW' = completed_at cand.
Proof.
  unfold write_insert, before_row. intro H.
  apply update_order_total_inv in H. destruct H as [t [_ H]].
  rewrite becomes_completed_insert in H. subst NEW'. reflexivity.
Qed.

(** *** [last_activity_at] *)

Lemma update_order_total_last_activity
      (now : timestamp) (OLD : option order_row) (NEW NEW' : order_row) :
  update_order_total now OLD NEW = Ok NEW' -> last_activity_at NEW' = last_activity_at NEW.
Proof.
  intro H. apply update_order_total_inv in H. destruct H as [t [_ ->]].
  destruct (becomes_completed _ _); reflexivity.
Qed.

Lemma write_update_last_activity
      (now : timestamp) (set : order_row -> order_row) (OLD NEW' : order_row) :
  write_update now set OLD = Ok NEW' -> last_activity_at NEW' = Some now.
Proof.
  unfold write_update, before_row. intro H.
  apply update_order_total_last_activity in H. exact H.
Qed.

Lemma write_insert_last_activity (now : timestamp) (cand NEW' : order_row) :
  write_insert now cand = Ok NEW' ->
  last_activity_at NEW' = Some (COALESCE (last_activity_at cand) now).
Proof.
  unfold write_insert, before_row. intro H.
  apply update_order_total_last_activity in H. exact H.
Qed.

Lemma versions_last_activity (ws : list (timestamp * (order_row -> order_row))) :
  forall cur rows,
    versions cur ws = Ok rows ->
    map last_activity_at rows = last_activity_at cur :: map (fun w => Some (fst w)) ws.
Proof.
  induction ws as [|[now set] ws IH]; intros cur rows H; simpl in H.
  - injection H as <-. reflexivity.
  - inv_bind H. rename a into nxt. inv_bind H. rename a into rest.
    injection H as <-. simpl. f_equal.
    rewrite (IH _ _ Ha0). f_equal.
    apply write_update_last_activity in Ha. exact Ha.
Qed.

(** The stored values of [last_activity_at] along the life of a row. *)
Lemma history_last_activity
      (now0 : timestamp) (cand : order_row)
      (ws : list (timestamp * (order_row -> order_row))) (rows : list order_row) :
  history now0 cand ws = Ok rows ->
  map last_activity_at rows =
  map Some (COALESCE (last_activity_at cand) now0 :: map fst ws).
Proof.
  unfold history. intro H. inv_bind H. rename a into first.
  apply versions_last_activity in H. rewrite H.
  apply write_insert_last_activity in Ha. rewrite Ha.
  simpl. f_equal. rewrite map_map. reflexivity.
Qed.

(** C7 (as amended).  Every update stores its own [now()]; the insert
    stores the value it carries, or [now()] when it carries none.  So
    when the times of the updates do not decrease, the stored
    [last_activity_at] does not decrease from the first update on; and
    it does not decrease from the insert on when, in addition, the
    value stored by the insert is not later than the first update. *)
Theorem last_activity_at_monotone
        (now0 : timestamp) (cand : order_row)
        (ws : list (timestamp * (order_row -> order_row))) (rows : list order_row) :
  history now0 cand ws = Ok rows ->
  Sorted Z.le (map fst ws) ->
  exists first later,
    map last_activity_at rows = map Some (first :: later) /\
    first = COALESCE (last_activity_at cand) now0 /\
    later = map fst ws /\
    Sorted Z.le later /\
    (HdRel Z.le first later -> Sorted Z.le (first :: later)).
Proof.
  intros H Hsorted. apply history_last_activity in H.
  exists (COALESCE (last_activity_at cand) now0), (map fst ws).
  split; [exact H|]. split; [reflexivity|]. split; [reflexivity|].
  split; [exact Hsorted|].
  intro Hhd. constructor; assumption.
Qed.

Lemma last_activity_at_monotone_witness :
  exists rows,
    history 1%Z sample_order reopened_writes = Ok rows /\
    Sorted Z.le (map fst reopened_writes) /\
    exists first later,
      map last_activity_at rows = map Some (first :: later) /\
      first = COALESCE (last_activity_at sample_order) 1%Z /\
      later = map fst reopened_writes /\
      Sorted Z.le later /\
      (HdRel Z.le first later -> Sorted Z.le (first :: later)).
Proof.
  eexists. split; [vm_compute; reflexivity|].
  assert (Hs : Sorted Z.le (map fst reopened_writes)).
  { simpl. repeat constructor; lia. }
  split; [exact Hs|].
  apply (last_activity_at_monotone 1%Z sample_order reopened_writes).
  - vm_compute. reflexivity.
  - exact Hs.
Defined.

(** On the sample the stored values are 1, 2, 3, 4. *)
Example last_activity_at_sample :
  exists rows,
    history 1%Z sample_order reopened_writes = Ok rows /\
    map last_activity_at rows = [Some 1; Some 2; Some 3; Some 4]%Z.
Proof. eexists. split; [vm_compute; reflexivity|reflexivity]. Qed.

(** C7 as stated fails: an insert at time 10 that carries
    [last_activity_at = 100], followed by an update at time 20, stores
    100 and then 20. *)
Lemma last_activity_at_decreases :
  exists r1 r2,
    history 10%Z postdated_order [(20%Z, to_status "approved")] = Ok [r1; r2] /\
    last_activity_at r1 = Some 100%Z /\
    last_activity_at r2 = Some 20%Z /\
    ~ (100 <= 20)%Z.
Proof.
  eexists; eexists. split; [vm_compute; reflexivity|].
  split; [reflexivity|]. split; [reflexivity|]. lia.
Qed.

End DerivationFacts.

(** ** Customer Rollup *)

Module RollupFacts.
Import Rollup Samples.

(** The condition of the [WHERE] only reads columns that the rollup
    does not write. *)
Lemma matches_stable (o : order_row) (c c' : customer_row) :
  c_user_id c' = c_user_id c -> name c' = name c -> email c' = email c ->
  matches o c' = matches o c.
Proof. unfold matches. intros -> -> ->. reflexivity. Qed.

Lemma int4_inv (z m : Z) : int4 z = Ok m -> m = z /\ int4_min <= z <= int4_max.
Proof.
  unfold int4. destruct (andb _ _) eqn:E; [|discriminate].
  intro H. injection H as <-. apply andb_prop in E. destruct E as [E1 E2].
  apply Z.leb_le in E1. apply Z.leb_le in E2. split; [reflexivity|lia].
Qed.

Lemma int4_in_range (z : Z) : int4_min <= z <= int4_max -> int4 z = Ok z.
Proof.
  intros [H1 H2]. unfold int4.
  apply Z.leb_le in H1. apply Z.leb_le in H2. rewrite H1, H2. reflexivity.
Qed.

Lemma int4_expr_inv (f : Z -> Z) (n m : option Z) :
  int4_expr f n = Ok m ->
  m = option_map f n /\ forall k, n = Some k -> int4_min <= f k <= int4_max.
Proof.
  destruct n as [k|]; simpl; intro H.
  - inv_bind H. apply int4_inv in Ha. destruct Ha as [-> Hr].
    injection H as <-. split; [reflexivity|].
    intros k' Hk. injection Hk as <-. exact Hr.
  - injection H as <-. split; [reflexivity|]. intros k Hk. discriminate Hk.
Qed.

Lemma add_order_inv (o : order_row) (c c' : customer_row) :
  add_order o c = Ok c' ->
  one_more (order_amount o) c c' /\
  forall k, total_orders c = Some k -> int4_min <= k + 1 <= int4_max.
Proof.
  unfold add_order. intro H. inv_bind H.
  apply int4_expr_inv in Ha. destruct Ha as [-> Hr].
  injection H as <-. split; [|exact Hr].
  unfold one_more, set_stats; simpl. repeat split; reflexivity.
Qed.

Lemma remove_order_inv (o : order_row) (c c' : customer_row) :
  remove_order o c = Ok c' ->
  c_id c' = c_id c /\ c_user_id c' = c_user_id c /\ name c' = name c /\
  email c' = email c /\
  total_orders c' = option_map (fun n => n - 1) (total_orders c) /\
  total_spent c' = option_map (fun s => s - order_amount o)%Q (total_spent c).
Proof.
  unfold remove_order. intro H. inv_bind H.
  apply int4_expr_inv in Ha. destruct Ha as [-> _].
  injection H as <-. unfold set_stats; simpl. repeat split; reflexivity.
Qed.

(** Removing the order that has just been added succeeds and restores
    the row. *)
Lemma remove_after_add (o : order_row) (c c1 : customer_row) :
  wf_customer c -> add_order o c = Ok c1 ->
  exists c2, remove_order o c1 = Ok c2 /\ same_customer c c2.
Proof.
  intros Hwf H. apply add_order_inv in H.
  destruct H as [(Hid & Hu & Hn & He & Hto & Hts) Hr].
  unfold remove_order. rewrite Hto.
  destruct (total_orders c) as [k|] eqn:Ek; simpl.
  - rewrite int4_in_range; [|replace (k + 1 - 1) with k by lia; apply Hwf; exact Ek].
    simpl. eexists. split; [reflexivity|].
    unfold same_customer, set_stats; simpl.
    repeat (split; [assumption|]). rewrite Ek. split; [f_equal; lia|].
    rewrite Hts. destruct (total_spent c) as [s|]; simpl; [ring|exact I].
  - eexists. split; [reflexivity|].
    unfold same_customer, set_stats; simpl.
    repeat (split; [assumption|]). rewrite Ek. split; [reflexivity|].
    rewrite Hts. destruct (total_spent c) as [s|]; simpl; [ring|exact I].
Qed.

Lemma same_customer_refl (c : customer_row) : same_customer c c.
Proof.
  unfold same_customer. repeat (split; [reflexivity|]).
  destruct (total_spent c); simpl; [reflexivity|exact I].
Qed.

Lemma increase_cons_inv (o : order_row) (c : customer_row) (cs l : list customer_row) :
  increase o (c :: cs) = Ok l ->
  exists c' cs', l = c' :: cs' /\
                 (if matches o c then add_order o c else Ok c) = Ok c' /\
                 increase o cs = Ok cs'.
Proof.
  unfold increase. simpl. intro H. inv_bind H. inv_bind H.
  injection H as <-. eauto.
Qed.


Lemma decrease_after_increase (o : order_row) (cs : list customer_row) :
  forall cs1,
    Forall wf_customer cs -> increase o cs = Ok cs1 ->
    exists cs2, decrease o cs1 = Ok cs2 /\ Forall2 same_customer cs cs2.
Proof.
  induction cs as [|c cs IH]; intros cs1 Hwf H.
  - injection H as <-. exists []. split; [reflexivity|constructor].
  - apply increase_cons_inv in H. destruct H as (c1 & cs1' & -> & Hc & Hcs).
    inversion Hwf as [|? ? Hwfc Hwfcs]; subst.
    destruct (IH cs1' Hwfcs Hcs) as (cs2 & Hd & Hall).
    unfold decrease in *. simpl. rewrite Hd.
    destruct (matches o c) eqn:Em.
    + pose proof (add_order_inv _ _ _ Hc) as [(Hid & Hu & Hn & He & _) _].
      rewrite (matches_stable o c c1 Hu Hn He), Em.
      destruct (remove_after_add o c c1 Hwfc Hc) as (c2 & Hr & Hsame).
      rewrite Hr. simpl. eexists. split; [reflexivity|].
      constructor; assumption.
    + injection Hc as <-. rewrite Em. simpl. eexists. split; [reflexivity|].
      constructor; [apply same_customer_refl|assumption].
Qed.

(** C3.  When the insert of an order has adjusted the rollups, the
    delete of that order adjusts them back: every customer row has the
    [total_orders] and a [total_spent] equal to the ones it had before the
    insert (and nothing else of the row changes). *)
Theorem rollup_insert_then_delete (o : order_row) (cs cs1 : list customer_row) :
  Forall wf_customer cs ->
  update_customer_stats INSERT None (Some o) cs = Ok cs1 ->
  exists cs2,
    update_customer_stats DELETE (Some o) None cs1 = Ok cs2 /\
    Forall2 same_customer cs cs2.
Proof.
  simpl. apply decrease_after_increase.
Qed.

Lemma rollup_insert_then_delete_witness :
  Forall wf_customer [asha_1; asha_other_owner] /\
  exists cs1,
    update_customer_stats INSERT None (Some sample_order) [asha_1; asha_other_owner]
    = Ok cs1 /\
    exists cs2,
      update_customer_stats DELETE (Some sample_order) None cs1 = Ok cs2 /\
      Forall2 same_customer [asha_1; asha_other_owner] cs2.
Proof.
  assert (Hwf : Forall wf_customer [asha_1; asha_other_owner]).
  { apply Forall_cons; [|apply Forall_cons; [|apply Forall_nil]];
      intros n Hn; injection Hn as <-; vm_compute; split; discriminate. }
  split; [exact Hwf|].
  eexists. split; [vm_compute; reflexivity|].
  apply (rollup_insert_then_delete sample_order [asha_1; asha_other_owner]).
  - exact Hwf.
  - vm_compute. reflexivity.
Defined.

Lemma increase_spec (o : order_row) (cs : list customer_row) :
  forall cs',
    increase o cs = Ok cs' ->
    Forall2 (fun c c' => if matches o c then one_more (order_amount o) c c' else c' = c)
            cs cs'.
Proof.
  induction cs as [|c cs IH]; intros cs' H.
  - injection H as <-. constructor.
  - apply increase_cons_inv in H. destruct H as (c1 & cs1 & -> & Hc & Hcs).
    constructor; [|apply IH; exact Hcs].
    destruct (matches o c).
    + apply add_order_inv in Hc. apply Hc.
    + congruence.
Qed.

(** C4 (as amended).  The adjustment of an insert is applied to every
    customer row of the owner whose name or whose email is that of the
    order, and to no other row. *)
Theorem rollup_insert_adjusts_every_match (o : order_row) (cs cs' : list customer_row) :
  update_customer_stats INSERT None (Some o) cs = Ok cs' ->
  Forall2 (fun c c' => if matches o c then one_more (order_amount o) c c' else c' = c)
          cs cs'.
Proof.
  simpl. apply increase_spec.
Qed.

Lemma rollup_insert_adjusts_every_match_witness :
  exists cs',
    update_customer_stats INSERT None (Some sample_order) [asha_1; asha_2; asha_other_owner]
    = Ok cs' /\
    Forall2 (fun c c' => if matches sample_order c
                         then one_more (order_amount sample_order) c c' else c' = c)
            [asha_1; asha_2; asha_other_owner] cs'.
Proof.
  eexists. split; [vm_compute; reflexivity|].
  apply (rollup_insert_adjusts_every_match sample_order).
  vm_compute. reflexivity.
Defined.

(** C4 as stated fails: with two customers of the owner under the name
    of the order, one insert adds the order to both. *)
Lemma rollup_adjusts_two_customers :
  exists c1 c2,
    update_customer_stats INSERT None (Some sample_order) [asha_1; asha_2] = Ok [c1; c2] /\
    total_orders asha_1 = Some 0 /\ total_orders c1 = Some 1 /\
    total_orders asha_2 = Some 0 /\ total_orders c2 = Some 1.
Proof.
  eexists; eexists. split; [vm_compute; reflexivity|].
  repeat split; reflexivity.
Qed.





(** On the sample: the customer goes from a spend of 0 to a spend that
    is 200 more, with the same number of orders. *)
Example rollup_update_amount_sample :
  exists c1 c2,
    update_customer_stats UPDATE (Some sample_order) (Some sample_order_1200)
                          [asha_1; asha_other_owner] = Ok [c1; c2] /\
    total_orders c1 = total_orders asha_1 /\
    Rollup.opt_Qeq (total_spent c1) (Some 200%Q) /\
    c2 = asha_other_owner.
Proof.
  eexists; eexists. split; [vm_compute; reflexivity|].
  repeat split; reflexivity.
Qed.

End RollupFacts.

(** ** Activity Logger *)

Module LedgerFacts.
Import Ledger Samples.

Lemma find_row_replaced (target : uuid) (NEW : order_row) (rs : list order_row) :
  find_row target rs <> None ->
  find_row (id NEW) (replace_row target NEW rs) <> None.
Proof.
  unfold find_row. induction rs as [|r rs IH]; simpl; intro H.
  - exact H.
  - destruct (N.eqb (id r) target) eqn:E; simpl.
    + rewrite N.eqb_refl. discriminate.
    + destruct (N.eqb (id r) (id NEW)); [discriminate|].
      apply IH. exact H.
Qed.

Lemma find_row_appended (NEW : order_row) (rs : list order_row) :
  find_row (id NEW) (rs ++ [NEW]) <> None.
Proof.
  unfold find_row. induction rs as [|r rs IH]; simpl.
  - rewrite N.eqb_refl. discriminate.
  - destruct (N.eqb (id r) (id NEW)); [discriminate|exact IH].
Qed.

Lemma before_triggers_orders (sch : schema) (op : tg_op) (now : timestamp)
      (OLD : option order_row) (NEW NEW' : order_row) (d d' : db) :
  before_triggers sch op now OLD NEW d = Ok (NEW', d') -> orders d' = orders d.
Proof.
  destruct sch; simpl; intro H; inv_bind H; injection H as _ <-; reflexivity.
Qed.

(** The defect that the last migration removes.  While the logger
    updates [orders] from its AFTER trigger, that update fires the
    logger again, and so on: an update of an existing order fails at
    every stack depth. *)
Lemma logger_recursion_update (depth : nat) :
  forall now target set d,
    find_row target (orders d) <> None ->
    exists e, UPDATE_orders logger_updates_orders depth now target set d = Err e.
Proof.
  induction depth as [|depth IH]; intros now target set d Hfound.
  - exists stack_depth_limit_exceeded. reflexivity.
  - cbn [UPDATE_orders].
    destruct (find_row target (orders d)) as [OLD|] eqn:Ef; [|congruence].
    destruct (before_triggers logger_updates_orders UPDATE now (Some OLD) (set OLD) d)
      as [[NEW d1]|e] eqn:Eb; cbn -[UPDATE_orders]; [|exists e; reflexivity].
    apply before_triggers_orders in Eb.
    match goal with
    | |- context [UPDATE_orders _ depth now (id NEW) ?f ?d2] =>
        destruct (IH now (id NEW) f d2) as [e He]
    end.
    + simpl. rewrite Eb. apply find_row_replaced. congruence.
    + rewrite He. exists e. reflexivity.
Qed.

Lemma logger_recursion_insert (depth : nat) (now : timestamp) (cand : order_row) (d : db) :
  exists e, INSERT_orders logger_updates_orders depth now cand d = Err e.
Proof.
  destruct depth as [|depth].
  - exists stack_depth_limit_exceeded. reflexivity.
  - cbn [INSERT_orders].
    destruct (before_triggers logger_updates_orders INSERT now None cand d)
      as [[NEW d1]|e] eqn:Eb; cbn -[UPDATE_orders]; [|exists e; reflexivity].
    match goal with
    | |- context [UPDATE_orders _ depth now (id NEW) ?f ?d2] =>
        destruct (logger_recursion_update depth now (id NEW) f d2) as [e He]
    end.
    + simpl. apply find_row_appended.
    + rewrite He. exists e. reflexivity.
Qed.

(** C6.  With the triggers as the last migration leaves them, an
    insert of a row under a fresh key whose derivation succeeds stores
    the derived row and appends exactly one activity: of type
    ['created'], for the order and its owner, without old values and
    with the stored row as new values.  An update of an existing row
    whose derivation succeeds replaces the row and appends exactly one
    activity: of type ['updated'], with the row before as old values
    and the row after as new values.  Each statement runs the two
    derivation triggers and the logger once each: the insert of the
    logger fires nothing.  A statement whose derivation fails, fails
    with the same error. *)
Theorem activity_logged_exactly_once (depth : nat) (now : timestamp) (d : db) :
  (forall cand NEW,
      find_row (id cand) (orders d) = None ->
      Derivation.before_row INSERT now None cand = Ok NEW ->
      exists a d',
        INSERT_orders logger_inserts_only (S depth) now cand d = Ok d' /\
        orders d' = orders d ++ [NEW] /\
        order_activities d' = order_activities d ++ [a] /\
        activity_type a = "created"%string /\
        description a = "Order created"%string /\
        act_order_id a = id NEW /\ act_user_id a = user_id NEW /\
        old_values a = None /\ new_values a = Some NEW /\
        fired d' = fired d ++ [fn_set_order_last_activity; fn_update_order_total;
                               fn_log_order_activity]) /\
  (forall target set OLD NEW,
      find_row target (orders d) = Some OLD ->
      Derivation.before_row UPDATE now (Some OLD) (set OLD) = Ok NEW ->
      exists a d',
        UPDATE_orders logger_inserts_only (S depth) now target set d = Ok d' /\
        orders d' = replace_row target NEW (orders d) /\
        order_activities d' = order_activities d ++ [a] /\
        activity_type a = "updated"%string /\
        description a = "Order updated"%string /\
        act_order_id a = id NEW /\ act_user_id a = user_id NEW /\
        old_values a = Some OLD /\ new_values a = Some NEW /\
        fired d' = fired d ++ [fn_set_order_last_activity; fn_update_order_total;
                               fn_log_order_activity]) /\
  (forall cand e,
      Derivation.before_row INSERT now None cand = Err e ->
      INSERT_orders logger_inserts_only (S depth) now cand d = Err e) /\
  (forall target set OLD e,
      find_row target (orders d) = Some OLD ->
      Derivation.before_row UPDATE now (Some OLD) (set OLD) = Err e ->
      UPDATE_orders logger_inserts_only (S depth) now target set d = Err e).
Proof.
  split; [|split; [|split]].
  - intros cand NEW _ H. do 2 eexists.
    split; [simpl; rewrite H; simpl; reflexivity|].
    simpl. rewrite <- !app_assoc. repeat split; reflexivity.
  - intros target set OLD NEW Hf H. do 2 eexists.
    split; [simpl; rewrite Hf, H; simpl; reflexivity|].
    simpl. rewrite <- !app_assoc. repeat split; reflexivity.
  - intros cand e H. simpl. rewrite H. reflexivity.
  - intros target set OLD e Hf H. simpl. rewrite Hf, H. reflexivity.
Qed.

Lemma activity_logged_exactly_once_witness :
  find_row (id fractional_order) (orders sample_db) = None /\
  find_row 1%N (orders sample_db) = Some sample_stored /\
  (exists NEW a d',
      Derivation.before_row INSERT 5%Z None fractional_order = Ok NEW /\
      INSERT_orders logger_inserts_only 1 5%Z fractional_order sample_db = Ok d' /\
      orders d' = orders sample_db ++ [NEW] /\
      order_activities d' = order_activities sample_db ++ [a] /\
      activity_type a = "created"%string /\
      old_values a = None /\ new_values a = Some NEW) /\
  (exists NEW a d',
      Derivation.before_row UPDATE 5%Z (Some sample_stored)
                            (to_status "shipped" sample_stored) = Ok NEW /\
      UPDATE_orders logger_inserts_only 1 5%Z 1%N (to_status "shipped") sample_db = Ok d' /\
      orders d' = replace_row 1%N NEW (orders sample_db) /\
      order_activities d' = order_activities sample_db ++ [a] /\
      activity_type a = "updated"%string /\
      old_values a = Some sample_stored /\ new_values a = Some NEW).
Proof.
  destruct (activity_logged_exactly_once 0 5%Z sample_db) as (Hins & Hupd & _ & _).
  split; [reflexivity|]. split; [reflexivity|]. split.
  - assert (Hb : exists NEW, Derivation.before_row INSERT 5%Z None fractional_order = Ok NEW)
      by (eexists; vm_compute; reflexivity).
    destruct Hb as [NEW Hb].
    destruct (Hins fractional_order NEW eq_refl Hb)
      as (a & d' & H1 & H2 & H3 & H4 & _ & _ & _ & H5 & H6 & _).
    exists NEW, a, d'. repeat split; assumption.
  - assert (Hb : exists NEW, Derivation.before_row UPDATE 5%Z (Some sample_stored)
                               (to_status "shipped" sample_stored) = Ok NEW)
      by (eexists; vm_compute; reflexivity).
    destruct Hb as [NEW Hb].
    destruct (Hupd 1%N (to_status "shipped") sample_stored NEW eq_refl Hb)
      as (a & d' & H1 & H2 & H3 & H4 & _ & _ & _ & H5 & H6 & _).
    exists NEW, a, d'. repeat split; assumption.
Defined.

(** A statement that succeeds under the last migration is one whose
    derivation succeeded: the activity rows grow by exactly one. *)
Lemma insert_appends_one_activity
      (depth : nat) (now : timestamp) (cand : order_row) (d d' : db) :
  INSERT_orders logger_inserts_only depth now cand d = Ok d' ->
  exists NEW,
    orders d' = orders d ++ [NEW] /\
    order_activities d' = order_activities d ++ [created_activity now NEW].
Proof.
  destruct depth as [|depth]; [discriminate|]. simpl.
  destruct (Derivation.before_row INSERT now None cand) as [NEW|e]; simpl; [|discriminate].
  intro H. injection H as <-. exists NEW. split; reflexivity.
Qed.

End LedgerFacts.

(** ** The calendar *)

Module CalendarFacts.
Import Calendar.

Lemma days_before_year_succ (y : Z) :
  days_before_year (y + 1) = days_before_year y + 365 + leap_day y.
Proof.
  unfold days_before_year, leap_day, is_leap.
  replace (y + 1 - 1) with y by lia.
  destruct (Z.eqb_spec (y mod 4) 0) as [H4|H4];
    destruct (Z.eqb_spec (y mod 100) 0) as [H100|H100];
    destruct (Z.eqb_spec (y mod 400) 0) as [H400|H400];
    cbn [andb orb negb]; Z.div_mod_to_equations; lia.
Qed.

Lemma days_before_year_grows (y : Z) (k : nat) :
  days_before_year y + 365 * Z.of_nat k <= days_before_year (y + Z.of_nat k).
Proof.
  induction k as [|k IH].
  - replace (y + Z.of_nat 0) with y by lia. lia.
  - replace (y + Z.of_nat (S k)) with (y + Z.of_nat k + 1) by lia.
    rewrite days_before_year_succ.
    assert (0 <= leap_day (y + Z.of_nat k)) by (unfold leap_day; destruct (is_leap _); lia).
    lia.
Qed.

Lemma days_before_month_12 (y : Z) : days_before_month y 12 = 365 + leap_day y.
Proof. unfold leap_day. simpl. destruct (is_leap y); reflexivity. Qed.

Lemma days_before_month_leap (y1 y2 : Z) (m : nat) :
  (m < 12)%nat -> days_before_month y1 m <= days_before_month y2 m + leap_day y1.
Proof.
  intro Hm. unfold leap_day.
  do 12 (destruct m as [|m];
         [unfold days_before_month, days_in_month;
          destruct (is_leap y1), (is_leap y2); simpl; lia|]).
  lia.
Qed.

Lemma valid_inv (d : Date) :
  valid d = true ->
  (month d < 12)%nat /\ (1 <= day d)%nat /\ (day d <= days_in_month (year d) (month d))%nat.
Proof.
  unfold valid. intro H.
  apply andb_prop in H. destruct H as [H H3].
  apply andb_prop in H. destruct H as [H1 H2].
  apply Nat.ltb_lt in H1. apply Nat.leb_le in H2. apply Nat.leb_le in H3.
  auto.
Qed.

Lemma valid_intro (d : Date) :
  (month d < 12)%nat -> (1 <= day d)%nat ->
  (day d <= days_in_month (year d) (month d))%nat -> valid d = true.
Proof.
  intros H1 H2 H3. unfold valid.
  apply Nat.ltb_lt in H1. apply Nat.leb_le in H2. apply Nat.leb_le in H3.
  rewrite H1, H2, H3. reflexivity.
Qed.

Lemma days_in_month_pos (y : Z) (m : nat) : (28 <= days_in_month y m)%nat.
Proof.
  unfold days_in_month.
  do 11 (destruct m as [|m]; [try destruct (is_leap y); lia|]). lia.
Qed.

Lemma prev_day_valid (d : Date) : valid d = true -> valid (prev_day d) = true.
Proof.
  intro H. apply valid_inv in H. destruct H as (Hm & Hd1 & Hd2).
  unfold prev_day. destruct (Nat.ltb_spec 1 (day d)) as [Hgt|Hle].
  - apply valid_intro; simpl; lia.
  - destruct (month d) as [|m] eqn:Em.
    + apply valid_intro; simpl; lia.
    + apply valid_intro; simpl; [lia| |lia].
      pose proof (days_in_month_pos (year d) m). lia.
Qed.

Lemma prev_day_day_number (d : Date) :
  valid d = true -> day_number (prev_day d) = day_number d - 1.
Proof.
  intro H. apply valid_inv in H. destruct H as (Hm & Hd1 & Hd2).
  unfold prev_day. destruct (Nat.ltb_spec 1 (day d)) as [Hgt|Hle].
  - unfold day_number; simpl. lia.
  - assert (Hd : day d = 1%nat) by lia.
    destruct (month d) as [|m] eqn:Em; unfold day_number; rewrite Em; simpl year;
      simpl month; simpl day; rewrite Hd.
    + pose proof (days_before_year_succ (year d - 1)) as Hs.
      replace (year d - 1 + 1) with (year d) in Hs by lia.
      pose proof (days_before_month_12 (year d - 1)) as H12.
      change (days_before_month (year d - 1) 12)
        with (days_before_month (year d - 1) 11 + Z.of_nat (days_in_month (year d - 1) 11))
        in H12.
      change (days_in_month (year d - 1) 11) with 31%nat in H12.
      change (days_before_month (year d) 0) with 0. lia.
    + change (days_before_month (year d) (S m))
        with (days_before_month (year d) m + Z.of_nat (days_in_month (year d) m)).
      lia.
Qed.

Lemma subDays_valid (n : nat) :
  forall d, valid d = true -> valid (subDays d n) = true.
Proof.
  induction n as [|n IH]; intros d H; simpl.
  - exact H.
  - apply IH. apply prev_day_valid. exact H.
Qed.

(** [subDays] goes back by whole days. *)
Lemma subDays_day_number (n : nat) :
  forall d, valid d = true -> day_number (subDays d n) = day_number d - Z.of_nat n.
Proof.
  induction n as [|n IH]; intros d H; simpl subDays.
  - lia.
  - rewrite IH by (apply prev_day_valid; exact H).
    rewrite prev_day_day_number by exact H. lia.
Qed.

(** The same day of the same month, in a later year, is at least 365
    days later. *)
Lemma same_day_later_year (a b : Date) :
  valid a = true -> valid b = true ->
  month a = month b -> day a = day b -> year a < year b ->
  day_number a + 365 <= day_number b.
Proof.
  intros Ha Hb Hm Hd Hy.
  apply valid_inv in Ha. destruct Ha as (Hma & _ & _).
  unfold day_number. rewrite <- Hm, <- Hd.
  pose proof (days_before_year_succ (year a)) as Hs.
  pose proof (days_before_year_grows (year a + 1) (Z.to_nat (year b - year a - 1))) as Hg.
  replace (year a + 1 + Z.of_nat (Z.to_nat (year b - year a - 1))) with (year b) in Hg by lia.
  pose proof (days_before_month_leap (year a) (year b) (month a) Hma) as Hl.
  lia.
Qed.

Lemma same_date_same_day_number (a b : Date) :
  year a = year b -> month a = month b -> day a = day b -> day_number a = day_number b.
Proof. unfold day_number. intros -> -> ->. reflexivity. Qed.

Lemma prev_day_time_of_day (d : Date) : time_of_day (prev_day d) = time_of_day d.
Proof.
  unfold prev_day. destruct (1 <? day d)%nat; [reflexivity|].
  destruct (month d); reflexivity.
Qed.

Lemma subDays_time_of_day (n : nat) :
  forall d, time_of_day (subDays d n) = time_of_day d.
Proof.
  induction n as [|n IH]; intro d; simpl; [reflexivity|].
  rewrite IH. apply prev_day_time_of_day.
Qed.

Lemma same_day_spec (a b : Date) :
  same_day a b = true <-> year a = year b /\ month a = month b /\ day a = day b.
Proof.
  unfold same_day. rewrite !andb_true_iff, Z.eqb_eq, !Nat.eqb_eq. tauto.
Qed.

End CalendarFacts.

(** ** Analytics: the daily series *)

Module AnalyticsFacts.
Import Calendar CalendarFacts Client.

Lemma labels_distinct_true : labels_distinct = true.
Proof. vm_compute. reflexivity. Qed.

Lemma label_of_inj (m1 d1 m2 d2 : nat) :
  (m1 < 12)%nat -> (d1 < 32)%nat -> (m2 < 12)%nat -> (d2 < 32)%nat ->
  label_of m1 d1 = label_of m2 d2 -> m1 = m2 /\ d1 = d2.
Proof.
  intros Hm1 Hd1 Hm2 Hd2 Heq.
  pose proof labels_distinct_true as H. unfold labels_distinct in H.
  rewrite forallb_forall in H. specialize (H m1). rewrite in_seq in H.
  specialize (H (conj (Nat.le_0_l _) Hm1)).
  rewrite forallb_forall in H. specialize (H d1). rewrite in_seq in H.
  specialize (H (conj (Nat.le_0_l _) Hd1)).
  rewrite forallb_forall in H. specialize (H m2). rewrite in_seq in H.
  specialize (H (conj (Nat.le_0_l _) Hm2)).
  rewrite forallb_forall in H. specialize (H d2). rewrite in_seq in H.
  specialize (H (conj (Nat.le_0_l _) Hd2)).
  rewrite Heq, String.eqb_refl in H. simpl in H.
  apply andb_prop in H. destruct H as [E1 E2].
  apply Nat.eqb_eq in E1. apply Nat.eqb_eq in E2. auto.
Qed.

Lemma days_in_month_le_31 (y : Z) (m : nat) : (days_in_month y m <= 31)%nat.
Proof.
  unfold days_in_month.
  do 11 (destruct m as [|m]; [try destruct (is_leap y); lia|]). lia.
Qed.

Lemma format_MMM_dd_inj (a b : Date) :
  valid a = true -> valid b = true -> format_MMM_dd a = format_MMM_dd b ->
  month a = month b /\ day a = day b.
Proof.
  intros Ha Hb Heq.
  apply valid_inv in Ha. destruct Ha as (Hma & _ & Hda).
  apply valid_inv in Hb. destruct Hb as (Hmb & _ & Hdb).
  pose proof (days_in_month_le_31 (year a) (month a)).
  pose proof (days_in_month_le_31 (year b) (month b)).
  apply label_of_inj; [lia..|exact Heq].
Qed.

(** Two days less than a year apart carry different labels. *)
Lemma window_labels_distinct (now : Date) (i j : nat) :
  valid now = true -> (i < j)%nat -> (j - i < 365)%nat ->
  format_MMM_dd (subDays now i) <> format_MMM_dd (subDays now j).
Proof.
  intros Hv Hij Hlt Heq.
  pose proof (subDays_valid i now Hv) as Hvi.
  pose proof (subDays_valid j now Hv) as Hvj.
  pose proof (subDays_day_number i now Hv) as Hni.
  pose proof (subDays_day_number j now Hv) as Hnj.
  destruct (format_MMM_dd_inj _ _ Hvi Hvj Heq) as [Hm Hd].
  destruct (Z.lt_trichotomy (year (subDays now i)) (year (subDays now j))) as [Hy|[Hy|Hy]].
  - pose proof (same_day_later_year _ _ Hvi Hvj Hm Hd Hy). lia.
  - pose proof (same_date_same_day_number _ _ Hy Hm Hd). lia.
  - pose proof (same_day_later_year _ _ Hvj Hvi (eq_sym Hm) (eq_sym Hd) Hy). lia.
Qed.

(** *** Objects as insertion-ordered maps *)

Section Objects.
Context {V : Type}.

Lemma obj_get_None (k : string) (o : list (string * V)) :
  obj_get k o = None <-> ~ In k (map fst o).
Proof.
  induction o as [|[k' v] o IH]; simpl.
  - tauto.
  - destruct (String.eqb_spec k k') as [->|Hne].
    + split; [discriminate|]. intro H. exfalso. apply H. left. reflexivity.
    + rewrite IH. split.
      * intros H [E|E]; [congruence|contradiction].
      * intros H E. apply H. right. exact E.
Qed.

Lemma obj_set_fresh (k : string) (v : V) (o : list (string * V)) :
  obj_get k o = None -> obj_set k v o = o ++ [(k, v)].
Proof.
  induction o as [|[k' v'] o IH]; simpl; intro H.
  - reflexivity.
  - destruct (String.eqb k k'); [discriminate|].
    rewrite IH by exact H. reflexivity.
Qed.

Lemma obj_set_keys (k : string) (v : V) (o : list (string * V)) :
  obj_get k o <> None -> map fst (obj_set k v o) = map fst o.
Proof.
  induction o as [|[k' v'] o IH]; simpl; intro H.
  - congruence.
  - destruct (String.eqb_spec k k') as [->|Hne]; simpl.
    + reflexivity.
    + rewrite IH by exact H. reflexivity.
Qed.

Lemma obj_get_set_same (k : string) (v : V) (o : list (string * V)) :
  obj_get k (obj_set k v o) = Some v.
Proof.
  induction o as [|[k' v'] o IH]; simpl.
  - rewrite String.eqb_refl. reflexivity.
  - destruct (String.eqb_spec k k') as [->|Hne]; simpl.
    + rewrite String.eqb_refl. reflexivity.
    + apply String.eqb_neq in Hne. rewrite Hne. exact IH.
Qed.

Lemma obj_get_set_other (k k' : string) (v : V) (o : list (string * V)) :
  k <> k' -> obj_get k (obj_set k' v o) = obj_get k o.
Proof.
  intro Hne. induction o as [|[k2 v2] o IH]; simpl.
  - apply String.eqb_neq in Hne. rewrite Hne. reflexivity.
  - destruct (String.eqb_spec k' k2) as [->|Hne2]; simpl.
    + apply String.eqb_neq in Hne. rewrite Hne. reflexivity.
    + rewrite IH. reflexivity.
Qed.

Lemma obj_get_In (k : string) (v : V) (o : list (string * V)) :
  NoDup (map fst o) -> In (k, v) o -> obj_get k o = Some v.
Proof.
  induction o as [|[k' v'] o IH]; simpl; intros Hnd Hin.
  - contradiction.
  - inversion Hnd as [|? ? Hnotin Hnd']; subst.
    destruct Hin as [E|Hin].
    + injection E as -> ->. rewrite String.eqb_refl. reflexivity.
    + destruct (String.eqb_spec k k') as [->|Hne].
      * exfalso. apply Hnotin. apply (in_map fst) in Hin. exact Hin.
      * apply IH; assumption.
Qed.

End Objects.

Lemma rev_map_seq {A : Type} (f : nat -> A) (n : nat) :
  rev (map f (seq 0 n)) = map (fun k => f (n - 1 - k)%nat) (seq 0 n).
Proof.
  induction n as [|n IH].
  - reflexivity.
  - rewrite seq_S at 1. rewrite map_app, rev_app_distr. simpl rev. simpl app.
    rewrite IH. cbn [seq map]. f_equal.
    + f_equal. lia.
    + rewrite <- seq_shift, map_map. apply map_ext_in.
      intros k Hk. apply in_seq in Hk. f_equal. lia.
Qed.

Lemma NoDup_map_seq {A : Type} (f : nat -> A) (n : nat) :
  (forall i j, (i < j)%nat -> (j < n)%nat -> f i <> f j) ->
  NoDup (map f (seq 0 n)).
Proof.
  intro Hdist. apply NoDup_map_NoDup_ForallPairs; [|apply seq_NoDup].
  intros i j Hi Hj Heq. apply in_seq in Hi. apply in_seq in Hj.
  destruct (Nat.lt_trichotomy i j) as [Hlt|[E|Hgt]]; [|exact E|].
  - exfalso. apply (Hdist i j); [lia|lia|exact Heq].
  - exfalso. apply (Hdist j i); [lia|lia|]. symmetry. exact Heq.
Qed.

(** *** [dailyData] and [dailyRevenue] *)

Section DailySeries.
Variable number : Type.
Variable num_zero : number.
Variable num_add : number -> number -> number.
Variable truthy : number -> bool.
Variable new_Date : string -> Date.

Local Abbreviation label now := (fun i : nat => format_MMM_dd (subDays now i)).
Local Abbreviation zero_bucket := {| revenue := num_zero; orders := 0 |}.
Local Abbreviation add := (add_to_dailyData num_add truthy new_Date).
Local Abbreviation filled := (Client.filled num_add truthy new_Date).

Lemma init_dailyData_entries (now : Date) (n : nat) :
  valid now = true -> (n <= 365)%nat ->
  init_dailyData num_zero now n = map (fun i => (label now i, zero_bucket)) (seq 0 n).
Proof.
  intros Hv. unfold init_dailyData. induction n as [|n IH]; intro Hn.
  - reflexivity.
  - rewrite seq_S, fold_left_app, map_app. simpl.
    rewrite IH by lia. apply obj_set_fresh.
    apply obj_get_None. rewrite map_map. simpl.
    intro Hin. apply in_map_iff in Hin. destruct Hin as (i & Heq & Hi).
    apply in_seq in Hi.
    apply (window_labels_distinct now i n Hv); [lia|lia|exact Heq].
Qed.

Lemma window_labels_NoDup (now : Date) (n : nat) :
  valid now = true -> (n <= 365)%nat -> NoDup (map (label now) (seq 0 n)).
Proof.
  intros Hv Hn. apply NoDup_map_seq.
  intros i j Hij Hj. apply window_labels_distinct; [exact Hv|lia|lia].
Qed.

Lemma add_keys (D : list (string * bucket number)) (order : Order number) :
  map fst (add D order) = map fst D.
Proof.
  unfold add_to_dailyData.
  destruct (obj_get _ D) as [b|] eqn:E; [|reflexivity].
  apply obj_set_keys. congruence.
Qed.

Lemma fold_add_keys (os : list (Order number)) :
  forall D, map fst (fold_left add os D) = map fst D.
Proof.
  induction os as [|o os IH]; intro D; simpl.
  - reflexivity.
  - rewrite IH. apply add_keys.
Qed.

Lemma fold_add_get (k : string) (os : list (Order number)) :
  forall D, obj_get k (fold_left add os D) = option_map (filled k os) (obj_get k D).
Proof.
  induction os as [|o os IH]; intro D; simpl fold_left.
  - unfold Client.filled. simpl. destruct (obj_get k D) as [[r n]|]; simpl; [|reflexivity].
    rewrite Nat.add_0_r. reflexivity.
  - rewrite IH. unfold add_to_dailyData.
    unfold Client.filled, labelled. simpl filter.
    destruct (String.eqb_spec (format_MMM_dd (new_Date (orderDate o))) k) as [E|Hne].
    + rewrite E.
      destruct (obj_get k D) as [b|] eqn:Eg.
      * rewrite obj_get_set_same. simpl. f_equal. f_equal. lia.
      * rewrite Eg. reflexivity.
    + destruct (obj_get (format_MMM_dd (new_Date (orderDate o))) D) as [b|] eqn:Eg.
      * rewrite obj_get_set_other by congruence. reflexivity.
      * reflexivity.
Qed.

Lemma daily_series_general (all : list (Order number)) (now : Date) (n : nat) :
  valid now = true -> (n <= 365)%nat ->
  let series := dailyRevenue num_zero num_add truthy new_Date all now n in
  List.length series = n /\
  map date series = map (fun k => format_MMM_dd (subDays now (n - 1 - k))) (seq 0 n) /\
  NoDup (map date series) /\
  (forall e, In e series ->
     let os := labelled new_Date (date e) (filteredOrders new_Date all now n) in
     day_revenue e = sum_revenue num_zero num_add truthy os /\
     day_orders e = List.length os).
Proof.
  intros Hv Hn. cbv zeta. unfold dailyRevenue.
  set (os := filteredOrders new_Date all now n).
  set (final := fold_left (add_to_dailyData num_add truthy new_Date) os
                          (init_dailyData num_zero now n)).
  assert (Hkeys : map fst final = map (label now) (seq 0 n)).
  { unfold final. rewrite fold_add_keys.
    rewrite init_dailyData_entries by assumption.
    rewrite map_map. reflexivity. }
  assert (Hdates : forall l : list (string * bucket number),
             map date (map (fun e => {| date := fst e; day_revenue := revenue (snd e);
                                        day_orders := orders (snd e) |}) l)
             = map fst l).
  { intro l. rewrite map_map. reflexivity. }
  split; [|split; [|split]].
  - rewrite length_rev, length_map.
    rewrite <- (length_map fst), Hkeys, length_map, length_seq. reflexivity.
  - rewrite map_rev, Hdates, Hkeys. apply rev_map_seq.
  - rewrite map_rev, Hdates, Hkeys. apply NoDup_rev.
    apply window_labels_NoDup; assumption.
  - intros e He. apply in_rev in He. apply in_map_iff in He.
    destruct He as ([k b] & <- & Hin). simpl.
    assert (Hget : obj_get k final = Some b).
    { apply obj_get_In; [|exact Hin].
      rewrite Hkeys. apply window_labels_NoDup; assumption. }
    unfold final in Hget. rewrite fold_add_get in Hget.
    assert (Hk : In k (map (label now) (seq 0 n))).
    { rewrite <- Hkeys. apply (in_map fst) in Hin. exact Hin. }
    assert (Hinit : obj_get k (init_dailyData num_zero now n) = Some zero_bucket).
    { rewrite init_dailyData_entries by assumption.
      apply obj_get_In.
      - rewrite map_map. simpl. apply window_labels_NoDup; assumption.
      - apply in_map_iff in Hk. destruct Hk as (i & <- & Hi).
        apply in_map_iff. exists i. split; [reflexivity|exact Hi]. }
    rewrite Hinit in Hget. simpl in Hget. injection Hget as <-.
    split; reflexivity.
Qed.

Lemma daysBack_of_cases (dateRange : string) :
  daysBack_of dateRange = 7%nat \/ daysBack_of dateRange = 30%nat \/
  daysBack_of dateRange = 90%nat.
Proof.
  unfold daysBack_of.
  destruct (String.eqb dateRange "7d"); [auto|].
  destruct (String.eqb dateRange "30d"); auto.
Qed.

Lemma filter_andb {A : Type} (f g : A -> bool) (l : list A) :
  filter f (filter g l) = filter (fun x => g x && f x) l.
Proof.
  induction l as [|x l IH]; simpl; [reflexivity|].
  destruct (g x); simpl; [destruct (f x)|]; rewrite IH; reflexivity.
Qed.

(** An order of the selection carries the label of a day of the window
    exactly when it falls on that day, provided it is dated less than
    a year after the first day of the window. *)
Lemma selected_label_same_day (now : Date) (n k : nat) (o : Date) :
  valid now = true -> valid_time now = true -> valid o = true -> valid_time o = true ->
  (k < n)%nat -> (n <= 90)%nat ->
  day_number o < day_number now - Z.of_nat (n - 1) + 365 ->
  Date_geb o (subDays now n)
  && String.eqb (format_MMM_dd o) (format_MMM_dd (subDays now (n - 1 - k)))
  = same_day o (subDays now (n - 1 - k)).
Proof.
  intros Hv Hvt Ho Hot Hk Hn Hyear.
  set (b := subDays now (n - 1 - k)).
  assert (Hb : valid b = true) by (apply subDays_valid; exact Hv).
  assert (Hnb : day_number b = day_number now - Z.of_nat (n - 1 - k))
    by (apply subDays_day_number; exact Hv).
  pose proof (subDays_day_number n now Hv) as Hns.
  pose proof (subDays_time_of_day n now) as Hts.
  unfold valid_time in Hvt, Hot.
  apply andb_prop in Hvt. destruct Hvt as [Hvt1 Hvt2].
  apply andb_prop in Hot. destruct Hot as [Hot1 Hot2].
  apply Z.leb_le in Hvt1, Hot1. apply Z.ltb_lt in Hvt2, Hot2.
  destruct (same_day o b) eqn:Es.
  - apply same_day_spec in Es. destruct Es as (Ey & Em & Ed).
    apply andb_true_iff. split.
    + unfold Date_geb, getTime. apply Z.leb_le.
      rewrite (same_date_same_day_number o b Ey Em Ed), Hns, Hts, Hnb. lia.
    + apply String.eqb_eq. unfold format_MMM_dd. rewrite Em, Ed. reflexivity.
  - apply andb_false_iff.
    destruct (Date_geb o (subDays now n)) eqn:Eg; [right|left; reflexivity].
    destruct (String.eqb_spec (format_MMM_dd o) (format_MMM_dd b)) as [El|]; [|reflexivity].
    exfalso.
    unfold Date_geb, getTime in Eg. apply Z.leb_le in Eg. rewrite Hns, Hts in Eg.
    destruct (format_MMM_dd_inj o b Ho Hb El) as [Em Ed].
    assert (Ey : year o = year b).
    { destruct (Z.lt_trichotomy (year o) (year b)) as [Hy|[Hy|Hy]]; [|exact Hy|].
      - pose proof (same_day_later_year o b Ho Hb Em Ed Hy). lia.
      - pose proof (same_day_later_year b o Hb Ho (eq_sym Em) (eq_sym Ed) Hy). lia. }
    assert (Et : same_day o b = true) by (apply same_day_spec; auto).
    congruence.
Qed.

(** C8 (as amended).  For every set of orders, every [now] and each of
    the three windows (7, 30 or 90 days), the daily series has as many
    entries as the window has days; its dates are the labels of the
    days from the oldest one to today, the [k]-th being the day
    [N - 1 - k] days before today, and no label occurs twice.  The
    revenue and the count of an entry are those of the orders dated at
    or after the start of the window that carry its label: the
    selection has no upper bound and a label has no year.  When every
    order is dated less than a year after the first day of the window,
    the entry of a day holds the orders of that calendar day, and is
    zero when there is none. *)
Theorem daily_series_shape (all : list (Order number)) (now : Date) (dateRange : string) :
  valid now = true ->
  let N := daysBack_of dateRange in
  let series := dailyRevenue num_zero num_add truthy new_Date all now N in
  (N = 7 \/ N = 30 \/ N = 90)%nat /\
  List.length series = N /\
  map date series = map (fun k => format_MMM_dd (subDays now (N - 1 - k))) (seq 0 N) /\
  (forall k, (k < N)%nat ->
             day_number (subDays now (N - 1 - k))
             = day_number now - Z.of_nat (N - 1) + Z.of_nat k) /\
  NoDup (map date series) /\
  (forall e, In e series ->
     let os := filter (fun order =>
                         Date_geb (new_Date (orderDate order)) (subDays now N)
                         && String.eqb (format_MMM_dd (new_Date (orderDate order))) (date e))
                      all in
     day_revenue e = sum_revenue num_zero num_add truthy os /\
     day_orders e = List.length os) /\
  (valid_time now = true ->
   (forall order, In order all ->
      valid (new_Date (orderDate order)) = true /\
      valid_time (new_Date (orderDate order)) = true /\
      day_number (new_Date (orderDate order))
      < day_number now - Z.of_nat (N - 1) + 365) ->
   forall k e, nth_error series k = Some e ->
     let os := filter (fun order =>
                         same_day (new_Date (orderDate order)) (subDays now (N - 1 - k)))
                      all in
     day_revenue e = sum_revenue num_zero num_add truthy os /\
     day_orders e = List.length os /\
     (os = [] -> day_revenue e = num_zero /\ day_orders e = 0%nat)).
Proof.
  intro Hv. cbv zeta.
  pose proof (daysBack_of_cases dateRange) as HN.
  set (N := daysBack_of dateRange) in *.
  assert (Hle : (N <= 365)%nat) by lia.
  destruct (daily_series_general all now N Hv Hle) as (Hlen & Hdates & Hnd & Hval).
  set (series := dailyRevenue num_zero num_add truthy new_Date all now N) in *.
  assert (Hgen : forall e, In e series ->
            let os := filter (fun order =>
                         Date_geb (new_Date (orderDate order)) (subDays now N)
                         && String.eqb (format_MMM_dd (new_Date (orderDate order))) (date e))
                      all in
            day_revenue e = sum_revenue num_zero num_add truthy os /\
            day_orders e = List.length os).
  { intros e He. cbv zeta. destruct (Hval e He) as [Hr Ho].
    unfold labelled, filteredOrders in Hr, Ho. rewrite filter_andb in Hr, Ho.
    split; [exact Hr|exact Ho]. }
  split; [exact HN|]. split; [exact Hlen|]. split; [exact Hdates|].
  split; [|split; [exact Hnd|split; [exact Hgen|]]].
  - intros k Hk. rewrite subDays_day_number by exact Hv. lia.
  - intros Hvt Hall k e Hke. cbv zeta.
    assert (Hk : (k < N)%nat).
    { rewrite <- Hlen. apply nth_error_Some. congruence. }
    assert (Hdate : date e = format_MMM_dd (subDays now (N - 1 - k))).
    { pose proof (map_nth_error date k series Hke) as H1.
      rewrite Hdates in H1.
      rewrite (map_nth_error (fun k => format_MMM_dd (subDays now (N - 1 - k))) k
                             (seq 0 N) (d := k)) in H1.
      - injection H1 as H1. symmetry. exact H1.
      - rewrite nth_error_nth' with (d := 0%nat) by (rewrite length_seq; exact Hk).
        rewrite seq_nth by exact Hk. reflexivity. }
    destruct (Hgen e (nth_error_In _ _ Hke)) as [Hr Ho]. rewrite Hdate in Hr, Ho.
    assert (Hfil : filter (fun order =>
                      Date_geb (new_Date (orderDate order)) (subDays now N)
                      && String.eqb (format_MMM_dd (new_Date (orderDate order)))
                                    (format_MMM_dd (subDays now (N - 1 - k)))) all
                   = filter (fun order =>
                      same_day (new_Date (orderDate order)) (subDays now (N - 1 - k))) all).
    { apply filter_ext_in. intros order Hin.
      destruct (Hall order Hin) as (Ho1 & Ho2 & Ho3).
      apply selected_label_same_day; try assumption. lia. }
    rewrite Hfil in Hr, Ho.
    split; [exact Hr|]. split; [exact Ho|].
    intro Hnone. rewrite Hr, Ho, Hnone. split; reflexivity.
Qed.

End DailySeries.

Lemma daily_series_shape_witness :
  valid Samples.sample_now = true /\
  let N := daysBack_of "7d" in
  let series := dailyRevenue 0%Z Z.add Samples.truthy_Z Samples.sample_new_Date
                             Samples.march_orders Samples.sample_now N in
  List.length series = N /\
  map date series
  = map (fun k => format_MMM_dd (subDays Samples.sample_now (N - 1 - k))) (seq 0 N) /\
  NoDup (map date series) /\
  (forall k e, nth_error series k = Some e ->
     let os := filter (fun order =>
                         same_day (Samples.sample_new_Date (orderDate order))
                                  (subDays Samples.sample_now (N - 1 - k)))
                      Samples.march_orders in
     day_revenue e = sum_revenue 0%Z Z.add Samples.truthy_Z os /\
     day_orders e = List.length os /\
     (os = [] -> day_revenue e = 0%Z /\ day_orders e = 0%nat)).
Proof.
  split; [reflexivity|].
  destruct (daily_series_shape Z 0%Z Z.add Samples.truthy_Z Samples.sample_new_Date
                               Samples.march_orders Samples.sample_now "7d" eq_refl)
    as (_ & Hlen & Hdates & _ & Hnd & _ & Hday).
  split; [exact Hlen|]. split; [exact Hdates|]. split; [exact Hnd|].
  apply Hday; [reflexivity|].
  intros order [<-|[<-|[<-|[]]]]; repeat split; reflexivity.
Defined.

(** C8 as stated fails: one order dated the third of March 2025 fills
    the bucket of the third of March of the week that ends on the
    fifth of March 2024, a day on which there is no order. *)
Lemma daily_series_counts_later_year :
  let series := dailyRevenue 0%Z Z.add Samples.truthy_Z Samples.later_new_Date
                             Samples.later_orders Samples.sample_now 7 in
  exists e,
    nth_error series 4 = Some e /\
    date e = "Mar 03"%string /\
    date e = format_MMM_dd (subDays Samples.sample_now (7 - 1 - 4)) /\
    filter (fun order =>
              same_day (Samples.later_new_Date (orderDate order))
                       (subDays Samples.sample_now (7 - 1 - 4)))
           Samples.later_orders = [] /\
    day_orders e = 1%nat /\ day_revenue e = 777%Z.
Proof.
  eexists. split; [vm_compute; reflexivity|].
  repeat split; reflexivity.
Qed.

(** The week that ends on the fifth of March 2024 goes through the
    29th of February; the three orders fall on the first and the
    second of March. *)
Example daily_series_sample :
  dailyRevenue 0%Z Z.add Samples.truthy_Z Samples.sample_new_Date
               Samples.march_orders Samples.sample_now 7
  = [ {| date := "Feb 28"; day_revenue := 0%Z; day_orders := 0 |};
      {| date := "Feb 29"; day_revenue := 0%Z; day_orders := 0 |};
      {| date := "Mar 01"; day_revenue := 1000%Z; day_orders := 1 |};
      {| date := "Mar 02"; day_revenue := 325%Z; day_orders := 2 |};
      {| date := "Mar 03"; day_revenue := 0%Z; day_orders := 0 |};
      {| date := "Mar 04"; day_revenue := 0%Z; day_orders := 0 |};
      {| date := "Mar 05"; day_revenue := 0%Z; day_orders := 0 |} ]%string.
Proof. vm_compute. reflexivity. Qed.

End AnalyticsFacts.

(** ** Export *)

Module ExportFacts.
Import Client Samples.
Local Open Scope string_scope.

Section ExportTable.
Variable number : Type.
Variable truthy : number -> bool.
Variable num_to_string : number -> string.

Lemma csv_object_keys (order : Order number) :
  map fst (csv_object truthy num_to_string order)
  = ["Order ID"; "Customer"; "Email"; "Amount"; "Total"; "Status"; "Priority";
     "Date"; "Due Date"; "Notes"]%string.
Proof. reflexivity. Qed.

Lemma csv_object_values (order : Order number) :
  List.length (map snd (csv_object truthy num_to_string order)) = 10%nat.
Proof. reflexivity. Qed.

(** C9 (as amended).  [handleExport] makes no export call when no
    column is selected, and otherwise passes on exactly the selected
    columns, in their order.  The CSV writer [exportOrders] takes no
    column selection: for every non-empty set of orders it writes a
    header of the same ten fields and, for each order, a row of ten
    values in the order of the header; with no order it fails. *)
Theorem export_columns
        (selectedFormat : string) (selectedColumns : list string)
        (data : list (Order number)) :
  (selectedColumns = [] -> handleExport selectedFormat selectedColumns = None) /\
  (selectedColumns <> [] ->
   handleExport selectedFormat selectedColumns
   = Some {| format := selectedFormat; columns := selectedColumns |}) /\
  (data = [] -> export_table truthy num_to_string data = Err type_error) /\
  (data <> [] ->
   exists header rows,
     export_table truthy num_to_string data = Ok (header :: rows) /\
     header = ["Order ID"; "Customer"; "Email"; "Amount"; "Total"; "Status"; "Priority";
               "Date"; "Due Date"; "Notes"]%string /\
     rows = map (fun order => map snd (csv_object truthy num_to_string order)) data /\
     List.length rows = List.length data /\
     Forall (fun row => List.length row = List.length header) rows).
Proof.
  split; [|split; [|split]].
  - intros ->. reflexivity.
  - intro Hne. unfold handleExport.
    destruct selectedColumns as [|c cs]; [congruence|reflexivity].
  - intros ->. reflexivity.
  - intro Hne. destruct data as [|o data]; [congruence|].
    eexists; eexists. split; [reflexivity|].
    split; [reflexivity|]. split; [rewrite map_map; reflexivity|].
    split.
    + rewrite !length_map. reflexivity.
    + rewrite map_map. apply Forall_forall. intros row Hin.
      apply in_map_iff in Hin. destruct Hin as (order & <- & _). reflexivity.
Qed.

End ExportTable.

Lemma export_columns_witness :
  let data := [client_order "ORD-001" "Asha" 1000%Z "2024-03-01"] in
  (["orderId"; "status"]%string = [] -> handleExport "csv" ["orderId"; "status"] = None) /\
  (["orderId"; "status"]%string <> [] ->
   handleExport "csv" ["orderId"; "status"]
   = Some {| format := "csv"; columns := ["orderId"; "status"] |}) /\
  (data = [] -> export_table truthy_Z Z_to_string data = Err type_error) /\
  (data <> [] ->
   exists header rows,
     export_table truthy_Z Z_to_string data = Ok (header :: rows) /\
     header = ["Order ID"; "Customer"; "Email"; "Amount"; "Total"; "Status"; "Priority";
               "Date"; "Due Date"; "Notes"]%string /\
     rows = map (fun order => map snd (csv_object truthy_Z Z_to_string order)) data /\
     List.length rows = List.length data /\
     Forall (fun row => List.length row = List.length header) rows).
Proof.
  exact (export_columns Z truthy_Z Z_to_string "csv" ["orderId"; "status"]%string
                        [client_order "ORD-001" "Asha" 1000%Z "2024-03-01"]).
Defined.

(** C9 as stated fails: a selection of one column is accepted by
    [handleExport], and the CSV written for one order has a header of
    ten fields and a row of ten values. *)
Lemma export_ignores_selection :
  exists options header row,
    handleExport "csv" ["orderId"%string] = Some options /\
    List.length (columns options) = 1%nat /\
    export_table truthy_Z Z_to_string [client_order "ORD-001" "Asha" 1000%Z "2024-03-01"]
    = Ok [header; row] /\
    List.length header = 10%nat /\ List.length row = 10%nat /\
    List.length header <> List.length (columns options).
Proof.
  eexists; eexists; eexists.
  split; [reflexivity|]. split; [reflexivity|]. split; [reflexivity|].
  split; [reflexivity|]. split; [reflexivity|]. discriminate.
Qed.

(** The text written for that order. *)
Example exportOrders_sample :
  exportOrders truthy_Z Z_to_string
               [client_order "ORD-001" "Asha" 1000%Z "2024-03-01"] ["ORD-001"%string]
  = Ok ("Order ID,Customer,Email,Amount,Total,Status,Priority,Date,Due Date,Notes"
        ++ newline ++ "ORD-001,Asha,,1000,1000,pending,medium,2024-03-01,,")%string.
Proof. vm_compute. reflexivity. Qed.

End ExportFacts.

(** ** Order creation *)

Module OrdersHookFacts.
Import Client Samples.
Local Open Scope string_scope.

Lemma new_orderId_length {number : Type} (a b : list (Order number)) :
  List.length a = List.length b -> new_orderId a = new_orderId b.
Proof. unfold new_orderId. intros ->. reflexivity. Qed.

(** The identifier only counts the orders held by the client: once an
    older order has been deleted, the next order gets the identifier of
    the most recent one, which is still there. *)
Lemma createOrder_reuses_orderId {number : Type}
      (orders : list (Order number)) (req req' : CreateOrderRequest number)
      (d st d' st' target : string) :
  let (o, orders1) := createOrder orders req d st in
  orderId o <> target ->
  List.length (deleteOrder orders1 target) = List.length orders ->
  let (o', orders2) := createOrder (deleteOrder orders1 target) req' d' st' in
  orderId o' = orderId o /\ In o orders2 /\ In o' orders2.
Proof.
  cbn [createOrder]. intros Hne Hlen.
  split; [|split].
  - cbn [orderId]. apply new_orderId_length. exact Hlen.
  - right. cbn [deleteOrder filter orderId].
    apply String.eqb_neq in Hne. cbn [orderId] in Hne. rewrite Hne. left. reflexivity.
  - left. reflexivity.
Qed.

(** C10 on a concrete run: after ORD-001 and ORD-002 are created and
    ORD-001 is deleted, the third order is given ORD-002 again, next to
    the second order that still carries it. *)
Theorem orderId_reused_after_delete :
  orderId (fst after_first) = "ORD-001"%string /\
  orderId (fst after_second) = "ORD-002"%string /\
  after_delete = [fst after_second] /\
  orderId (fst after_third) = "ORD-002"%string /\
  snd after_third = [fst after_third; fst after_second] /\
  customerName (fst after_third) <> customerName (fst after_second).
Proof.
  vm_compute. repeat split; try reflexivity. discriminate.
Qed.

End OrdersHookFacts.

(** ** Derivation Engine: further properties *)

Module DerivationMore.
Import Derivation RoundingFacts DerivationFacts Samples MoreSamples.
Local Open Scope Q_scope.

Lemma hundred_hundredths (z : Z) : (z # 100) * 100 == inject_Z z.
Proof. rewrite hundredths_as_product. ring. Qed.

Lemma inject_Z_half_window (r z : Z) :
  inject_Z z - (1 # 2) <= inject_Z r <= inject_Z z + (1 # 2) -> r = z.
Proof.
  intros [Hlo Hhi].
  destruct (Z.lt_trichotomy r z) as [Hlt|[E|Hgt]]; [|exact E|].
  - exfalso. assert (H : (r + 1 <= z)%Z) by lia.
    rewrite Zle_Qle, inject_Z_plus in H. change (inject_Z 1) with 1 in H. lra.
  - exfalso. assert (H : (z + 1 <= r)%Z) by lia.
    rewrite Zle_Qle, inject_Z_plus in H. change (inject_Z 1) with 1 in H. lra.
Qed.

Lemma round_hundredths_exact (q : Q) (z : Z) :
  q == z # 100 -> round_hundredths q = z.
Proof.
  intro Hq. pose proof (round_hundredths_bounds q) as [Hlo Hhi].
  rewrite hundredths_as_product in Hq.
  apply inject_Z_half_window. split; lra.
Qed.

Lemma round_hundredths_nonneg (q : Q) : 0 <= q -> (0 <= round_hundredths q)%Z.
Proof.
  intro Hq. unfold round_hundredths.
  apply Qle_bool_iff in Hq. rewrite Hq. apply Qle_bool_iff in Hq.
  change 0%Z with (Qfloor 0). apply Qfloor_resp_le. lra.
Qed.

Lemma round_hundredths_nonpos (q : Q) : q < 0 -> (round_hundredths q <= 0)%Z.
Proof.
  intro Hq. unfold round_hundredths.
  destruct (Qle_bool 0 q) eqn:E; [apply Qle_bool_iff in E; lra|].
  assert (H : (Qfloor 0 <= Qfloor (- q * 100 + (1 # 2)))%Z)
    by (apply Qfloor_resp_le; lra).
  change (Qfloor 0) with 0%Z in H. lia.
Qed.

Lemma round_hundredths_monotone (p q : Q) :
  p <= q -> (round_hundredths p <= round_hundredths q)%Z.
Proof.
  intro Hpq.
  destruct (Qlt_le_dec p 0) as [Hp|Hp]; destruct (Qlt_le_dec q 0) as [Hq|Hq].
  - unfold round_hundredths.
    destruct (Qle_bool 0 p) eqn:Ep; [apply Qle_bool_iff in Ep; lra|].
    destruct (Qle_bool 0 q) eqn:Eq; [apply Qle_bool_iff in Eq; lra|].
    assert (H : (Qfloor (- q * 100 + (1 # 2)) <= Qfloor (- p * 100 + (1 # 2)))%Z)
      by (apply Qfloor_resp_le; lra).
    lia.
  - pose proof (round_hundredths_nonpos p Hp).
    pose proof (round_hundredths_nonneg q Hq). lia.
  - lra.
  - unfold round_hundredths.
    apply Qle_bool_iff in Hp. rewrite Hp.
    apply Qle_bool_iff in Hq. rewrite Hq.
    apply Qfloor_resp_le. lra.
Qed.

(** X1.  The total that the client sends is never used: whatever value
    of [total_amount] a write carries, the outcome of the derivation is
    the same. *)
Theorem client_total_ignored
        (op : tg_op) (now : timestamp) (OLD : option order_row) (NEW : order_row)
        (v : option numeric) :
  before_row op now OLD (set_total_amount NEW v) = before_row op now OLD NEW.
Proof. destruct op; reflexivity. Qed.

Lemma inject_Z_window (r z : Z) :
  inject_Z z - 1 < inject_Z r < inject_Z z + 1 -> r = z.
Proof.
  intros [Hlo Hhi].
  destruct (Z.lt_trichotomy r z) as [Hlt|[E|Hgt]]; [|exact E|].
  - exfalso. assert (H : (r + 1 <= z)%Z) by lia.
    rewrite Zle_Qle, inject_Z_plus in H. change (inject_Z 1) with 1 in H. lra.
  - exfalso. assert (H : (z + 1 <= r)%Z) by lia.
    rewrite Zle_Qle, inject_Z_plus in H. change (inject_Z 1) with 1 in H. lra.
Qed.

(** A value that lies within 0.00005 of a whole number of hundredths
    rounds to it. *)
Lemma round_hundredths_near (v : Q) (z : Z) :
  Qabs (v - (z # 100)) <= 1 # 20000 -> round_hundredths v = z.
Proof.
  intro Hv. pose proof (round_hundredths_bounds v) as [Hlo Hhi].
  apply Qabs_Qle_condition in Hv. rewrite hundredths_as_product in Hv.
  apply inject_Z_window. split; lra.
Qed.

Lemma decimal_15_2_overflow (q : Q) :
  10000000000000 - (1 # 20000) <= Qabs q -> decimal_15_2 q = Err numeric_field_overflow.
Proof.
  intro Hbig. pose proof (round_hundredths_bounds q) as [Hlo Hhi].
  unfold decimal_15_2.
  assert (Hz : (10 ^ 15 <= Z.abs (round_hundredths q))%Z).
  { destruct (Qlt_le_dec q 0) as [Hneg|Hpos].
    - rewrite Qabs_neg in Hbig by lra.
      assert (H : (round_hundredths q <= - 10 ^ 15)%Z).
      { destruct (Z_lt_le_dec (- 10 ^ 15) (round_hundredths q)) as [Hc|Hc]; [|exact Hc].
        exfalso. assert (H : (- 10 ^ 15 + 1 <= round_hundredths q)%Z) by lia.
        rewrite Zle_Qle in H.
        change (inject_Z (- 10 ^ 15 + 1)) with (- (999999999999999 # 1)) in H. lra. }
      lia.
    - rewrite Qabs_pos in Hbig by lra.
      assert (H : (10 ^ 15 <= round_hundredths q)%Z).
      { destruct (Z_lt_le_dec (round_hundredths q) (10 ^ 15)) as [Hc|Hc]; [|exact Hc].
        exfalso. assert (H : (round_hundredths q <= 10 ^ 15 - 1)%Z) by lia.
        rewrite Zle_Qle in H.
        change (inject_Z (10 ^ 15 - 1)) with (999999999999999 # 1) in H. lra. }
      lia. }
  apply Z.ltb_ge in Hz. rewrite Hz. reflexivity.
Qed.

(** X2.  A write whose exact total needs more than 13 integral digits
    is refused with a numeric overflow: nothing is stored. *)
Theorem total_overflow_rejected
        (op : tg_op) (now : timestamp) (OLD : option order_row) (NEW : order_row) :
  10000000000000 <= Qabs (spec_total NEW) ->
  before_row op now OLD NEW = Err numeric_field_overflow.
Proof.
  intro Hbig. unfold before_row, update_order_total.
  destruct (order_total_succeeds NEW) as [total Htot].
  pose proof (order_total_close NEW total Htot) as Hclose.
  rewrite <- (order_total_last_activity op now) in Htot.
  unfold order_total in Htot. rewrite Htot. cbn [bind].
  rewrite decimal_15_2_overflow; [reflexivity|].
  apply Qabs_Qle_condition in Hclose.
  destruct (Qlt_le_dec (spec_total NEW) 0) as [Hneg|Hpos].
  - rewrite Qabs_neg in Hbig by lra. rewrite Qabs_neg by lra. lra.
  - rewrite Qabs_pos in Hbig by lra. rewrite Qabs_pos by lra. lra.
Qed.

Lemma total_overflow_rejected_witness :
  10000000000000 <= Qabs (spec_total huge_order) /\
  before_row INSERT 5%Z None huge_order = Err numeric_field_overflow.
Proof.
  split.
  - vm_compute. discriminate.
  - apply (total_overflow_rejected INSERT 5%Z None huge_order).
    vm_compute. discriminate.
Defined.

Lemma before_row_preserves
      (op : tg_op) (now : timestamp) (OLD : option order_row) (NEW NEW' : order_row) :
  before_row op now OLD NEW = Ok NEW' ->
  id NEW' = id NEW /\ order_id NEW' = order_id NEW /\ user_id NEW' = user_id NEW /\
  customer_name NEW' = customer_name NEW /\ customer_email NEW' = customer_email NEW /\
  order_amount NEW' = order_amount NEW /\ tax_rate NEW' = tax_rate NEW /\
  discount_amount NEW' = discount_amount NEW /\ status NEW' = status NEW.
Proof.
  unfold before_row. intro H.
  apply update_order_total_inv in H. destruct H as [t [_ ->]].
  destruct (becomes_completed _ _); destruct op; repeat split; reflexivity.
Qed.

(** X3.  The derivation writes [total_amount], [completed_at] and
    [last_activity_at] only: every other column of the stored row is
    the one of the write. *)
Theorem derivation_frame
        (op : tg_op) (now : timestamp) (OLD : option order_row) (NEW NEW' : order_row) :
  before_row op now OLD NEW = Ok NEW' ->
  id NEW' = id NEW /\ order_id NEW' = order_id NEW /\ user_id NEW' = user_id NEW /\
  customer_name NEW' = customer_name NEW /\ customer_email NEW' = customer_email NEW /\
  order_amount NEW' = order_amount NEW /\ tax_rate NEW' = tax_rate NEW /\
  discount_amount NEW' = discount_amount NEW /\ status NEW' = status NEW.
Proof. apply before_row_preserves. Qed.

Lemma derivation_frame_witness :
  exists NEW',
    before_row INSERT 5%Z None sample_order = Ok NEW' /\
    id NEW' = id sample_order /\ order_id NEW' = order_id sample_order /\
    user_id NEW' = user_id sample_order /\
    customer_name NEW' = customer_name sample_order /\
    customer_email NEW' = customer_email sample_order /\
    order_amount NEW' = order_amount sample_order /\
    tax_rate NEW' = tax_rate sample_order /\
    discount_amount NEW' = discount_amount sample_order /\
    status NEW' = status sample_order.
Proof.
  eexists. split; [vm_compute; reflexivity|].
  apply (derivation_frame INSERT 5%Z None sample_order).
  vm_compute. reflexivity.
Defined.

(** X4.  When the exact total is a whole number of hundredths, the
    stored total equals it: rounding only changes totals that have a
    fraction of a hundredth. *)
Theorem total_exact_on_hundredths
        (op : tg_op) (now : timestamp) (OLD : option order_row) (NEW NEW' : order_row)
        (z : Z) :
  before_row op now OLD NEW = Ok NEW' ->
  spec_total NEW == z # 100 ->
  exists t, total_amount NEW' = Some t /\ t == spec_total NEW.
Proof.
  intros H Hz. apply total_amount_of_stored_row in H.
  destruct H as (total & Htot & H).
  eexists. split; [exact H|].
  pose proof (order_total_close NEW total Htot) as Hclose.
  assert (Hnear : Qabs (num_value total - (z # 100)) <= 1 # 20000).
  { apply Qabs_Qle_condition in Hclose. apply Qabs_Qle_condition.
    rewrite Hz in Hclose. exact Hclose. }
  rewrite (round_hundredths_near _ z Hnear). symmetry. exact Hz.
Qed.

Lemma total_exact_on_hundredths_witness :
  exists NEW',
    before_row INSERT 5%Z None sample_order = Ok NEW' /\
    spec_total sample_order == 105000 # 100 /\
    exists t, total_amount NEW' = Some t /\ t == spec_total sample_order.
Proof.
  eexists. split; [vm_compute; reflexivity|].
  split; [vm_compute; reflexivity|].
  apply (total_exact_on_hundredths INSERT 5%Z None sample_order _ 105000).
  - vm_compute. reflexivity.
  - vm_compute. reflexivity.
Defined.

(** X5.  Rounding keeps the order of totals while the quotient is
    exact: of two writes of rows of the declared column types that go
    through, each with [order_amount * tax_rate] below 1.01e14 in
    absolute value, the one with the smaller exact total (for instance
    the larger discount) never stores the larger total. *)
Theorem stored_total_monotone
        (op1 op2 : tg_op) (now1 now2 : timestamp) (OLD1 OLD2 : option order_row)
        (A B A' B' : order_row) :
  column_typed A = true -> column_typed B = true ->
  Qabs (taxed_product A) < 101000000000000 ->
  Qabs (taxed_product B) < 101000000000000 ->
  before_row op1 now1 OLD1 A = Ok A' ->
  before_row op2 now2 OLD2 B = Ok B' ->
  spec_total A <= spec_total B ->
  exists ta tb, total_amount A' = Some ta /\ total_amount B' = Some tb /\ ta <= tb.
Proof.
  intros HcA HcB HsA HsB HA HB Hle.
  apply total_amount_of_stored_row in HA. destruct HA as (totA & HtA & HA).
  apply total_amount_of_stored_row in HB. destruct HB as (totB & HtB & HB).
  eexists; eexists. split; [exact HA|]. split; [exact HB|].
  rewrite (round_hundredths_comp _ _ (order_total_exact A totA HcA HsA HtA)).
  rewrite (round_hundredths_comp _ _ (order_total_exact B totB HcB HsB HtB)).
  pose proof (round_hundredths_monotone _ _ Hle) as Hz.
  rewrite (hundredths_as_product (round_hundredths (spec_total A))).
  rewrite (hundredths_as_product (round_hundredths (spec_total B))).
  rewrite Zle_Qle in Hz. lra.
Qed.

Lemma stored_total_monotone_witness :
  exists A' B',
    before_row INSERT 5%Z None fractional_order = Ok A' /\
    before_row INSERT 5%Z None sample_order = Ok B' /\
    spec_total fractional_order <= spec_total sample_order /\
    exists ta tb, total_amount A' = Some ta /\ total_amount B' = Some tb /\ ta <= tb.
Proof.
  eexists; eexists. split; [vm_compute; reflexivity|].
  split; [vm_compute; reflexivity|].
  split; [vm_compute; discriminate|].
  apply (stored_total_monotone INSERT INSERT 5%Z 5%Z None None
                               fractional_order sample_order).
  - vm_compute. reflexivity.
  - vm_compute. reflexivity.
  - vm_compute. reflexivity.
  - vm_compute. reflexivity.
  - vm_compute. reflexivity.
  - vm_compute. reflexivity.
  - vm_compute. discriminate.
Defined.

(** Beyond 1.01e14 the order can be lost: the quotient of the first
    row is rounded up at the fourth decimal; the second row has a
    larger exact total and stores the smaller total. *)
Example stored_total_not_monotone :
  exists A' B' ta tb,
    before_row INSERT 5%Z None rounded_twice_order = Ok A' /\
    before_row INSERT 5%Z None credited_order = Ok B' /\
    spec_total rounded_twice_order < spec_total credited_order /\
    total_amount A' = Some ta /\ total_amount B' = Some tb /\ tb < ta.
Proof.
  do 4 eexists. split; [vm_compute; reflexivity|].
  split; [vm_compute; reflexivity|].
  split; [vm_compute; reflexivity|].
  split; [reflexivity|]. split; [reflexivity|]. vm_compute. reflexivity.
Qed.

(** X6.  An insert never stamps [completed_at]: on INSERT the
    comparison with [OLD.status] is unknown, so an order created as
    ['completed'] is stored with the [completed_at] the client sent. *)
Theorem insert_keeps_completed_at (now : timestamp) (cand NEW' : order_row) :
  before_row INSERT now None cand = Ok NEW' ->
  completed_at NEW' = completed_at cand.
Proof.
  unfold before_row. intro H.
  apply update_order_total_inv in H. destruct H as [t [_ H]].
  rewrite becomes_completed_insert in H. subst NEW'. reflexivity.
Qed.

Lemma insert_keeps_completed_at_witness :
  exists NEW',
    before_row INSERT 5%Z None (to_status "completed" sample_order) = Ok NEW' /\
    status NEW' = Some "completed"%string /\
    completed_at NEW' = completed_at (to_status "completed" sample_order).
Proof.
  eexists. split; [vm_compute; reflexivity|]. split; [reflexivity|].
  apply (insert_keeps_completed_at 5%Z (to_status "completed" sample_order)).
  vm_compute. reflexivity.
Defined.

(** X7.  An update cannot set [last_activity_at]: whatever value its
    SET clause gives to the column, the stored value is the time of
    the update. *)
Theorem update_overwrites_last_activity_at
        (now : timestamp) (set : order_row -> order_row) (v : option timestamp)
        (OLD NEW' : order_row) :
  write_update now (fun r => set_last_activity_at (set r) v) OLD = Ok NEW' ->
  last_activity_at NEW' = Some now.
Proof.
  unfold write_update, before_row. intro H.
  apply update_order_total_last_activity in H. exact H.
Qed.

Lemma update_overwrites_last_activity_at_witness :
  exists NEW',
    write_update 20%Z (fun r => set_last_activity_at (to_status "shipped" r) (Some 100%Z))
                 sample_order = Ok NEW' /\
    last_activity_at NEW' = Some 20%Z.
Proof.
  eexists. split; [vm_compute; reflexivity|].
  apply (update_overwrites_last_activity_at 20%Z (to_status "shipped") (Some 100%Z)
                                            sample_order).
  vm_compute. reflexivity.
Defined.

End DerivationMore.

(** ** Customer Rollup: further properties *)

Module RollupMore.
Import Rollup RollupFacts RollupHistory Samples MoreSamples.

Lemma UPDATE_customers_spec (w : customer_row -> bool)
      (set : customer_row -> outcome customer_row) (cs : list customer_row) :
  forall cs',
    UPDATE_customers w set cs = Ok cs' ->
    Forall2 (fun c c' => (if w c then set c else Ok c) = Ok c') cs cs'.
Proof.
  induction cs as [|c cs IH]; intros cs' H; simpl in H.
  - injection H as <-. constructor.
  - inv_bind H. inv_bind H. injection H as <-.
    constructor; [exact Ha|apply IH; exact Ha0].
Qed.

Lemma UPDATE_customers_none (w : customer_row -> bool)
      (set : customer_row -> outcome customer_row) (cs : list customer_row) :
  Forall (fun c => w c = false) cs -> UPDATE_customers w set cs = Ok cs.
Proof.
  induction 1 as [|c cs Hc _ IH]; simpl.
  - reflexivity.
  - rewrite Hc, IH. reflexivity.
Qed.

Lemma Forall2_compose {A : Type} (R S T : A -> A -> Prop) (l1 : list A) :
  (forall a b c, R a b -> S b c -> T a c) ->
  forall l2 l3, Forall2 R l1 l2 -> Forall2 S l2 l3 -> Forall2 T l1 l3.
Proof.
  intro HRS. induction l1 as [|a l1 IH]; intros l2 l3 H12 H23.
  - inversion H12; subst. inversion H23; subst. constructor.
  - inversion H12 as [|? b ? l2' Hab H12']; subst.
    inversion H23 as [|? c ? l3' Hbc H23']; subst.
    constructor; [apply (HRS a b c); assumption|apply (IH l2'); assumption].
Qed.

Lemma Forall2_impl {A : Type} (R S : A -> A -> Prop) (l1 l2 : list A) :
  (forall a b, R a b -> S a b) -> Forall2 R l1 l2 -> Forall2 S l1 l2.
Proof.
  intros HRS H. induction H; constructor; auto.
Qed.

Lemma matches_owner (o : order_row) (c : customer_row) :
  matches o c = true -> c_user_id c = user_id o.
Proof.
  unfold matches. cbn [sql_eq].
  destruct (N.eqb_spec (c_user_id c) (user_id o)) as [E|_]; [intros _; exact E|].
  simpl. discriminate.
Qed.

(** X8.  The soft join never matches on a missing email: when the
    customer or the order has no email, the customer is matched
    exactly when it belongs to the owner of the order and bears the
    customer name of the order. *)
Theorem missing_email_matches_by_name (o : order_row) (c : customer_row) :
  email c = None \/ customer_email o = None ->
  (matches o c = true <->
   c_user_id c = user_id o /\ customer_name o = Some (name c)).
Proof.
  intro Hnull. unfold matches.
  assert (He : sql_eq String.eqb (email c) (customer_email o) = None).
  { destruct Hnull as [-> | ->]; [reflexivity|]. destruct (email c); reflexivity. }
  rewrite He. cbn [sql_eq].
  destruct (N.eqb_spec (c_user_id c) (user_id o)) as [Eu|Nu];
    destruct (customer_name o) as [n|];
    try destruct (String.eqb_spec (name c) n) as [En|Nn];
    simpl;
    (split;
     [ try discriminate; intros _; split; congruence
     | intros [H1 H2]; try reflexivity; try congruence ]).
Qed.

Lemma missing_email_matches_by_name_witness :
  (email asha_1 = None \/ customer_email sample_order = None) /\
  (matches sample_order asha_1 = true <->
   c_user_id asha_1 = user_id sample_order /\
   customer_name sample_order = Some (name asha_1)).
Proof.
  split; [left; reflexivity|].
  apply (missing_email_matches_by_name sample_order asha_1).
  left. reflexivity.
Defined.

(** X9.  With no matching customer the rollup is a no-op and not an
    error: whatever the operation, the customers are returned as they
    were. *)
Theorem rollup_without_match (e : event) (cs : list customer_row) :
  (forall o, In o (rows_of e) -> Forall (fun c => matches o c = false) cs) ->
  fire_event e cs = Ok cs.
Proof.
  intro H. destruct e as [o|old new|old]; simpl.
  - apply UPDATE_customers_none. apply H. left. reflexivity.
  - unfold decrease. rewrite UPDATE_customers_none by (apply H; left; reflexivity).
    simpl. apply UPDATE_customers_none. apply H. right. left. reflexivity.
  - apply UPDATE_customers_none. apply H. left. reflexivity.
Qed.

Lemma rollup_without_match_witness :
  (forall o, In o (rows_of (Updated sample_order sample_order_1200)) ->
             Forall (fun c => matches o c = false) [bela; asha_other_owner]) /\
  fire_event (Updated sample_order sample_order_1200) [bela; asha_other_owner]
  = Ok [bela; asha_other_owner].
Proof.
  assert (H : forall o, In o (rows_of (Updated sample_order sample_order_1200)) ->
                        Forall (fun c => matches o c = false) [bela; asha_other_owner]).
  { intros o [<-|[<-|[]]]; repeat constructor. }
  split; [exact H|].
  apply (rollup_without_match (Updated sample_order sample_order_1200)). exact H.
Defined.

Lemma fire_event_rows (e : event) (cs cs' : list customer_row) :
  fire_event e cs = Ok cs' ->
  Forall2 (fun c c' => (forall o, In o (rows_of e) -> matches o c = false) -> c' = c)
          cs cs'.
Proof.
  destruct e as [o|old new|old]; simpl; intro H.
  - apply UPDATE_customers_spec in H.
    refine (Forall2_impl _ _ _ _ (fun c c' Hc Hno => _) H); cbv beta in *.
    rewrite (Hno o (or_introl eq_refl)) in Hc. congruence.
  - inv_bind H. apply UPDATE_customers_spec in Ha. apply UPDATE_customers_spec in H.
    refine (Forall2_compose _ _ _ cs (fun c c1 c' H1 H2 Hno => _) a cs' Ha H); cbv beta in *.
    rewrite (Hno old (or_introl eq_refl)) in H1. injection H1 as <-.
    rewrite (Hno new (or_intror (or_introl eq_refl))) in H2. congruence.
  - apply UPDATE_customers_spec in H.
    refine (Forall2_impl _ _ _ _ (fun c c' Hc Hno => _) H); cbv beta in *.
    rewrite (Hno old (or_introl eq_refl)) in Hc. congruence.
Qed.

(** X10.  The rollup stays within the owner: a customer row whose
    owner is not the owner of a row of the event is left exactly as it
    is, whatever its name and email. *)
Theorem rollup_within_owner (e : event) (cs cs' : list customer_row) :
  fire_event e cs = Ok cs' ->
  Forall2 (fun c c' => ~ In (c_user_id c) (owners_of e) -> c' = c) cs cs'.
Proof.
  intro H. apply fire_event_rows in H.
  refine (Forall2_impl _ _ _ _ (fun c c' Hc Hnot => _) H); cbv beta in *.
  apply Hc. intros o Ho.
  destruct (matches o c) eqn:Em; [|reflexivity].
  exfalso. apply Hnot. apply matches_owner in Em. rewrite Em.
  unfold owners_of. apply in_map. exact Ho.
Qed.

Lemma rollup_within_owner_witness :
  exists cs',
    fire_event (Inserted sample_order) [asha_1; asha_other_owner] = Ok cs' /\
    Forall2 (fun c c' => ~ In (c_user_id c) (owners_of (Inserted sample_order)) -> c' = c)
            [asha_1; asha_other_owner] cs'.
Proof.
  eexists. split; [vm_compute; reflexivity|].
  apply (rollup_within_owner (Inserted sample_order)).
  vm_compute. reflexivity.
Defined.

(** *** The net effect of a history *)

Ltac q_ring := change numeric with Q in *; ring.

Lemma opt_Qeq_refl (a : option Q) : opt_Qeq a a.
Proof. destruct a; simpl; [reflexivity|exact I]. Qed.

Lemma shifted_zero (c : customer_row) : shifted 0 0 c c.
Proof.
  unfold shifted. repeat (split; [reflexivity|]). split.
  - destruct (total_orders c); simpl; [f_equal; lia|reflexivity].
  - destruct (total_spent c); simpl; [q_ring|exact I].
Qed.

Lemma shifted_eq (k k' : Z) (a a' : Q) (c c' : customer_row) :
  k = k' -> (a == a')%Q -> shifted k a c c' -> shifted k' a' c c'.
Proof.
  intros -> Ha (Hid & Hu & Hn & He & Hto & Hts).
  unfold shifted. repeat (split; [assumption|]).
  destruct (total_spent c') as [s'|], (total_spent c) as [s|]; simpl in *;
    try contradiction; try exact I.
  rewrite Hts, Ha. reflexivity.
Qed.

Lemma shifted_compose (k1 k2 : Z) (a1 a2 : Q) (c c1 c2 : customer_row) :
  shifted k1 a1 c c1 -> shifted k2 a2 c1 c2 -> shifted (k1 + k2) (a1 + a2) c c2.
Proof.
  intros (Hid & Hu & Hn & He & Hto & Hts) (Hid' & Hu' & Hn' & He' & Hto' & Hts').
  unfold shifted.
  split; [congruence|]. split; [congruence|]. split; [congruence|].
  split; [congruence|]. split.
  - rewrite Hto', Hto. destruct (total_orders c); simpl; [f_equal; lia|reflexivity].
  - destruct (total_spent c2) as [s2|], (total_spent c1) as [s1|],
      (total_spent c) as [s|]; simpl in *; try contradiction; try exact I.
    rewrite Hts', Hts. q_ring.
Qed.

Lemma shifted_matches (k : Z) (a : Q) (o : order_row) (c c' : customer_row) :
  shifted k a c c' -> matches o c' = matches o c.
Proof.
  intros (_ & Hu & Hn & He & _). apply matches_stable; assumption.
Qed.

Lemma increase_shifts (o : order_row) (cs cs' : list customer_row) :
  increase o cs = Ok cs' ->
  Forall2 (fun c c' => shifted (orders_of o c) (spent_of o c) c c') cs cs'.
Proof.
  intro H. apply increase_spec in H.
  refine (Forall2_impl _ _ _ _ (fun c c' Hc => _) H); cbv beta in *.
  unfold orders_of, spent_of. destruct (matches o c).
  - destruct Hc as (Hid & Hu & Hn & He & Hto & Hts).
    unfold shifted. repeat (split; [assumption|]).
    rewrite Hts. apply opt_Qeq_refl.
  - subst c'. apply shifted_zero.
Qed.

Lemma decrease_shifts (o : order_row) (cs cs' : list customer_row) :
  decrease o cs = Ok cs' ->
  Forall2 (fun c c' => shifted (- orders_of o c) (- spent_of o c) c c') cs cs'.
Proof.
  intro H. apply UPDATE_customers_spec in H.
  refine (Forall2_impl _ _ _ _ (fun c c' Hc => _) H); cbv beta in *.
  unfold orders_of, spent_of. destruct (matches o c).
  - apply remove_order_inv in Hc. destruct Hc as (Hid & Hu & Hn & He & Hto & Hts).
    unfold shifted. repeat (split; [assumption|]).
    rewrite Hts. apply opt_Qeq_refl.
  - injection Hc as <-. apply (shifted_eq 0 _ 0%Q); [reflexivity|q_ring|apply shifted_zero].
Qed.

Lemma fire_event_shifts (e : event) (cs cs' : list customer_row) :
  fire_event e cs = Ok cs' ->
  Forall2 (fun c c' => shifted (net_orders c e) (net_spent c e) c c') cs cs'.
Proof.
  destruct e as [o|old new|old]; simpl; intro H.
  - apply increase_shifts. exact H.
  - inv_bind H. apply decrease_shifts in Ha. apply increase_shifts in H.
    refine (Forall2_compose _ _ _ cs (fun c c1 c' H1 H2 => _) a cs' Ha H); cbv beta in *.
    pose proof (shifted_compose _ _ _ _ _ _ _ H1 H2) as H12.
    unfold orders_of, spent_of in *.
    rewrite (shifted_matches _ _ new c c1 H1) in H12.
    apply (shifted_eq _ _ _ _ _ _ (Z.add_comm _ _) (Qplus_comm _ _) H12).
  - apply decrease_shifts. exact H.
Qed.

Lemma net_orders_stable (k : Z) (a : Q) (c c' : customer_row) (e : event) :
  shifted k a c c' -> net_orders c' e = net_orders c e.
Proof.
  intro H. destruct e; unfold net_orders, orders_of;
    rewrite ?(shifted_matches _ _ _ c c' H); reflexivity.
Qed.

Lemma net_spent_stable (k : Z) (a : Q) (c c' : customer_row) (e : event) :
  shifted k a c c' -> net_spent c' e = net_spent c e.
Proof.
  intro H. destruct e; unfold net_spent, spent_of;
    rewrite ?(shifted_matches _ _ _ c c' H); reflexivity.
Qed.

Lemma total_net_stable (k : Z) (a : Q) (c c' : customer_row) (es : list event) :
  shifted k a c c' ->
  total_net_orders c' es = total_net_orders c es /\
  total_net_spent c' es = total_net_spent c es.
Proof.
  intro H. induction es as [|e es [IH1 IH2]]; simpl.
  - split; reflexivity.
  - rewrite IH1, IH2, (net_orders_stable _ _ _ _ e H), (net_spent_stable _ _ _ _ e H).
    split; reflexivity.
Qed.

(** X11.  After any history of inserts, updates and deletes of orders
    that the rollup accepts, every customer row is the row it was, with
    its [total_orders] moved by the number of matching orders inserted
    minus the number deleted (an update counting as a delete of the
    old row and an insert of the new one), and its [total_spent] moved
    by the sum of their amounts. *)
Theorem rollup_net_effect (es : list event) :
  forall cs cs',
    fire_events es cs = Ok cs' ->
    Forall2 (fun c c' => shifted (total_net_orders c es) (total_net_spent c es) c c')
            cs cs'.
Proof.
  induction es as [|e es IH]; intros cs cs' H; simpl in H.
  - injection H as <-. clear. induction cs; constructor; [apply shifted_zero|assumption].
  - inv_bind H. apply fire_event_shifts in Ha. apply IH in H.
    refine (Forall2_compose _ _ _ cs (fun c c1 c' H1 H2 => _) a cs' Ha H); cbv beta in *.
    destruct (total_net_stable _ _ c c1 es H1) as [E1 E2].
    rewrite E1, E2 in H2. simpl.
    apply (shifted_compose _ _ _ _ _ _ _ H1 H2).
Qed.

Lemma rollup_net_effect_witness :
  exists cs',
    fire_events sample_events [asha_1; bela; asha_other_owner] = Ok cs' /\
    Forall2 (fun c c' => shifted (total_net_orders c sample_events)
                                 (total_net_spent c sample_events) c c')
            [asha_1; bela; asha_other_owner] cs'.
Proof.
  eexists. split; [vm_compute; reflexivity|].
  apply (rollup_net_effect sample_events).
  vm_compute. reflexivity.
Defined.

(** On the sample history Asha ends with one order of 1000 and Bela
    with what she had. *)
Example rollup_net_effect_sample :
  exists a b o,
    fire_events sample_events [asha_1; bela; asha_other_owner] = Ok [a; b; o] /\
    total_orders a = Some 1 /\ opt_Qeq (total_spent a) (Some 1000%Q) /\
    total_orders b = Some 2 /\ opt_Qeq (total_spent b) (Some 500%Q) /\
    o = asha_other_owner.
Proof.
  do 3 eexists. split; [vm_compute; reflexivity|].
  repeat split; reflexivity.
Qed.

(** X12.  When an update moves an order from one customer to another,
    the customer matched only before loses one order and the old
    amount, and the customer matched only after gains one order and
    the new amount. *)
Theorem rollup_update_moves_order (old new : order_row) (cs cs' : list customer_row) :
  update_customer_stats UPDATE (Some old) (Some new) cs = Ok cs' ->
  Forall2 (fun c c' =>
             (matches old c = true -> matches new c = false ->
              shifted (-1) (- order_amount old) c c') /\
             (matches old c = false -> matches new c = true ->
              shifted 1 (order_amount new) c c'))
          cs cs'.
Proof.
  intro H. apply (fire_event_shifts (Updated old new)) in H.
  refine (Forall2_impl _ _ _ _ (fun c c' Hc => _) H); cbv beta in *.
  unfold net_orders, net_spent, orders_of, spent_of in Hc.
  split; intros Eo En; rewrite Eo, En in Hc.
  - apply (shifted_eq _ _ _ _ _ _ eq_refl) with (2 := Hc). q_ring.
  - apply (shifted_eq _ _ _ _ _ _ eq_refl) with (2 := Hc). q_ring.
Qed.

Lemma rollup_update_moves_order_witness :
  exists cs',
    update_customer_stats UPDATE (Some sample_order) (Some sample_order_bela)
                          [asha_1; bela] = Ok cs' /\
    Forall2 (fun c c' =>
               (matches sample_order c = true -> matches sample_order_bela c = false ->
                shifted (-1) (- order_amount sample_order) c c') /\
               (matches sample_order c = false -> matches sample_order_bela c = true ->
                shifted 1 (order_amount sample_order_bela) c c'))
            [asha_1; bela] cs'.
Proof.
  eexists. split; [vm_compute; reflexivity|].
  apply (rollup_update_moves_order sample_order sample_order_bela).
  vm_compute. reflexivity.
Defined.

Lemma int4_expr_error (f : Z -> Z) (n : option Z) (e : error) :
  int4_expr f n = Err e -> e = integer_out_of_range.
Proof.
  destruct n as [k|]; simpl; [|discriminate].
  unfold int4. destruct (andb _ _); simpl; congruence.
Qed.

Lemma increase_error (o : order_row) (cs : list customer_row) (e : error) :
  increase o cs = Err e -> e = integer_out_of_range.
Proof.
  unfold increase. induction cs as [|c cs IH]; simpl; [discriminate|].
  destruct (matches o c).
  - unfold add_order.
    destruct (int4_expr _ (total_orders c)) as [n|e'] eqn:E; simpl.
    + destruct (UPDATE_customers _ _ cs) as [r|e'']; simpl; [discriminate|].
      intro H. injection H as <-. apply IH. reflexivity.
    + intro H. injection H as <-. apply (int4_expr_error _ _ _ E).
  - simpl. destruct (UPDATE_customers _ _ cs) as [r|e'']; simpl; [discriminate|].
    intro H. injection H as <-. apply IH. reflexivity.
Qed.

(** X13.  A matching customer whose [total_orders] is already the
    largest 32-bit integer makes the rollup of an insert fail with an
    integer overflow, for the whole statement. *)
Theorem rollup_integer_overflow (o : order_row) (c : customer_row) (cs : list customer_row) :
  In c cs -> matches o c = true -> total_orders c = Some int4_max ->
  update_customer_stats INSERT None (Some o) cs = Err integer_out_of_range.
Proof.
  intros Hin Hm Hmax. simpl.
  destruct (increase o cs) as [cs'|e] eqn:E.
  - exfalso. apply UPDATE_customers_spec in E.
    clear - E Hin Hm Hmax. induction E as [|a a' l l' Ha _ IH].
    + contradiction.
    + destruct Hin as [->|Hin]; [|apply IH; exact Hin].
      rewrite Hm in Ha. apply add_order_inv in Ha. destruct Ha as [_ Hr].
      specialize (Hr _ Hmax). unfold int4_max in Hr. lia.
  - f_equal. apply (increase_error o cs e E).
Qed.

Lemma rollup_integer_overflow_witness :
  In asha_full [asha_other_owner; asha_full] /\
  matches sample_order asha_full = true /\
  total_orders asha_full = Some int4_max /\
  update_customer_stats INSERT None (Some sample_order) [asha_other_owner; asha_full]
  = Err integer_out_of_range.
Proof.
  assert (Hin : In asha_full [asha_other_owner; asha_full])
    by (right; left; reflexivity).
  split; [exact Hin|]. split; [reflexivity|]. split; [reflexivity|].
  apply (rollup_integer_overflow sample_order asha_full); [exact Hin|reflexivity..].
Defined.

End RollupMore.

(** ** Activity Logger and bulk actions: further properties *)

Module LedgerMore.
Import Ledger LedgerFacts Bulk Derivation DerivationFacts DerivationMore RollupMore.
Import Samples MoreSamples.

Lemma update_order_total_error
      (now : timestamp) (OLD : option order_row) (NEW : order_row) (e : error) :
  update_order_total now OLD NEW = Err e -> e = numeric_field_overflow.
Proof.
  unfold update_order_total.
  destruct (order_total_succeeds NEW) as [total Htot].
  unfold order_total in Htot. rewrite Htot. cbn [bind].
  unfold decimal_15_2.
  destruct (Z.abs _ <? _)%Z; simpl; congruence.
Qed.

Lemma before_triggers_error (sch : schema) (op : tg_op) (now : timestamp)
      (OLD : option order_row) (NEW : order_row) (d : db) (e : error) :
  before_triggers sch op now OLD NEW d = Err e -> e = numeric_field_overflow.
Proof.
  destruct sch; simpl; unfold before_row;
    destruct (update_order_total _ _ _) as [r|e'] eqn:E; simpl; try discriminate;
    intro H; injection H as <-; apply (update_order_total_error _ _ _ _ E).
Qed.

Lemma logger_recursion_update_error (depth : nat) :
  forall now target set d,
    find_row target (orders d) <> None ->
    exists e, UPDATE_orders logger_updates_orders depth now target set d = Err e /\
              recursion_error e.
Proof.
  induction depth as [|depth IH]; intros now target set d Hfound.
  - exists stack_depth_limit_exceeded. split; [reflexivity|left; reflexivity].
  - cbn [UPDATE_orders].
    destruct (find_row target (orders d)) as [OLD|] eqn:Ef; [|congruence].
    destruct (before_triggers logger_updates_orders UPDATE now (Some OLD) (set OLD) d)
      as [[NEW d1]|e] eqn:Eb; cbn -[UPDATE_orders].
    + pose proof (before_triggers_orders _ _ _ _ _ _ _ _ Eb) as Eo.
      match goal with
      | |- context [UPDATE_orders _ depth now (id NEW) ?f ?d2] =>
          destruct (IH now (id NEW) f d2) as [e [He Hk]]
      end.
      * simpl. rewrite Eo. apply find_row_replaced. congruence.
      * rewrite He. exists e. split; [reflexivity|exact Hk].
    + exists e. split; [reflexivity|].
      right. apply (before_triggers_error _ _ _ _ _ _ _ Eb).
Qed.

(** X14.  While the logger is the one of migration 20250921065616,
    which updates [orders] from its AFTER trigger, no order can be
    written: whatever the stack depth allowed, every insert fails, and
    so does every update of an existing order, with the stack depth
    error of the endless recursion (or the numeric overflow of the
    derivation). *)
Theorem logger_that_updates_orders_never_succeeds (depth : nat) (now : timestamp) (d : db) :
  (forall cand,
      exists e, INSERT_orders logger_updates_orders depth now cand d = Err e /\
                recursion_error e) /\
  (forall target set,
      find_row target (orders d) <> None ->
      exists e, UPDATE_orders logger_updates_orders depth now target set d = Err e /\
                recursion_error e).
Proof.
  split.
  - intro cand. destruct depth as [|depth].
    + exists stack_depth_limit_exceeded. split; [reflexivity|left; reflexivity].
    + cbn [INSERT_orders].
      destruct (before_triggers logger_updates_orders INSERT now None cand d)
        as [[NEW d1]|e] eqn:Eb; cbn -[UPDATE_orders].
      * match goal with
        | |- context [UPDATE_orders _ depth now (id NEW) ?f ?d2] =>
            destruct (logger_recursion_update_error depth now (id NEW) f d2)
              as [e [He Hk]]
        end.
        -- simpl. apply find_row_appended.
        -- rewrite He. exists e. split; [reflexivity|exact Hk].
      * exists e. split; [reflexivity|].
        right. apply (before_triggers_error _ _ _ _ _ _ _ Eb).
  - intros target set. apply logger_recursion_update_error.
Qed.

Lemma logger_that_updates_orders_never_succeeds_witness :
  (exists e, INSERT_orders logger_updates_orders 50 5%Z fractional_order sample_db = Err e /\
             recursion_error e) /\
  find_row 1%N (orders sample_db) <> None /\
  (exists e, UPDATE_orders logger_updates_orders 50 5%Z 1%N (to_status "shipped") sample_db
             = Err e /\ recursion_error e).
Proof.
  destruct (logger_that_updates_orders_never_succeeds 50 5%Z sample_db) as [Hi Hu].
  split; [apply Hi|].
  assert (Hf : find_row 1%N (orders sample_db) <> None) by (vm_compute; discriminate).
  split; [exact Hf|]. apply Hu. exact Hf.
Defined.

Lemma find_row_fresh (NEW : order_row) (rs : list order_row) :
  find_row (id NEW) rs = None -> find_row (id NEW) (rs ++ [NEW]) = Some NEW.
Proof.
  unfold find_row. induction rs as [|r rs IH]; simpl; intro H.
  - rewrite N.eqb_refl. reflexivity.
  - destruct (N.eqb (id r) (id NEW)); [discriminate|]. apply IH. exact H.
Qed.

(** X15.  The audit trail chains: when an order is inserted under a
    fresh [id] and then updated, the trail gains exactly one
    ['created'] and one ['updated'] activity, and the old values of the
    second are the new values of the first. *)
Theorem audit_trail_chains
        (n m : nat) (now1 now2 : timestamp) (cand : order_row)
        (set : order_row -> order_row) (d d1 d2 : db) :
  find_row (id cand) (orders d) = None ->
  INSERT_orders logger_inserts_only n now1 cand d = Ok d1 ->
  UPDATE_orders logger_inserts_only m now2 (id cand) set d1 = Ok d2 ->
  exists a1 a2,
    order_activities d2 = order_activities d ++ [a1; a2] /\
    activity_type a1 = "created"%string /\
    activity_type a2 = "updated"%string /\
    old_values a1 = None /\
    old_values a2 = new_values a1 /\
    act_order_id a1 = id cand.
Proof.
  intros Hfresh Hins Hupd.
  destruct n as [|n]; [discriminate|]. destruct m as [|m]; [discriminate|].
  simpl in Hins.
  destruct (before_row INSERT now1 None cand) as [NEW1|e] eqn:E1; simpl in Hins;
    [|discriminate].
  injection Hins as <-.
  pose proof (before_row_preserves _ _ _ _ _ E1) as (Hid & _).
  cbn [UPDATE_orders] in Hupd. cbn [orders set_orders fire INSERT_order_activities
                                    log_order_activity] in Hupd.
  rewrite <- Hid in Hupd, Hfresh.
  rewrite (find_row_fresh NEW1 (orders d) Hfresh) in Hupd.
  simpl in Hupd.
  destruct (before_row UPDATE now2 (Some NEW1) (set NEW1)) as [NEW2|e] eqn:E2;
    simpl in Hupd; [|discriminate].
  injection Hupd as <-. simpl.
  exists (created_activity now1 NEW1), (updated_activity now2 NEW1 NEW2).
  split; [rewrite <- app_assoc; reflexivity|].
  repeat split; try reflexivity. simpl. congruence.
Qed.

Lemma audit_trail_chains_witness :
  exists d1 d2,
    find_row (id fractional_order) (orders sample_db) = None /\
    INSERT_orders logger_inserts_only 1 5%Z fractional_order sample_db = Ok d1 /\
    UPDATE_orders logger_inserts_only 1 6%Z (id fractional_order) (to_status "shipped") d1
    = Ok d2 /\
    exists a1 a2,
      order_activities d2 = order_activities sample_db ++ [a1; a2] /\
      activity_type a1 = "created"%string /\
      activity_type a2 = "updated"%string /\
      old_values a1 = None /\
      old_values a2 = new_values a1 /\
      act_order_id a1 = id fractional_order.
Proof.
  eexists; eexists. split; [reflexivity|].
  split; [vm_compute; reflexivity|]. split; [vm_compute; reflexivity|].
  eapply (audit_trail_chains 1 1 5%Z 6%Z fractional_order (to_status "shipped") sample_db).
  - reflexivity.
  - vm_compute. reflexivity.
  - vm_compute. reflexivity.
Defined.

(** *** Bulk status updates *)

Lemma selected_stable (ids : list text) (uid : uuid) (r r' : order_row) :
  order_id r' = order_id r -> user_id r' = user_id r ->
  selected ids uid r' = selected ids uid r.
Proof. unfold selected. intros -> ->. reflexivity. Qed.

Lemma UPDATE_rows_spec (now : timestamp) (w : order_row -> bool)
      (set : order_row -> order_row) (rs : list order_row) :
  forall rs' ps,
    UPDATE_rows now w set rs = Ok (rs', ps) ->
    Forall2 (fun r r' => if w r then before_row UPDATE now (Some r) (set r) = Ok r'
                         else r' = r) rs rs' /\
    map fst ps = filter w rs /\
    Forall (fun p => before_row UPDATE now (Some (fst p)) (set (fst p)) = Ok (snd p)) ps.
Proof.
  induction rs as [|r rs IH]; intros rs' ps H; simpl in H.
  - injection H as <- <-. repeat split; constructor.
  - destruct (w r) eqn:Ew.
    + inv_bind H. inv_bind H. destruct a0 as [rest prest].
      injection H as <- <-. destruct (IH _ _ Ha0) as (H1 & H2 & H3).
      simpl. rewrite Ew. repeat split.
      * constructor; [rewrite Ew; exact Ha|exact H1].
      * simpl. f_equal. exact H2.
      * constructor; [exact Ha|exact H3].
    + inv_bind H. destruct a as [rest prest].
      injection H as <- <-. destruct (IH _ _ Ha) as (H1 & H2 & H3).
      simpl. rewrite Ew. repeat split.
      * constructor; [rewrite Ew; reflexivity|exact H1].
      * exact H2.
      * exact H3.
Qed.

Lemma UPDATE_rows_new (now : timestamp) (w : order_row -> bool)
      (set : order_row -> order_row) (rs : list order_row) :
  (forall r r', before_row UPDATE now (Some r) (set r) = Ok r' -> w r' = w r) ->
  forall rs' ps,
    UPDATE_rows now w set rs = Ok (rs', ps) -> map snd ps = filter w rs'.
Proof.
  intro Hw. induction rs as [|r rs IH]; intros rs' ps H; simpl in H.
  - injection H as <- <-. reflexivity.
  - destruct (w r) eqn:Ew.
    + inv_bind H. inv_bind H. destruct a0 as [rest prest].
      injection H as <- <-. simpl. rewrite (Hw _ _ Ha), Ew.
      f_equal. apply (IH _ _ Ha0).
    + inv_bind H. destruct a as [rest prest].
      injection H as <- <-. simpl. rewrite Ew. apply (IH _ _ Ha).
Qed.

(** X16.  A bulk status update changes exactly the selected orders of
    the requesting owner: each of them gets the new status and the
    time of the statement as [last_activity_at] and keeps its
    identity and amounts; every other row, an order of another owner
    with a selected identifier included, is left as it is; and the
    audit trail gains one ['updated'] activity per updated row, from
    its old to its new version. *)
Theorem bulk_status_update_scoped
        (now : timestamp) (ids : list text) (uid : uuid) (s : text) (d d' : db) :
  updateOrdersStatus now ids uid s d = Ok d' ->
  Forall2 (fun r r' =>
             if selected ids uid r
             then status r' = Some s /\ last_activity_at r' = Some now /\
                  id r' = id r /\ order_id r' = order_id r /\ user_id r' = user_id r /\
                  order_amount r' = order_amount r
             else r' = r)
          (orders d) (orders d') /\
  exists acts,
    order_activities d' = order_activities d ++ acts /\
    map old_values acts = map Some (filter (selected ids uid) (orders d)) /\
    map new_values acts = map Some (filter (selected ids uid) (orders d')) /\
    Forall (fun a => activity_type a = "updated"%string) acts.
Proof.
  unfold updateOrdersStatus, UPDATE_orders_where. intro H.
  inv_bind H. destruct a as [rs' ps]. injection H as <-. simpl.
  pose proof (UPDATE_rows_spec _ _ _ _ _ _ Ha) as (H1 & H2 & _).
  assert (Hst : forall r r',
             before_row UPDATE now (Some r) (set_status r (Some s)) = Ok r' ->
             selected ids uid r' = selected ids uid r).
  { intros r r' Hr. apply before_row_preserves in Hr.
    destruct Hr as (_ & Ho & Hu & _). apply selected_stable; assumption. }
  pose proof (UPDATE_rows_new _ _ _ _ Hst _ _ Ha) as H3.
  split.
  - refine (Forall2_impl _ _ _ _ (fun r r' Hr => _) H1); cbv beta in *.
    destruct (selected ids uid r); [|exact Hr].
    pose proof (update_order_total_last_activity _ _ _ _ Hr) as Hl.
    apply before_row_preserves in Hr.
    destruct Hr as (Hi & Ho & Hu & _ & _ & Hamt & _ & _ & Hs).
    repeat split; assumption.
  - eexists. split; [reflexivity|].
    rewrite !map_map. simpl. rewrite <- H2, <- H3, !map_map.
    repeat split; try reflexivity.
    apply Forall_forall. intros a Hin. apply in_map_iff in Hin.
    destruct Hin as (p & <- & _). reflexivity.
Qed.

Lemma bulk_status_update_scoped_witness :
  exists d',
    updateOrdersStatus 9%Z ["ORD-001"; "ORD-003"; "ORD-009"]%string 7%N "shipped"%string bulk_db
    = Ok d' /\
    Forall2 (fun r r' =>
               if selected ["ORD-001"; "ORD-003"; "ORD-009"]%string 7%N r
               then status r' = Some "shipped"%string /\ last_activity_at r' = Some 9%Z /\
                    id r' = id r /\ order_id r' = order_id r /\ user_id r' = user_id r /\
                    order_amount r' = order_amount r
               else r' = r)
            (orders bulk_db) (orders d') /\
    exists acts,
      order_activities d' = order_activities bulk_db ++ acts /\
      map old_values acts
      = map Some (filter (selected ["ORD-001"; "ORD-003"; "ORD-009"]%string 7%N)
                         (orders bulk_db)) /\
      map new_values acts
      = map Some (filter (selected ["ORD-001"; "ORD-003"; "ORD-009"]%string 7%N)
                         (orders d')) /\
      Forall (fun a => activity_type a = "updated"%string) acts.
Proof.
  eexists. split; [vm_compute; reflexivity|].
  apply (bulk_status_update_scoped 9%Z ["ORD-001"; "ORD-003"; "ORD-009"]%string 7%N
                                   "shipped"%string bulk_db).
  vm_compute. reflexivity.
Defined.

(** The sample: of four stored orders, the two selected ones of owner
    7 are updated and logged; the order of owner 8 that bears a
    selected identifier is not. *)
Example bulk_status_update_sample :
  exists d',
    updateOrdersStatus 9%Z ["ORD-001"; "ORD-003"; "ORD-009"]%string 7%N "shipped"%string bulk_db
    = Ok d' /\
    map status (orders d')
    = [Some "shipped"; Some "completed"; Some "pending"; Some "shipped"]%string /\
    List.length (order_activities d') = 2%nat.
Proof. eexists. split; [vm_compute; reflexivity|]. split; reflexivity. Qed.

(** X17.  Archiving stamps [completed_at] with the time of the
    statement on every selected order that was in another status, and
    leaves it untouched on the selected orders that were completed
    already (and on those without a status). *)
Theorem archive_stamps_completed_at
        (now : timestamp) (ids : list text) (uid : uuid) (d d' : db) :
  archiveOrders now ids uid d = Ok d' ->
  Forall2 (fun r r' =>
             selected ids uid r = true ->
             status r' = Some "completed"%string /\
             (forall s, status r = Some s -> s <> "completed"%string ->
                        completed_at r' = Some now) /\
             (status r = Some "completed"%string -> completed_at r' = completed_at r) /\
             (status r = None -> completed_at r' = completed_at r))
          (orders d) (orders d').
Proof.
  unfold archiveOrders, updateOrdersStatus, UPDATE_orders_where. intro H.
  inv_bind H. destruct a as [rs' ps]. injection H as <-. simpl.
  pose proof (UPDATE_rows_spec _ _ _ _ _ _ Ha) as (H1 & _ & _).
  refine (Forall2_impl _ _ _ _ (fun r r' Hr Hsel => _) H1); cbv beta in *.
  rewrite Hsel in Hr.
  pose proof (before_row_preserves _ _ _ _ _ Hr) as (_ & _ & _ & _ & _ & _ & _ & _ & Hs).
  split; [exact Hs|].
  change (write_update now (fun r => set_status r (Some "completed"%string)) r = Ok r')
    in Hr.
  apply write_update_inv in Hr. destruct Hr as [t Hr]. cbv zeta in Hr.
  repeat split.
  - intros s Hst Hne.
    rewrite becomes_completed_true with (s := s) in Hr;
      [subst r'; reflexivity|reflexivity|exact Hst|exact Hne].
  - intro Hst. rewrite becomes_completed_stays in Hr by exact Hst.
    subst r'. reflexivity.
  - intro Hst. unfold becomes_completed, OLD_status in Hr. rewrite Hst in Hr.
    simpl in Hr. subst r'. reflexivity.
Qed.

Lemma archive_stamps_completed_at_witness :
  exists d',
    archiveOrders 9%Z ["ORD-001"; "ORD-002"]%string 7%N bulk_db = Ok d' /\
    Forall2 (fun r r' =>
               selected ["ORD-001"; "ORD-002"]%string 7%N r = true ->
               status r' = Some "completed"%string /\
               (forall s, status r = Some s -> s <> "completed"%string ->
                          completed_at r' = Some 9%Z) /\
               (status r = Some "completed"%string -> completed_at r' = completed_at r) /\
               (status r = None -> completed_at r' = completed_at r))
            (orders bulk_db) (orders d').
Proof.
  eexists. split; [vm_compute; reflexivity|].
  apply (archive_stamps_completed_at 9%Z ["ORD-001"; "ORD-002"]%string 7%N bulk_db).
  vm_compute. reflexivity.
Defined.

(** The sample: the pending order is stamped with 9, the completed one
    keeps its stamp of 3. *)
Example archive_sample :
  exists d',
    archiveOrders 9%Z ["ORD-001"; "ORD-002"]%string 7%N bulk_db = Ok d' /\
    map completed_at (orders d') = [Some 9%Z; Some 3%Z; None; None].
Proof. eexists. split; [vm_compute; reflexivity|reflexivity]. Qed.

End LedgerMore.

(** ** Analytics: further properties *)

Module DashboardFacts.
Import Calendar CalendarFacts Client AnalyticsFacts Dashboard.

Lemma filter_or_disjoint_length {A : Type} (p q : A -> bool) (l : list A) :
  (forall x, p x = true -> q x = false) ->
  List.length (filter (fun x => p x || q x) l)
  = (List.length (filter p l) + List.length (filter q l))%nat.
Proof.
  intro Hpq. induction l as [|x l IH]; simpl.
  - reflexivity.
  - destruct (p x) eqn:Ep; simpl.
    + rewrite (Hpq x Ep). simpl. rewrite IH. reflexivity.
    + destruct (q x); simpl; rewrite IH; lia.
Qed.

Lemma filter_length_le {A : Type} (p : A -> bool) (l : list A) :
  (List.length (filter p l) <= List.length l)%nat.
Proof.
  induction l as [|x l IH]; simpl; [lia|]. destruct (p x); simpl; lia.
Qed.

Lemma existsb_eqb_In (x : string) (ks : list string) :
  existsb (String.eqb x) ks = true <-> In x ks.
Proof.
  rewrite existsb_exists. split.
  - intros (k & Hk & E). apply String.eqb_eq in E. subst. exact Hk.
  - intro H. exists x. split; [exact H|apply String.eqb_refl].
Qed.

(** The orders are split by key: over distinct keys, the sizes of the
    groups add up to the number of orders whose key is listed. *)
Lemma groups_add_up {A : Type} (f : A -> string) (os : list A) (ks : list string) :
  NoDup ks ->
  list_sum (map (fun k => List.length (filter (fun o => String.eqb (f o) k) os)) ks)
  = List.length (filter (fun o => existsb (String.eqb (f o)) ks) os).
Proof.
  induction 1 as [|k ks Hnotin Hnd IH]; simpl.
  - induction os as [|o os IHo]; simpl; [reflexivity|exact IHo].
  - rewrite IH. symmetry. apply filter_or_disjoint_length.
    intros o E. apply String.eqb_eq in E.
    destruct (existsb (String.eqb (f o)) ks) eqn:Ex; [|reflexivity].
    apply existsb_eqb_In in Ex. rewrite E in Ex. contradiction.
Qed.

Lemma nodup_length_le (l : list string) :
  (List.length (nodup string_dec l) <= List.length l)%nat.
Proof.
  induction l as [|x l IH]; simpl; [lia|].
  destruct (in_dec string_dec x l); simpl; lia.
Qed.

Section Totals.
Variable number : Type.
Variable num_zero : number.
Variable num_add num_sub num_mul num_div : number -> number -> number.
Variable num_of_nat : nat -> number.
Variable truthy : number -> bool.
Variable new_Date : string -> Date.

(** X18.  With no order in the previous window, the three growth
    figures (revenue, orders, customers) are 0, whatever the current
    window holds: nothing is divided by the empty baseline. *)
Theorem growth_zero_without_baseline
        (all : list (Order number)) (now : Date) (daysBack : nat) :
  truthy num_zero = false ->
  prevOrders new_Date all now daysBack = [] ->
  revenueGrowth num_zero num_add num_sub num_mul num_div num_of_nat truthy new_Date
                all now daysBack = num_zero /\
  orderGrowth num_zero num_sub num_mul num_div num_of_nat new_Date all now daysBack
  = num_zero /\
  customerGrowth num_zero num_sub num_mul num_div num_of_nat new_Date all now daysBack
  = num_zero.
Proof.
  intros Hzero Hnone.
  unfold revenueGrowth, orderGrowth, customerGrowth,
    prevRevenue, prevOrderCount, prevCustomerCount.
  rewrite Hnone. simpl. unfold sum_revenue. simpl. rewrite Hzero.
  repeat split; reflexivity.
Qed.

(** X19.  No order is counted in both windows: the orders of the
    current window and those of the previous one are disjoint, so the
    two counts together never exceed the number of orders. *)
Theorem windows_disjoint (all : list (Order number)) (now : Date) (daysBack : nat) :
  (forall order, In order (filteredOrders new_Date all now daysBack) ->
                 ~ In order (prevOrders new_Date all now daysBack)) /\
  (totalOrders new_Date all now daysBack + prevOrderCount new_Date all now daysBack
   <= List.length all)%nat.
Proof.
  split.
  - intros order Hcur Hprev.
    unfold filteredOrders in Hcur. unfold prevOrders in Hprev.
    apply filter_In in Hcur. destruct Hcur as [_ Hc].
    apply filter_In in Hprev. destruct Hprev as [_ Hp].
    apply andb_prop in Hp. destruct Hp as [_ Hp].
    unfold Date_geb in Hc. unfold Date_ltb in Hp.
    apply Z.leb_le in Hc. apply Z.ltb_lt in Hp. lia.
  - unfold totalOrders, prevOrderCount, filteredOrders, prevOrders.
    rewrite <- filter_or_disjoint_length.
    + apply filter_length_le.
    + intros order Hc. unfold Date_geb in Hc. apply Z.leb_le in Hc.
      apply andb_false_iff. right. unfold Date_ltb. apply Z.ltb_ge. lia.
Qed.

(** X20.  The number of distinct customers of the window never exceeds
    its number of orders, and is zero exactly when there is no order. *)
Theorem customers_at_most_orders (all : list (Order number)) (now : Date) (daysBack : nat) :
  (totalCustomers new_Date all now daysBack <= totalOrders new_Date all now daysBack)%nat /\
  (totalCustomers new_Date all now daysBack = 0%nat <->
   totalOrders new_Date all now daysBack = 0%nat).
Proof.
  unfold totalCustomers, totalOrders, Set_size.
  set (os := filteredOrders new_Date all now daysBack).
  split.
  - rewrite <- (length_map customerName os). apply nodup_length_le.
  - split; intro H.
    + destruct os as [|o os']; [reflexivity|].
      exfalso. apply length_zero_iff_nil in H.
      assert (Hin : In (customerName o) (nodup string_dec (map customerName (o :: os'))))
        by (apply nodup_In; left; reflexivity).
      rewrite H in Hin. contradiction.
    + apply length_zero_iff_nil in H. rewrite H. reflexivity.
Qed.

End Totals.

Lemma growth_zero_without_baseline_witness :
  Samples.truthy_Z 0%Z = false /\
  prevOrders Samples.sample_new_Date Samples.march_orders Samples.sample_now 7 = [] /\
  revenueGrowth 0%Z Z.add Z.sub Z.mul Z.div Z.of_nat Samples.truthy_Z
                Samples.sample_new_Date Samples.march_orders Samples.sample_now 7 = 0%Z /\
  orderGrowth 0%Z Z.sub Z.mul Z.div Z.of_nat
              Samples.sample_new_Date Samples.march_orders Samples.sample_now 7 = 0%Z /\
  customerGrowth 0%Z Z.sub Z.mul Z.div Z.of_nat
                 Samples.sample_new_Date Samples.march_orders Samples.sample_now 7 = 0%Z.
Proof.
  split; [reflexivity|]. split; [reflexivity|].
  apply (growth_zero_without_baseline Z 0%Z Z.add Z.sub Z.mul Z.div Z.of_nat
           Samples.truthy_Z Samples.sample_new_Date Samples.march_orders
           Samples.sample_now 7); reflexivity.
Defined.

(** *** Revenue by status *)

Section Breakdown.
Variable number : Type.
Variable num_zero : number.
Variable num_add : number -> number -> number.
Variable truthy : number -> bool.

Local Abbreviation add_status := (add_status_revenue num_zero num_add truthy).

Lemma obj_set_keys_cases {V : Type} (k : string) (v : V) (o : list (string * V)) :
  map fst (obj_set k v o)
  = if existsb (String.eqb k) (map fst o) then map fst o else map fst o ++ [k].
Proof.
  induction o as [|[k' v'] o IH]; simpl.
  - reflexivity.
  - destruct (String.eqb_spec k k') as [->|_]; simpl; [reflexivity|].
    rewrite IH. destruct (existsb _ _); reflexivity.
Qed.

Lemma obj_set_keys_NoDup {V : Type} (k : string) (v : V) (o : list (string * V)) :
  NoDup (map fst o) -> NoDup (map fst (obj_set k v o)).
Proof.
  intro H. rewrite obj_set_keys_cases.
  destruct (existsb _ _) eqn:E; [exact H|].
  apply NoDup_app; [exact H|repeat constructor; intros []|].
  intros x Hx [<-|[]].
  apply existsb_eqb_In in Hx. congruence.
Qed.

Lemma obj_set_keys_In {V : Type} (k x : string) (v : V) (o : list (string * V)) :
  In x (map fst (obj_set k v o)) <-> In x (map fst o) \/ x = k.
Proof.
  rewrite obj_set_keys_cases.
  destruct (existsb _ _) eqn:E.
  - apply existsb_eqb_In in E. split; [auto|]. intros [H| ->]; assumption.
  - rewrite in_app_iff. simpl. split.
    + intros [H|[<-|[]]]; auto.
    + intros [H| ->]; auto.
Qed.

Lemma statusRevenue_keys (os : list (Order number)) :
  forall acc,
    NoDup (map fst acc) ->
    NoDup (map fst (fold_left add_status os acc)) /\
    (forall x, In x (map fst (fold_left add_status os acc))
               <-> In x (map fst acc) \/ In x (map orderStatus os)).
Proof.
  induction os as [|o os IH]; intros acc Hnd; simpl.
  - split; [exact Hnd|]. intro x. tauto.
  - destruct (IH (add_status acc o)) as [H1 H2].
    + apply obj_set_keys_NoDup. exact Hnd.
    + split; [exact H1|]. intro x. rewrite H2.
      unfold add_status_revenue. rewrite obj_set_keys_In. simpl. split.
      * intros [[H|H]|H];
          [left; exact H|right; left; symmetry; exact H|right; right; exact H].
      * intros [H|[H|H]];
          [left; left; exact H|left; right; symmetry; exact H|right; exact H].
Qed.

(** X21.  The breakdown by status splits the orders of the window:
    each status occurs once, every group holds at least one order, and
    the counts of the groups add up to the number of orders. *)
Theorem revenueByStatus_partitions (os : list (Order number)) :
  let groups := revenueByStatus num_zero num_add truthy os in
  list_sum (map se_count groups) = List.length os /\
  List.length groups = Set_size (map orderStatus os) /\
  Forall (fun g => (1 <= se_count g)%nat) groups.
Proof.
  cbv zeta. unfold revenueByStatus.
  destruct (statusRevenue_keys os [] (NoDup_nil _)) as [Hnd Hin].
  fold (statusRevenue num_zero num_add truthy os) in Hnd, Hin.
  set (sr := statusRevenue num_zero num_add truthy os) in *.
  split; [|split].
  - rewrite map_map. simpl.
    rewrite <- (map_map fst (fun k => List.length
                                        (filter (fun o => String.eqb (orderStatus o) k) os))).
    rewrite (groups_add_up orderStatus os (map fst sr) Hnd).
    rewrite (filter_ext_in _ (fun _ => true)).
    + clear. induction os as [|o os IH]; simpl; [reflexivity|f_equal; exact IH].
    + intros o Ho. apply existsb_eqb_In. apply Hin. right.
      apply in_map. exact Ho.
  - rewrite length_map, <- (length_map fst sr). unfold Set_size.
    apply Permutation_length.
    apply NoDup_Permutation; [exact Hnd|apply NoDup_nodup|].
    intro x. rewrite Hin, nodup_In. simpl. tauto.
  - apply Forall_forall. intros g Hg. apply in_map_iff in Hg.
    destruct Hg as ([k v] & <- & Hk). simpl.
    assert (Hs : In k (map orderStatus os)).
    { apply (in_map fst) in Hk. apply Hin in Hk. simpl in Hk.
      destruct Hk as [[]|Hk]. exact Hk. }
    apply in_map_iff in Hs. destruct Hs as (o & <- & Ho).
    clear - Ho. induction os as [|o' os IH]; [contradiction|].
    simpl. destruct Ho as [->|Ho].
    + rewrite String.eqb_refl. simpl. lia.
    + specialize (IH Ho). destruct (String.eqb _ _); simpl; lia.
Qed.

End Breakdown.

(** On the orders of March: three orders, all pending, make one group
    of three. *)
Example revenueByStatus_sample :
  revenueByStatus 0%Z Z.add Samples.truthy_Z Samples.march_orders
  = [ {| se_status := "Pending"; se_value := 1325%Z; se_count := 3 |} ]%string.
Proof. vm_compute. reflexivity. Qed.

(** *** The daily series and the total *)

Section DailyTotal.
Variable number : Type.
Variable num_zero : number.
Variable num_add : number -> number -> number.
Variable truthy : number -> bool.
Variable new_Date : string -> Date.

(** X22.  The daily series counts the orders of the window whose day
    label is one of its buckets, each once: its order counts add up to
    the number of those orders, which can be less than the total of
    the window and is never more. *)
Theorem daily_counts_within_total
        (all : list (Order number)) (now : Date) (daysBack : nat) :
  valid now = true -> (daysBack <= 365)%nat ->
  let series := dailyRevenue num_zero num_add truthy new_Date all now daysBack in
  list_sum (map day_orders series)
  = List.length
      (filter (fun order =>
                 existsb (String.eqb (format_MMM_dd (new_Date (orderDate order))))
                         (map date series))
              (filteredOrders new_Date all now daysBack)) /\
  (list_sum (map day_orders series) <= totalOrders new_Date all now daysBack)%nat.
Proof.
  intros Hv Hn. cbv zeta.
  destruct (daily_series_general number num_zero num_add truthy new_Date all now daysBack
                                 Hv Hn) as (_ & _ & Hnd & Hval).
  set (series := dailyRevenue num_zero num_add truthy new_Date all now daysBack) in *.
  set (os := filteredOrders new_Date all now daysBack) in *.
  assert (E : list_sum (map day_orders series)
              = List.length
                  (filter (fun order =>
                             existsb (String.eqb (format_MMM_dd (new_Date (orderDate order))))
                                     (map date series)) os)).
  { rewrite <- (groups_add_up (fun order => format_MMM_dd (new_Date (orderDate order)))
                              os (map date series) Hnd).
    rewrite map_map. f_equal. apply map_ext_in.
    intros e He. destruct (Hval e He) as [_ Ho]. exact Ho. }
  split; [exact E|]. rewrite E. apply filter_length_le.
Qed.

End DailyTotal.

Lemma daily_counts_within_total_witness :
  valid Samples.sample_now = true /\ (7 <= 365)%nat /\
  let series := dailyRevenue 0%Z Z.add Samples.truthy_Z MoreSamples.evening_new_Date
                             MoreSamples.orders_with_evening Samples.sample_now 7 in
  list_sum (map day_orders series)
  = List.length
      (filter (fun order =>
                 existsb (String.eqb (format_MMM_dd
                                        (MoreSamples.evening_new_Date (orderDate order))))
                         (map date series))
              (filteredOrders MoreSamples.evening_new_Date MoreSamples.orders_with_evening
                              Samples.sample_now 7)) /\
  (list_sum (map day_orders series)
   <= totalOrders MoreSamples.evening_new_Date MoreSamples.orders_with_evening
                  Samples.sample_now 7)%nat.
Proof.
  split; [reflexivity|]. split; [lia|].
  apply (daily_counts_within_total Z 0%Z Z.add Samples.truthy_Z
           MoreSamples.evening_new_Date MoreSamples.orders_with_evening
           Samples.sample_now 7); [reflexivity|lia].
Defined.

(** An order of the evening of the day seven days back is in the
    window of seven days and in no bucket: four orders are counted in
    the total, three in the series. *)
Example daily_counts_sample :
  totalOrders MoreSamples.evening_new_Date MoreSamples.orders_with_evening
              Samples.sample_now 7 = 4%nat /\
  list_sum (map day_orders
                (dailyRevenue 0%Z Z.add Samples.truthy_Z MoreSamples.evening_new_Date
                              MoreSamples.orders_with_evening Samples.sample_now 7))
  = 3%nat.
Proof. split; vm_compute; reflexivity. Qed.

(** *** Top customers *)

Section Ranking.
Variable number : Type.
Variable num_leb : number -> number -> bool.
Hypothesis num_leb_total : forall a b, num_leb a b = true \/ num_leb b a = true.
Hypothesis num_leb_trans :
  forall a b c, num_leb a b = true -> num_leb b c = true -> num_leb a c = true.

Local Abbreviation ge x y := (num_leb (cr_revenue y) (cr_revenue x) = true).

Lemma insert_desc_Permutation (x : customer_revenue number) (l : list (customer_revenue number)) :
  Permutation (insert_desc num_leb x l) (x :: l).
Proof.
  induction l as [|y l IH]; simpl.
  - reflexivity.
  - destruct (num_leb (cr_revenue y) (cr_revenue x)).
    + reflexivity.
    + rewrite IH. apply perm_swap.
Qed.

Lemma insert_desc_sorted (x : customer_revenue number) (l : list (customer_revenue number)) :
  StronglySorted (fun a b => ge a b) l ->
  StronglySorted (fun a b => ge a b) (insert_desc num_leb x l).
Proof.
  induction 1 as [|y l Hs IH Hall]; simpl.
  - repeat constructor.
  - destruct (num_leb (cr_revenue y) (cr_revenue x)) eqn:E.
    + constructor; [constructor; assumption|].
      constructor; [exact E|].
      apply Forall_forall. intros z Hz.
      rewrite Forall_forall in Hall. apply (num_leb_trans _ _ _ (Hall z Hz) E).
    + constructor; [exact IH|].
      apply Forall_forall. intros z Hz.
      apply (Permutation_in _ (insert_desc_Permutation x l)) in Hz.
      destruct Hz as [<-|Hz].
      * destruct (num_leb_total (cr_revenue y) (cr_revenue x)) as [H|H];
          [congruence|exact H].
      * rewrite Forall_forall in Hall. apply Hall. exact Hz.
Qed.

Lemma sort_desc_Permutation (l : list (customer_revenue number)) :
  Permutation (sort_desc num_leb l) l.
Proof.
  induction l as [|x l IH]; simpl.
  - reflexivity.
  - rewrite insert_desc_Permutation. constructor. exact IH.
Qed.

Lemma sort_desc_sorted (l : list (customer_revenue number)) :
  StronglySorted (fun a b => ge a b) (sort_desc num_leb l).
Proof.
  induction l as [|x l IH]; simpl.
  - constructor.
  - apply insert_desc_sorted. exact IH.
Qed.

(** X23.  The top customers are the first five of the customers
    ranked by decreasing spend: at most five (all of them when there
    are fewer), each spending at least as much as every later one and
    as every customer left out. *)
Theorem topCustomers_ranked (customers : list (Customer number)) :
  let top := topCustomers num_leb customers in
  List.length top = Nat.min 5 (List.length customers) /\
  exists rest,
    Permutation (top ++ rest)
                (map (fun c => {| cr_name := cust_name c;
                                  cr_revenue := cust_totalSpent c;
                                  cr_orders := cust_totalOrders c |}) customers) /\
    StronglySorted (fun a b => ge a b) (top ++ rest).
Proof.
  cbv zeta. unfold topCustomers.
  set (entries := map _ customers).
  split.
  - rewrite length_firstn.
    rewrite (Permutation_length (sort_desc_Permutation entries)).
    unfold entries. rewrite length_map. reflexivity.
  - exists (skipn 5 (sort_desc num_leb entries)).
    rewrite firstn_skipn. split; [apply sort_desc_Permutation|apply sort_desc_sorted].
Qed.

End Ranking.

Lemma topCustomers_ranked_witness :
  (forall a b, Z.leb a b = true \/ Z.leb b a = true) /\
  (forall a b c, Z.leb a b = true -> Z.leb b c = true -> Z.leb a c = true) /\
  let top := topCustomers Z.leb MoreSamples.ranking_customers in
  List.length top = Nat.min 5 (List.length MoreSamples.ranking_customers) /\
  exists rest,
    Permutation (top ++ rest)
                (map (fun c => {| cr_name := cust_name c;
                                  cr_revenue := cust_totalSpent c;
                                  cr_orders := cust_totalOrders c |})
                     MoreSamples.ranking_customers) /\
    StronglySorted (fun a b => Z.leb (cr_revenue b) (cr_revenue a) = true) (top ++ rest).
Proof.
  assert (Htot : forall a b, Z.leb a b = true \/ Z.leb b a = true).
  { intros a b. destruct (Z.leb_spec a b); [left; reflexivity|right].
    apply Z.leb_le. lia. }
  assert (Htr : forall a b c, Z.leb a b = true -> Z.leb b c = true -> Z.leb a c = true).
  { intros a b c H1 H2. apply Z.leb_le in H1. apply Z.leb_le in H2.
    apply Z.leb_le. lia. }
  split; [exact Htot|]. split; [exact Htr|].
  apply (topCustomers_ranked Z Z.leb Htot Htr MoreSamples.ranking_customers).
Defined.

(** Bela first; Asha and Chitra, with the same spend, in the order of
    the list. *)
Example topCustomers_sample :
  map cr_name (topCustomers Z.leb MoreSamples.ranking_customers)
  = ["Bela"; "Asha"; "Chitra"]%string.
Proof. vm_compute. reflexivity. Qed.

(** *** Monthly trends *)

Lemma subDays_within_month (n : nat) :
  forall d,
    (n < day d)%nat ->
    subDays d n = {| year := year d; month := month d; day := (day d - n)%nat;
                     time_of_day := time_of_day d |}.
Proof.
  induction n as [|n IH]; intros d Hn; simpl.
  - rewrite Nat.sub_0_r. destruct d; reflexivity.
  - unfold prev_day. destruct (Nat.ltb_spec 1 (day d)) as [_|Hle]; [|lia].
    rewrite IH by (simpl; lia). simpl. f_equal. lia.
Qed.

Section Monthly.
Variable number : Type.
Variable num_zero : number.
Variable num_add : number -> number -> number.
Variable truthy : number -> bool.
Variable new_Date : string -> Date.

Local Abbreviation month_label now := (fun i : nat => format_MMM_yyyy (subDays now (i * 30))).

Lemma init_keys {V : Type} (L : nat -> string) (v : V) (indices : list nat) :
  forall acc,
    NoDup (map fst acc) ->
    NoDup (map fst (fold_left (fun a i => obj_set (L i) v a) indices acc)) /\
    (forall x, In x (map fst (fold_left (fun a i => obj_set (L i) v a) indices acc))
               <-> In x (map fst acc) \/ In x (map L indices)).
Proof.
  induction indices as [|i indices IH]; intros acc Hnd; simpl.
  - split; [exact Hnd|]. intro x. tauto.
  - destruct (IH (obj_set (L i) v acc)) as [H1 H2].
    + apply obj_set_keys_NoDup. exact Hnd.
    + split; [exact H1|]. intro x. rewrite H2, obj_set_keys_In. split.
      * intros [[H|H]|H];
          [left; exact H|right; left; symmetry; exact H|right; right; exact H].
      * intros [H|[H|H]];
          [left; left; exact H|left; right; symmetry; exact H|right; exact H].
Qed.

Lemma add_to_monthlyData_keys (D : list (string * month_bucket number))
      (order : Order number) :
  map fst (add_to_monthlyData num_add truthy new_Date D order) = map fst D.
Proof.
  unfold add_to_monthlyData.
  destruct (obj_get _ D) as [b|] eqn:E; [|reflexivity].
  apply obj_set_keys. congruence.
Qed.

Lemma monthly_keys (all : list (Order number)) :
  forall D,
    map fst (fold_left (add_to_monthlyData num_add truthy new_Date) all D) = map fst D.
Proof.
  induction all as [|o all IH]; intro D; simpl.
  - reflexivity.
  - rewrite IH. apply add_to_monthlyData_keys.
Qed.

(** X24.  The monthly series has one entry per distinct month label
    among the six days [now], [now - 30], ..., [now - 150]: no label
    twice, at least one entry and at most six, and at most five when
    today is the 31st, since the day 30 days back then falls in the
    same month. *)
Theorem monthlyTrends_months (all : list (Order number)) (now : Date) :
  let months := map me_month (monthlyTrends num_zero num_add truthy new_Date all now) in
  NoDup months /\
  (forall m, In m months <-> exists i, (i < 6)%nat /\ m = month_label now i) /\
  (1 <= List.length months <= 6)%nat /\
  (day now = 31%nat -> (List.length months <= 5)%nat).
Proof.
  cbv zeta. unfold monthlyTrends.
  rewrite map_rev, map_map. simpl.
  rewrite <- (map_map fst (fun k : string => k)), map_id, monthly_keys.
  unfold init_monthlyData.
  destruct (init_keys (month_label now)
                      {| mb_revenue := num_zero; mb_orders := 0; mb_customers := [] |}
                      (seq 0 6) [] (NoDup_nil _)) as [Hnd Hin].
  set (keys := map fst (fold_left _ (seq 0 6) [])) in *.
  assert (Hmem : forall m, In m (rev keys)
                           <-> exists i, (i < 6)%nat /\ m = month_label now i).
  { intro m. rewrite <- in_rev. split.
    - intro Hm. destruct (proj1 (Hin m) Hm) as [[]|H].
      apply in_map_iff in H. destruct H as (i & <- & Hi).
      apply in_seq in Hi. exists i. split; [lia|reflexivity].
    - intros (i & Hi & ->). apply (proj2 (Hin _)). right. apply in_map_iff. exists i.
      split; [reflexivity|apply in_seq; lia]. }
  split; [apply NoDup_rev; exact Hnd|]. split; [exact Hmem|].
  rewrite length_rev. split; [split|].
  - assert (H0 : In (month_label now 0%nat) keys)
      by (apply (proj2 (Hin _)); right; apply in_map_iff; exists 0%nat;
          split; [reflexivity|apply in_seq; lia]).
    destruct keys; [contradiction|simpl; lia].
  - change 6%nat with (List.length (map (month_label now) (seq 0 6))).
    apply NoDup_incl_length; [exact Hnd|].
    intros x Hx. destruct (proj1 (Hin x) Hx) as [[]|Hx']. exact Hx'.
  - intro H31.
    assert (E : month_label now 1%nat = month_label now 0%nat).
    { change (format_MMM_yyyy (subDays now 30) = format_MMM_yyyy now).
      rewrite (subDays_within_month 30 now) by lia. reflexivity. }
    change 5%nat with (List.length (map (month_label now) [0; 2; 3; 4; 5]%nat)).
    apply NoDup_incl_length; [exact Hnd|].
    intros x Hx. destruct (proj1 (Hin x) Hx) as [[]|Hx'].
    apply in_map_iff in Hx'. destruct Hx' as (i & <- & Hi). apply in_seq in Hi.
    assert (Hcases : (i = 0 \/ i = 1 \/ i = 2 \/ i = 3 \/ i = 4 \/ i = 5)%nat) by lia.
    destruct Hcases as [->|[->|[->|[->|[->| ->]]]]].
    + left. reflexivity.
    + left. symmetry. exact E.
    + right. left. reflexivity.
    + right. right. left. reflexivity.
    + right. right. right. left. reflexivity.
    + right. right. right. right. left. reflexivity.
Qed.

End Monthly.

Lemma monthlyTrends_months_witness :
  let months := map me_month
                    (monthlyTrends 0%Z Z.add Samples.truthy_Z Samples.sample_new_Date
                                   Samples.march_orders MoreSamples.end_of_january) in
  NoDup months /\
  (forall m, In m months
             <-> exists i, (i < 6)%nat /\
                           m = format_MMM_yyyy (subDays MoreSamples.end_of_january (i * 30))) /\
  (1 <= List.length months <= 6)%nat /\
  (day MoreSamples.end_of_january = 31%nat -> (List.length months <= 5)%nat).
Proof.
  exact (monthlyTrends_months Z 0%Z Z.add Samples.truthy_Z Samples.sample_new_Date
                              Samples.march_orders MoreSamples.end_of_january).
Defined.

(** On the last day of January 2024 the series has five months, and
    none for the orders of March. *)
Example monthlyTrends_sample :
  map (fun e => (me_month e, me_orders e))
      (monthlyTrends 0%Z Z.add Samples.truthy_Z Samples.sample_new_Date
                     Samples.march_orders MoreSamples.end_of_january)
  = [ ("Sep 2023"%string, 0%nat); ("Oct 2023"%string, 0%nat);
      ("Nov 2023"%string, 0%nat); ("Dec 2023"%string, 0%nat);
      ("Jan 2024"%string, 0%nat) ].
Proof. vm_compute. reflexivity. Qed.

End DashboardFacts.

(** ** The export dialog, the CSV writer and the orders hook *)

Module HooksFacts.
Import Client Hooks Samples MoreSamples.
Local Open Scope string_scope.

Lemma includes_In (l : list string) (x : string) : includes l x = true <-> In x l.
Proof.
  unfold includes. rewrite existsb_exists. split.
  - intros (k & Hk & E). apply String.eqb_eq in E. subst. exact Hk.
  - intro H. exists x. split; [exact H|apply String.eqb_refl].
Qed.

Lemma filter_out_id (k : string) (l : list string) :
  ~ In k l -> filter (fun col => negb (String.eqb col k)) l = l.
Proof.
  induction l as [|x l IH]; simpl; intro H; [reflexivity|].
  destruct (String.eqb_spec x k) as [->|_]; simpl.
  - exfalso. apply H. left. reflexivity.
  - f_equal. apply IH. intro Hin. apply H. right. exact Hin.
Qed.

(** X25.  Toggling a column flips that column only: it is selected
    afterwards exactly when it was not before, every other column
    keeps its state, a selection without repetition stays so, and
    selecting a column and deselecting it again restores the
    selection. *)
Theorem handleColumnToggle_flips (columnKey : string) (prev : list string) :
  (In columnKey (handleColumnToggle columnKey prev) <-> ~ In columnKey prev) /\
  (forall col, col <> columnKey ->
               (In col (handleColumnToggle columnKey prev) <-> In col prev)) /\
  (NoDup prev -> NoDup (handleColumnToggle columnKey prev)) /\
  (~ In columnKey prev ->
   handleColumnToggle columnKey (handleColumnToggle columnKey prev) = prev).
Proof.
  unfold handleColumnToggle.
  destruct (includes prev columnKey) eqn:E.
  - apply includes_In in E. split; [|split; [|split]].
    + rewrite filter_In, String.eqb_refl. simpl. split; [intros [_ H]; discriminate|tauto].
    + intros col Hne. rewrite filter_In. apply String.eqb_neq in Hne. rewrite Hne.
      simpl. tauto.
    + intro Hnd. apply NoDup_filter. exact Hnd.
    + intro H. contradiction.
  - assert (Hnot : ~ In columnKey prev).
    { intro H. apply includes_In in H. congruence. }
    split; [|split; [|split]].
    + rewrite in_app_iff. simpl. tauto.
    + intros col Hne. rewrite in_app_iff. simpl. split; [|tauto].
      intros [H|[H|[]]]; [exact H|congruence].
    + intro Hnd. apply NoDup_app; [exact Hnd|repeat constructor; intros []|].
      intros x Hx [<-|[]]. contradiction.
    + intros _.
      assert (Hin : includes (prev ++ [columnKey]) columnKey = true)
        by (apply includes_In; apply in_app_iff; right; left; reflexivity).
      rewrite Hin, filter_app. simpl. rewrite String.eqb_refl. simpl.
      rewrite app_nil_r. apply filter_out_id. exact Hnot.
Qed.

Lemma handleColumnToggle_flips_witness :
  In "status" (handleColumnToggle "status" ["orderId"]) /\
  NoDup (handleColumnToggle "status" ["orderId"]) /\
  handleColumnToggle "status" (handleColumnToggle "status" ["orderId"]) = ["orderId"].
Proof.
  assert (Hnot : ~ In "status" ["orderId"]).
  { simpl. intros [H|[]]. discriminate H. }
  destruct (handleColumnToggle_flips "status" ["orderId"]) as (Hin & _ & Hnd & Hback).
  split; [apply Hin; exact Hnot|].
  split; [apply Hnd; constructor; [intros []|constructor]|].
  apply Hback. exact Hnot.
Defined.

(** Deselecting a column and selecting it again moves it to the end. *)
Example handleColumnToggle_moves_to_end :
  handleColumnToggle "orderId" (handleColumnToggle "orderId" ["orderId"; "status"])
  = ["status"; "orderId"].
Proof. reflexivity. Qed.

Lemma count_char_append (c : ascii) (s1 s2 : string) :
  count_char c (s1 ++ s2) = (count_char c s1 + count_char c s2)%nat.
Proof.
  induction s1 as [|a s1 IH]; simpl; [reflexivity|]. rewrite IH. lia.
Qed.

Lemma count_char_concat (c : ascii) (x : string) (l : list string) :
  count_char c (String.concat "," (x :: l))
  = (List.length l * count_char c "," + list_sum (map (count_char c) (x :: l)))%nat.
Proof.
  revert x. induction l as [|y l IH]; intro x.
  - simpl. lia.
  - change (String.concat "," (x :: y :: l)) with (x ++ "," ++ String.concat "," (y :: l)).
    rewrite !count_char_append, IH. simpl. lia.
Qed.

Section Csv.
Variable number : Type.
Variable truthy : number -> bool.
Variable num_to_string : number -> string.

(** X26.  The CSV export fails exactly when none of the selected
    identifiers is the identifier of an order of the table: with at
    least one such order it produces a text, otherwise it throws
    before writing anything. *)
Theorem exportOrders_needs_a_row (all : list (Order number)) (selectedOrders : list string) :
  ((exists order, In order all /\ In (orderId order) selectedOrders) ->
   exists csv, exportOrders truthy num_to_string all selectedOrders = Ok csv) /\
  ((forall order, In order all -> ~ In (orderId order) selectedOrders) ->
   exportOrders truthy num_to_string all selectedOrders = Err type_error).
Proof.
  unfold exportOrders.
  set (data := filter _ all).
  split.
  - intros (order & Hin & Hsel).
    assert (Hd : In order data).
    { apply filter_In. split; [exact Hin|]. apply (includes_In selectedOrders). exact Hsel. }
    destruct data as [|o data']; [contradiction|].
    simpl. eexists. reflexivity.
  - intro Hnone.
    assert (Hd : data = []).
    { destruct data as [|o data'] eqn:E; [reflexivity|].
      assert (Ho : In o data) by (rewrite E; left; reflexivity).
      apply filter_In in Ho. destruct Ho as [Hin Hsel].
      apply (includes_In selectedOrders) in Hsel. exfalso. apply (Hnone o Hin Hsel). }
    rewrite Hd. reflexivity.
Qed.

(** X27.  The CSV writer joins the ten values of an order with commas
    and quotes nothing: the line of an order holds nine commas plus the
    commas of its values, so it reads as ten fields only when no value
    holds a comma. *)
Theorem csv_row_commas (data : list (Order number)) (header : list string)
        (rows : list (list string)) :
  export_table truthy num_to_string data = Ok (header :: rows) ->
  Forall (fun row =>
            count_char "," (String.concat "," row)
            = (9 + list_sum (map (count_char ",") row))%nat)
         rows.
Proof.
  unfold export_table. destruct data as [|o data]; [discriminate|].
  intro H. injection H as _ <-.
  apply Forall_forall. intros row Hin.
  rewrite map_map in Hin. change (In row (map (fun x => map snd (csv_object truthy num_to_string x)) (o :: data))) in Hin.
  apply in_map_iff in Hin. destruct Hin as (order & <- & _).
  unfold csv_object. cbn [map snd].
  rewrite count_char_concat. reflexivity.
Qed.

End Csv.

Lemma exportOrders_needs_a_row_witness :
  (exists csv, exportOrders truthy_Z Z_to_string march_orders ["ORD-002"; "ORD-777"]
               = Ok csv) /\
  exportOrders truthy_Z Z_to_string march_orders ["ORD-777"] = Err type_error.
Proof.
  split.
  - apply (proj1 (exportOrders_needs_a_row Z truthy_Z Z_to_string march_orders
                                           ["ORD-002"; "ORD-777"])).
    exists (client_order "ORD-002" "Bela" 250%Z "2024-03-02").
    split; [right; left; reflexivity|left; reflexivity].
  - apply (proj2 (exportOrders_needs_a_row Z truthy_Z Z_to_string march_orders
                                           ["ORD-777"])).
    intros order [<-|[<-|[<-|[]]]] [H|[]]; discriminate H.
Defined.

Lemma csv_row_commas_witness :
  exists header rows,
    export_table truthy_Z Z_to_string [comma_order] = Ok (header :: rows) /\
    Forall (fun row =>
              count_char "," (String.concat "," row)
              = (9 + list_sum (map (count_char ",") row))%nat)
           rows.
Proof.
  eexists; eexists. split; [reflexivity|].
  eapply (csv_row_commas Z truthy_Z Z_to_string [comma_order]). reflexivity.
Defined.

(** A customer name with a comma gives a line of ten commas, hence of
    eleven fields under a header of ten. *)
Example csv_comma_sample :
  exportOrders truthy_Z Z_to_string [comma_order] ["ORD-005"]
  = Ok ("Order ID,Customer,Email,Amount,Total,Status,Priority,Date,Due Date,Notes"
        ++ newline ++ "ORD-005,Doe, John,,10,10,pending,medium,2024-03-01,,").
Proof. vm_compute. reflexivity. Qed.

Lemma decode_String_of_nat (n : nat) : decode (String_of_nat n) = Some n.
Proof.
  unfold decode, String_of_nat. rewrite NilEmpty.usu. simpl.
  rewrite DecimalNat.Unsigned.of_to. reflexivity.
Qed.

Lemma decode_leading_zeros (k : nat) (s : string) :
  decode (repeat_char "0" k ++ s) = decode s.
Proof.
  induction k as [|k IH]; [reflexivity|].
  rewrite <- IH. unfold decode.
  change (repeat_char "0" (S k) ++ s) with (String "0" (repeat_char "0" k ++ s)).
  cbn [NilEmpty.uint_of_string].
  destruct (NilEmpty.uint_of_string (repeat_char "0" k ++ s)) as [d|]; reflexivity.
Qed.

Lemma decode_padStart (n : nat) : decode (padStart (String_of_nat n) 3 "0") = Some n.
Proof. unfold padStart. rewrite decode_leading_zeros. apply decode_String_of_nat. Qed.

Section OrdersHook.
Local Open Scope list_scope.
Variable number : Type.
Variable json_number : Type.
Variable parseFloat_toString : json_number -> number.
Variable truthy : number -> bool.
Variable num_to_string : number -> string.

Lemma new_orderId_length_inj (a b : list (Order number)) :
  new_orderId a = new_orderId b -> List.length a = List.length b.
Proof.
  unfold new_orderId. intro H. injection H as H.
  apply (f_equal decode) in H. rewrite !decode_padStart in H.
  injection H as H. lia.
Qed.

Lemma new_orderId_same_length (a b : list (Order number)) :
  List.length a = List.length b -> new_orderId a = new_orderId b.
Proof. unfold new_orderId. intros ->. reflexivity. Qed.

Lemma create_all_app (reqs : list (CreateOrderRequest number * string * string))
      (orders : list (Order number)) :
  exists created,
    create_all reqs orders = created ++ orders /\
    List.length created = List.length reqs /\
    forall i o, nth_error (rev created) i = Some o ->
                orderId o = new_orderId (firstn i (rev created) ++ orders) /\
                totalAmount o = None.
Proof.
  revert orders. induction reqs as [|r reqs IH]; intro orders.
  - exists []. split; [reflexivity|]. split; [reflexivity|].
    intros [|i] o H; discriminate.
  - change (create_all (r :: reqs) orders)
      with (create_all reqs
              (fst (createOrder orders (fst (fst r)) (snd (fst r)) (snd r)) :: orders)).
    set (newOrder := fst (createOrder orders (fst (fst r)) (snd (fst r)) (snd r))).
    assert (HnewId : orderId newOrder = new_orderId orders) by reflexivity.
    assert (HnewTotal : totalAmount newOrder = None) by reflexivity.
    clearbody newOrder.
    destruct (IH (newOrder :: orders)) as (created & E & Hlen & Hid).
    exists (created ++ [newOrder]). split; [|split].
    + rewrite E, <- app_assoc. reflexivity.
    + rewrite length_app, Hlen. simpl. lia.
    + intros i o. rewrite rev_app_distr. simpl.
      destruct i as [|i]; simpl.
      * intro H. injection H as <-. split; assumption.
      * intro H. destruct (Hid i o H) as [H1 H2]. split; [|exact H2].
        rewrite H1. apply new_orderId_same_length.
        rewrite !length_app. simpl. rewrite !length_app. lia.
Qed.

(** X28.  Without a delete in between, the orders created one after
    the other from the empty list carry pairwise different
    identifiers, and there are as many of them as requests. *)
Theorem created_ids_distinct (reqs : list (CreateOrderRequest number * string * string)) :
  NoDup (map orderId (create_all reqs [])) /\
  List.length (create_all reqs []) = List.length reqs.
Proof.
  destruct (create_all_app reqs []) as (created & E & Hlen & Hid).
  rewrite E, app_nil_r. split; [|exact Hlen].
  assert (Hnd : NoDup (map orderId (rev created))).
  { apply (proj2 (NoDup_nth_error _)).
    intros i j Hi E2. rewrite length_map in Hi.
    rewrite !nth_error_map in E2.
    destruct (nth_error (rev created) i) as [oi|] eqn:Ei;
      [|apply nth_error_None in Ei; lia].
    destruct (nth_error (rev created) j) as [oj|] eqn:Ej; [|discriminate].
    assert (Hj : (j < List.length (rev created))%nat)
      by (apply nth_error_Some; congruence).
    simpl in E2. injection E2 as E2.
    destruct (Hid i oi Ei) as [Hi1 _]. destruct (Hid j oj Ej) as [Hj1 _].
    rewrite Hi1, Hj1 in E2. apply new_orderId_length_inj in E2.
    rewrite !length_app, !length_firstn in E2. simpl in E2. lia. }
  rewrite map_rev in Hnd. apply NoDup_rev in Hnd. rewrite rev_involutive in Hnd.
  exact Hnd.
Qed.

Lemma hook_state_fields (orders : list (Order number)) :
  hook_state parseFloat_toString orders ->
  Forall (fun order => customerEmail number order = None /\
                       totalAmount order = None /\
                       dueDate number order = None /\
                       priority number order = None /\
                       notes number order = None)
         orders.
Proof.
  induction 1 as [|data|orders req order_date status _ IH|orders target _ IH].
  - constructor.
  - unfold formattedOrders. apply Forall_forall. intros o Hin.
    apply in_map_iff in Hin. destruct Hin as (row & <- & _). simpl. tauto.
  - simpl. constructor; [simpl; tauto|exact IH].
  - unfold deleteOrder. apply Forall_forall. intros o Hin.
    apply filter_In in Hin. destruct Hin as [Hin _].
    apply (proj1 (Forall_forall _ _) IH o Hin).
Qed.

(** X29.  Whatever sequence of fetches, creates and deletes produced
    the orders of the hook, none of them carries a total, an email, a
    priority, a due date or notes: the revenue counted for each is its
    order amount, and its CSV line repeats the amount as the total,
    leaves email, due date and notes empty and gives the priority as
    medium. *)
Theorem hook_orders_use_order_amount (orders : list (Order number)) :
  hook_state parseFloat_toString orders ->
  Forall (fun order =>
            revenue_of truthy order = orderAmount order /\
            map snd (csv_object truthy num_to_string order)
            = [orderId order; customerName order; EmptyString;
               num_to_string (orderAmount order); num_to_string (orderAmount order);
               orderStatus order; "medium"; orderDate order;
               EmptyString; EmptyString])
         orders.
Proof.
  intro H. apply hook_state_fields in H.
  refine (Forall_impl _ _ H). intros order (He & Ht & Hd & Hp & Hn).
  unfold csv_object, revenue_of. cbn [map snd].
  rewrite He, Ht, Hd, Hp, Hn. simpl. split; reflexivity.
Qed.

(** X30.  Looking an order up by its identifier finds nothing after
    that identifier was deleted and is unchanged for every other
    identifier; after a create, the identifier of the new order finds
    the new order, also when an older order has the same identifier. *)
Theorem getOrderById_after_change (orders : list (Order number)) (target : string)
        (req : CreateOrderRequest number) (order_date status : string) :
  getOrderById (deleteOrder orders target) target = None /\
  (forall other, other <> target ->
                 getOrderById (deleteOrder orders target) other
                 = getOrderById orders other) /\
  getOrderById (snd (createOrder orders req order_date status)) (new_orderId orders)
  = Some (fst (createOrder orders req order_date status)).
Proof.
  unfold getOrderById, deleteOrder. split; [|split].
  - induction orders as [|o orders IH]; simpl; [reflexivity|].
    destruct (String.eqb (orderId o) target) eqn:E; simpl; [exact IH|].
    rewrite E. exact IH.
  - intros other Hne. induction orders as [|o orders IH]; simpl; [reflexivity|].
    destruct (String.eqb_spec (orderId o) target) as [E|E]; simpl.
    + destruct (String.eqb_spec (orderId o) other) as [E'|_]; [congruence|exact IH].
    + destruct (String.eqb (orderId o) other); [reflexivity|exact IH].
  - simpl. rewrite String.eqb_refl. reflexivity.
Qed.

End OrdersHook.

Lemma hook_orders_use_order_amount_witness :
  hook_state (fun x : Z => x) (snd after_third) /\
  Forall (fun order =>
            revenue_of truthy_Z order = orderAmount order /\
            map snd (csv_object truthy_Z Z_to_string order)
            = [orderId order; customerName order; EmptyString;
               Z_to_string (orderAmount order); Z_to_string (orderAmount order);
               orderStatus order; "medium"; orderDate order;
               EmptyString; EmptyString])
         (snd after_third).
Proof.
  assert (H : hook_state (fun x : Z => x) (snd after_third)).
  { unfold after_third.
    apply (hs_create Z Z). unfold after_delete. apply (hs_delete Z Z).
    unfold after_second. apply (hs_create Z Z). unfold after_first.
    apply (hs_create Z Z). apply (hs_initial Z Z). }
  split; [exact H|].
  apply (hook_orders_use_order_amount Z Z (fun x => x) truthy_Z Z_to_string
                                      (snd after_third) H).
Defined.

End HooksFacts.
